(** * elt_tools.client: orphan reconciliation between a source and a target store

    A shallow embedding of [elt_tools/client.py]: the time-range predicate
    builder, the [DataClient] endpoint, and the [ELTDBPair] operations
    [compare_counts], [find_orphans], [remove_orphans_from_target] and
    [remove_orphans_from_target_with_binary_search].

    Python values are modelled as follows.
    - [datetime.datetime] (naive) is a count of microseconds since
      0001-01-01 00:00:00; [datetime.date] is a proleptic Gregorian ordinal
      (day 1 is 0001-01-01); [datetime.timedelta] is a count of microseconds.
      The year range 1..9999 of Python is not enforced.
    - exceptions are an explicit error result; queries sent to a store are
      recorded in a trace.
    - SQL text is built as a structured term whose rendering is the text of
      the Python f-string. *)

From Stdlib Require Import ZArith List String Ascii Bool Lia DecimalString
  DecimalZ DecimalPos.
Import ListNotations.

Local Open Scope string_scope.
Local Open Scope list_scope.
Local Open Scope Z_scope.

Infix "+++" := String.append (right associativity, at level 60).

(** ** Python values *)

(** [str(int)] *)
Definition str_int (z : Z) : string := NilZero.string_of_int (Z.to_int z).

(** ["%0<width>d" % z] for a non-negative [z] *)
Fixpoint zeros (n : nat) : string :=
  match n with
  | O => ""
  | S n' => "0" +++ zeros n'
  end.

Definition zero_pad (width : nat) (s : string) : string :=
  zeros (width - String.length s) +++ s.

Definition fmt_d (width : nat) (z : Z) : string := zero_pad width (str_int z).

(** [sep.join(parts)] *)
Definition join (sep : string) (parts : list string) : string :=
  String.concat sep parts.

Definition newline : string := String (ascii_of_nat 10) "".

Module Calendar.

Definition us_per_second : Z := 1000000.
Definition us_per_day : Z := 86400 * us_per_second.

Definition _DI400Y : Z := 146097.
Definition _DI100Y : Z := 36524.
Definition _DI4Y : Z := 1461.

Definition _DAYS_IN_MONTH : list Z :=
  [-1; 31; 28; 31; 30; 31; 30; 31; 31; 30; 31; 30; 31].

Definition _DAYS_BEFORE_MONTH : list Z :=
  [-1; 0; 31; 59; 90; 120; 151; 181; 212; 243; 273; 304; 334].

Definition _is_leap (year : Z) : bool :=
  (year mod 4 =? 0) && (negb (year mod 100 =? 0) || (year mod 400 =? 0)).

Definition _days_before_year (year : Z) : Z :=
  let y := year - 1 in y * 365 + y / 4 - y / 100 + y / 400.

Definition _days_before_month (year month : Z) : Z :=
  nth (Z.to_nat month) _DAYS_BEFORE_MONTH 0
  + (if (2 <? month) && _is_leap year then 1 else 0).

Definition _ymd2ord (year month day : Z) : Z :=
  _days_before_year year + _days_before_month year month + day.

(** CPython's [_ord2ymd]: ordinal to (year, month, day). *)
Definition _ord2ymd (n : Z) : Z * Z * Z :=
  let n := n - 1 in
  let n400 := n / _DI400Y in
  let n := n mod _DI400Y in
  let year := n400 * 400 + 1 in
  let n100 := n / _DI100Y in
  let n := n mod _DI100Y in
  let n4 := n / _DI4Y in
  let n := n mod _DI4Y in
  let n1 := n / 365 in
  let n := n mod 365 in
  let year := year + n100 * 100 + n4 * 4 + n1 in
  if (n1 =? 4) || (n100 =? 4) then (year - 1, 12, 31)
  else
    let leapyear := (n1 =? 3) && (negb (n4 =? 24) || (n100 =? 3)) in
    let month := Z.shiftr (n + 50) 5 in
    let preceding :=
      nth (Z.to_nat month) _DAYS_BEFORE_MONTH 0
      + (if (2 <? month) && leapyear then 1 else 0) in
    if n <? preceding then
      let month := month - 1 in
      let preceding :=
        preceding - (nth (Z.to_nat month) _DAYS_IN_MONTH 0
                     + (if (month =? 2) && leapyear then 1 else 0)) in
      (year, month, n - preceding + 1)
    else (year, month, n - preceding + 1).

(** [date.isoformat()] *)
Definition isoformat_date (ordinal : Z) : string :=
  let '(y, m, d) := _ord2ymd ordinal in
  fmt_d 4 y +++ "-" +++ fmt_d 2 m +++ "-" +++ fmt_d 2 d.

(** [datetime.isoformat(sep=' ')], which is [str(datetime)] *)
Definition isoformat_datetime (us : Z) : string :=
  let days := us / us_per_day in
  let rest := us mod us_per_day in
  let secs := rest / us_per_second in
  let micro := rest mod us_per_second in
  isoformat_date (days + 1) +++ " "
    +++ fmt_d 2 (secs / 3600) +++ ":" +++ fmt_d 2 ((secs / 60) mod 60)
    +++ ":" +++ fmt_d 2 (secs mod 60)
    +++ (if micro =? 0 then "" else "." +++ fmt_d 6 micro).

(** [datetime.datetime(year, month, day, hour, minute, second)] *)
Definition datetime (year month day hour minute second : Z) : Z :=
  (_ymd2ord year month day - 1) * us_per_day
  + ((hour * 60 + minute) * 60 + second) * us_per_second.

(** [datetime.timedelta(seconds=n)] *)
Definition seconds (n : Z) : Z := n * us_per_second.

End Calendar.

(** A bound of a time range once it is not [None]: the annotated
    [datetime.datetime], or the [datetime.date] that [.date()] makes of it. *)
Inductive tvalue : Type :=
| DateTime (us : Z)
| Date (ordinal : Z).

Definition bound : Type := option tvalue.

Inductive exn : Type :=
| ValueError (msg : string)
| AttributeError (msg : string)
| TypeError (msg : string)
| IndexError (msg : string)
| KeyError (msg : string)
| QueryError (msg : string).

Inductive result (A : Type) : Type :=
| Ok (a : A)
| Raise (e : exn).
Arguments Ok {A} a.
Arguments Raise {A} e.

Definition tvalue_eqb (a b : tvalue) : bool :=
  match a, b with
  | DateTime x, DateTime y => x =? y
  | Date x, Date y => x =? y
  | _, _ => false
  end.

(** [a == b] on bounds: [None == None] holds, a datetime never equals a date. *)
Definition bound_eqb (a b : bound) : bool :=
  match a, b with
  | None, None => true
  | Some x, Some y => tvalue_eqb x y
  | _, _ => false
  end.

(** Truth value of a bound: [None] is false, every datetime and date is true. *)
Definition truthy (b : bound) : bool :=
  match b with Some _ => true | None => false end.

(** Truth value of [timestamp_fields]: [None] and [[]] are false. *)
Definition truthy_fields (fs : option (list string)) : bool :=
  match fs with Some (_ :: _) => true | _ => false end.

Definition iter_fields (fs : option (list string)) : list string :=
  match fs with Some l => l | None => [] end.

(** [str(v)] *)
Definition str_tvalue (v : tvalue) : string :=
  match v with
  | DateTime us => Calendar.isoformat_datetime us
  | Date o => Calendar.isoformat_date o
  end.

Definition str_bound (b : bound) : string :=
  match b with Some v => str_tvalue v | None => "None" end.

(** [v.date()]: a [datetime.date] has no such method. *)
Definition date_of (v : tvalue) : result tvalue :=
  match v with
  | DateTime us => Ok (Date (us / Calendar.us_per_day + 1))
  | Date _ =>
      Raise (AttributeError "'datetime.date' object has no attribute 'date'")
  end.

(** [if b: b = b.date()] *)
Definition truncate_bound (b : bound) : result bound :=
  match b with
  | None => Ok None
  | Some v => match date_of v with
              | Ok d => Ok (Some d)
              | Raise e => Raise e
              end
  end.

Definition same_range_msg : string :=
  "The date range for dates is inclusive of the start date and exclusive of the end date."
  +++ "Since your start and end date range is the same, your query will be meaningless.".

Definition no_fields_msg : string :=
  "You've passed in a time range, but no timestamp field names.".

(** ** The time-range predicate builder, as text *)

Definition _construct_where_clause_from_timerange
    (start_datetime end_datetime : bound)
    (timestamp_fields : option (list string))
    (stick_to_dates : bool) : result string :=
  let where_clause := "" in
  if stick_to_dates && bound_eqb start_datetime end_datetime then
    Raise (ValueError same_range_msg)
  else if (negb (truthy_fields timestamp_fields) && truthy start_datetime)
          || (negb (truthy_fields timestamp_fields) && truthy end_datetime) then
    Raise (ValueError no_fields_msg)
  else
    match (if stick_to_dates then truncate_bound start_datetime
           else Ok start_datetime) with
    | Raise e => Raise e
    | Ok start_datetime =>
    match (if stick_to_dates then truncate_bound end_datetime
           else Ok end_datetime) with
    | Raise e => Raise e
    | Ok end_datetime =>
      if truthy_fields timestamp_fields && truthy start_datetime
         && truthy end_datetime then
        Ok (where_clause +++ " WHERE " +++ join " OR "
              (map (fun timestamp_field =>
                      "(" +++ timestamp_field +++ " >= '"
                      +++ str_bound start_datetime +++ "' AND "
                      +++ timestamp_field +++ " < '"
                      +++ str_bound end_datetime +++ "')")
                   (iter_fields timestamp_fields)))
      else
        let where_clause :=
          if truthy_fields timestamp_fields && truthy start_datetime then
            where_clause +++ " WHERE " +++ join " AND "
              (map (fun timestamp_field =>
                      timestamp_field +++ " >= '"
                      +++ str_bound start_datetime +++ "'")
                   (iter_fields timestamp_fields))
          else where_clause in
        let where_clause :=
          if truthy_fields timestamp_fields && truthy end_datetime then
            where_clause +++ " AND " +++ join " AND "
              (map (fun timestamp_field =>
                      timestamp_field +++ " < '"
                      +++ str_bound end_datetime +++ "'")
                   (iter_fields timestamp_fields))
          else where_clause in
        Ok where_clause
    end
    end.

(** ** SQL terms

    The text of a query is assembled from the same pieces the f-strings use;
    a store receives the term and [render_query] gives the text. *)

Inductive comparison : Type :=
| Between (field : string) (lo hi : bound)
| AtLeast (field : string) (lo : bound)
| Before (field : string) (hi : bound).

Inductive keyword : Type := KwWhere | KwAnd.
Inductive connective : Type := ConnOr | ConnAnd.

Record fragment : Type := Fragment {
  intro : keyword;
  glue : connective;
  tests : list comparison
}.

(** A where clause is what has been appended to [where_clause = ""] so far. *)
Definition clause : Type := list fragment.

Definition render_comparison (c : comparison) : string :=
  match c with
  | Between f lo hi =>
      "(" +++ f +++ " >= '" +++ str_bound lo +++ "' AND "
      +++ f +++ " < '" +++ str_bound hi +++ "')"
  | AtLeast f lo => f +++ " >= '" +++ str_bound lo +++ "'"
  | Before f hi => f +++ " < '" +++ str_bound hi +++ "'"
  end.

Definition render_keyword (k : keyword) : string :=
  match k with KwWhere => " WHERE " | KwAnd => " AND " end.

Definition render_connective (c : connective) : string :=
  match c with ConnOr => " OR " | ConnAnd => " AND " end.

Definition render_fragment (fr : fragment) : string :=
  render_keyword (intro fr)
  +++ join (render_connective (glue fr)) (map render_comparison (tests fr)).

Definition render_clause (c : clause) : string :=
  String.concat "" (map render_fragment c).

(** The builder again, producing the term; [render_where_clause] below
    relates it to the text. *)
Definition where_clause_of_timerange
    (start_datetime end_datetime : bound)
    (timestamp_fields : option (list string))
    (stick_to_dates : bool) : result clause :=
  let where_clause : clause := [] in
  if stick_to_dates && bound_eqb start_datetime end_datetime then
    Raise (ValueError same_range_msg)
  else if (negb (truthy_fields timestamp_fields) && truthy start_datetime)
          || (negb (truthy_fields timestamp_fields) && truthy end_datetime) then
    Raise (ValueError no_fields_msg)
  else
    match (if stick_to_dates then truncate_bound start_datetime
           else Ok start_datetime) with
    | Raise e => Raise e
    | Ok start_datetime =>
    match (if stick_to_dates then truncate_bound end_datetime
           else Ok end_datetime) with
    | Raise e => Raise e
    | Ok end_datetime =>
      if truthy_fields timestamp_fields && truthy start_datetime
         && truthy end_datetime then
        Ok (where_clause ++
            [Fragment KwWhere ConnOr
               (map (fun timestamp_field =>
                       Between timestamp_field start_datetime end_datetime)
                    (iter_fields timestamp_fields))])
      else
        let where_clause :=
          if truthy_fields timestamp_fields && truthy start_datetime then
            where_clause ++
            [Fragment KwWhere ConnAnd
               (map (fun timestamp_field =>
                       AtLeast timestamp_field start_datetime)
                    (iter_fields timestamp_fields))]
          else where_clause in
        let where_clause :=
          if truthy_fields timestamp_fields && truthy end_datetime then
            where_clause ++
            [Fragment KwAnd ConnAnd
               (map (fun timestamp_field =>
                       Before timestamp_field end_datetime)
                    (iter_fields timestamp_fields))]
          else where_clause in
        Ok where_clause
    end
    end.

(** [if where_clause:] *)
Definition clause_nonempty (c : clause) : bool :=
  negb (String.eqb (render_clause c) "").

(** A value a store hands back in a row. *)
Inductive cell : Type :=
| CNull
| CInt (z : Z)
| CText (s : string)
| CTime (us : Z).

(** A row as a dict, in column order. *)
Definition row : Type := list (string * cell).

Fixpoint row_get (name : string) (r : row) : option cell :=
  match r with
  | [] => None
  | (n, v) :: rest => if String.eqb n name then Some v else row_get name rest
  end.

(** An element of an identifier set: an [int], or the [str] of anything else. *)
Inductive key : Type :=
| KInt (z : Z)
| KStr (s : string).

Definition key_eqb (a b : key) : bool :=
  match a, b with
  | KInt x, KInt y => x =? y
  | KStr x, KStr y => String.eqb x y
  | _, _ => false
  end.

Definition str_cell (v : cell) : string :=
  match v with
  | CNull => "None"
  | CInt z => str_int z
  | CText s => s
  | CTime us => Calendar.isoformat_datetime us
  end.

Inductive aggregate : Type := MIN | MAX.

Inductive query : Type :=
| CountQuery (field_name table_name : string) (where_clause : clause)
| AllIdsQuery (key_field table_name : string) (where_clause : clause)
| DeleteQuery (table_name key_field : string) (orphans : list key)
| ExtremeQuery (agg : aggregate) (timestamp_fields : list string)
               (table_name : string).

Definition format_primary_key (k : key) : string :=
  match k with
  | KInt z => str_int z
  | KStr s => "'" +++ s +++ "'"
  end.

Definition orphan_ids_csv (orphans : list key) : string :=
  join "," (map format_primary_key orphans).

(** [format_primary_key] puts a text between single quotes and escapes
    nothing.  A key is plain when its text may stand between quotes as it
    is: it holds no single quote, and no backslash, which some dialects read
    as an escape. *)
Definition single_quote : ascii := "'"%char.
Definition backslash : ascii := ascii_of_nat 92.

Fixpoint plain_text (s : string) : bool :=
  match s with
  | EmptyString => true
  | String ch rest =>
      negb (Ascii.eqb ch single_quote) && negb (Ascii.eqb ch backslash)
      && plain_text rest
  end.

Definition plain_key (k : key) : bool :=
  match k with
  | KInt _ => true
  | KStr s => plain_text s
  end.

(** The characters of [str(int)]: a sign or a digit. *)
Definition numeric (ch : ascii) : bool :=
  existsb (Ascii.eqb ch)
    ["-"; "0"; "1"; "2"; "3"; "4"; "5"; "6"; "7"; "8"; "9"]%char.

Fixpoint all_numeric (s : string) : bool :=
  match s with
  | EmptyString => true
  | String ch rest => numeric ch && all_numeric rest
  end.

Definition indent8 : string := "        ".
Definition indent12 : string := "            ".

Definition render_aggregate (a : aggregate) : string :=
  match a with MIN => "MIN" | MAX => "MAX" end.

Definition render_query (q : query) : string :=
  match q with
  | CountQuery field_name table_name where_clause =>
      newline +++ indent8 +++ "SELECT COUNT(" +++ field_name
      +++ ") AS count FROM " +++ table_name +++ newline +++ indent8
      +++ render_clause where_clause
  | AllIdsQuery key_field table_name where_clause =>
      newline +++ indent12 +++ "SELECT " +++ key_field +++ " AS id FROM "
      +++ table_name +++ newline +++ indent8 +++ render_clause where_clause
  | DeleteQuery table_name key_field orphans =>
      newline +++ indent12 +++ "DELETE " +++ table_name +++ " " +++ newline
      +++ indent12 +++ "WHERE " +++ key_field +++ " IN ("
      +++ orphan_ids_csv orphans +++ ") " +++ newline +++ indent12
  | ExtremeQuery agg timestamp_fields table_name =>
      newline +++ indent12 +++ "SELECT "
      +++ join ", " (map (fun x => render_aggregate agg +++ "(" +++ x
                                   +++ ") AS " +++ x +++ " ")
                         timestamp_fields)
      +++ newline +++ indent12 +++ "FROM " +++ table_name
      +++ newline +++ indent12
  end.

(** ** Stores, and the effects of the client *)

(** The engine behind a [DataClient]: it runs a query on a store and hands
    back rows or fails, and may change the store. *)
Class Engine (db : Type) : Type :=
  execute : db -> query -> result (list row) * db.

Inductive endpoint : Type := Source | Target.

Record world (db : Type) : Type := World {
  source : db;
  target : db;
  trace : list (endpoint * query)
}.
Arguments World {db}.
Arguments source {db}.
Arguments target {db}.
Arguments trace {db}.

(** How a call ends.  [OutOfFuel] belongs to the model only: the recursion
    of the binary search is bounded by a fuel argument. *)
Inductive outcome (A : Type) : Type :=
| Returns (a : A)
| Raises (e : exn)
| OutOfFuel.
Arguments Returns {A} a.
Arguments Raises {A} e.
Arguments OutOfFuel {A}.

Definition M (db A : Type) : Type := world db -> outcome A * world db.

Definition ret {db A} (a : A) : M db A := fun w => (Returns a, w).

Definition raise {db A} (e : exn) : M db A := fun w => (Raises e, w).

Definition bind {db A B} (m : M db A) (k : A -> M db B) : M db B :=
  fun w =>
    match m w with
    | (Returns a, w') => k a w'
    | (Raises e, w') => (Raises e, w')
    | (OutOfFuel, w') => (OutOfFuel, w')
    end.

Definition lift {db A} (r : result A) : M db A :=
  match r with
  | Ok a => ret a
  | Raise e => raise e
  end.

Declare Scope client_scope.
Delimit Scope client_scope with client.
Notation "x <- m ;; k" := (bind m (fun x => k))
  (at level 100, m at next level, right associativity) : client_scope.
Notation "' pat <- m ;; k" := (bind m (fun x => let 'pat := x in k))
  (at level 100, pat pattern, m at next level, right associativity)
  : client_scope.
Notation "m ;; k" := (bind m (fun _ => k))
  (at level 100, right associativity) : client_scope.
Local Open Scope client_scope.

(** [map(f, xs)] consumed eagerly, stopping at the first exception *)
Fixpoint map_result {A B} (f : A -> result B) (xs : list A) : result (list B) :=
  match xs with
  | [] => Ok []
  | x :: rest =>
      match f x with
      | Raise e => Raise e
      | Ok y => match map_result f rest with
                | Raise e => Raise e
                | Ok ys => Ok (y :: ys)
                end
      end
  end.

(** *** Identifier sets

    A Python [set] is a duplicate-free list; the order in which a set is
    iterated is unspecified in Python and is the order of last occurrence
    here. *)

Definition key_mem (k : key) (s : list key) : bool := existsb (key_eqb k) s.

Fixpoint set_of_list (l : list key) : list key :=
  match l with
  | [] => []
  | k :: rest => if key_mem k rest then set_of_list rest
                 else k :: set_of_list rest
  end.

Definition set_difference (a b : list key) : list key :=
  filter (fun k => negb (key_mem k b)) a.

(** [if not field_name: field_name = "*"] *)
Definition counted_field (field_name : option string) : string :=
  match field_name with
  | None => "*"
  | Some f => if String.eqb f "" then "*" else f
  end.

Module DataClient.
Section DataClient.
Context {db : Type} `{Engine db}.

Definition store_of (self : endpoint) (w : world db) : db :=
  match self with Source => source w | Target => target w end.

(** [self.engine.execute(query).fetchall()] *)
Definition fetch_rows (self : endpoint) (q : query) : M db (list row) :=
  fun w =>
    let '(r, d) := execute (store_of self w) q in
    let w' :=
      match self with
      | Source => World d (target w) (trace w ++ [(self, q)])
      | Target => World (source w) d (trace w ++ [(self, q)])
      end in
    match r with
    | Ok rows => (Returns rows, w')
    | Raise e => (Raises e, w')
    end.

(** [[dict(r) for r in self.fetch_rows(query)]] *)
Definition query (self : endpoint) (q : query) : M db (list row) :=
  fetch_rows self q.

Definition count (self : endpoint) (table_name : string)
    (field_name : option string)
    (start_datetime end_datetime : bound)
    (timestamp_fields : option (list string))
    (stick_to_dates : bool) : M db cell :=
  let field_name := counted_field field_name in
  where_clause <- lift (where_clause_of_timerange start_datetime end_datetime
                          timestamp_fields stick_to_dates) ;;
  rows <- query self (CountQuery field_name table_name where_clause) ;;
  match rows with
  | [] => raise (IndexError "list index out of range")
  | first :: _ =>
      match row_get "count" first with
      | None => raise (KeyError "count")
      | Some v => ret v
      end
  end.

End DataClient.
End DataClient.

(** The value of [target_count - source_count]. *)
Inductive difference : Type :=
| DiffInt (z : Z)
| DiffDelta (us : Z).

Definition cell_sub (a b : cell) : result difference :=
  match a, b with
  | CInt x, CInt y => Ok (DiffInt (x - y))
  | CTime x, CTime y => Ok (DiffDelta (x - y))
  | _, _ => Raise (TypeError "unsupported operand type(s) for -")
  end.

(** [d == 0] *)
Definition difference_is_zero (d : difference) : bool :=
  match d with DiffInt z => z =? 0 | DiffDelta _ => false end.

(** [c == 0] for a count *)
Definition cell_is_zero (c : cell) : bool :=
  match c with CInt z => z =? 0 | _ => false end.

(** [c < n] for a count and an [int] *)
Definition cell_lt (c : cell) (n : Z) : result bool :=
  match c with
  | CInt z => Ok (z <? n)
  | _ => Raise (TypeError "'<' not supported between these instances")
  end.

(** [c >= n] for a count and an [int] *)
Definition cell_ge (c : cell) (n : Z) : result bool :=
  match c with
  | CInt z => Ok (n <=? z)
  | _ => Raise (TypeError "'>=' not supported between these instances")
  end.

(** [format_id(row)] inside [find_orphans] *)
Definition format_id (r : row) : result key :=
  match row_get "id" r with
  | None => Raise (KeyError "id")
  | Some (CInt z) => Ok (KInt z)
  | Some v => Ok (KStr (str_cell v))
  end.

(** *** Arithmetic on bounds *)

(** [a - b] *)
Definition tvalue_sub (a b : tvalue) : result Z :=
  match a, b with
  | DateTime x, DateTime y => Ok (x - y)
  | Date x, Date y => Ok ((x - y) * Calendar.us_per_day)
  | _, _ => Raise (TypeError "unsupported operand type(s) for -")
  end.

(** [a + delta]: a date ignores what is less than a day *)
Definition tvalue_add (a : tvalue) (delta : Z) : tvalue :=
  match a with
  | DateTime x => DateTime (x + delta)
  | Date x => Date (x + delta / Calendar.us_per_day)
  end.

(** CPython's [_divide_and_round]: nearest integer, a tie goes to the even one *)
Definition _divide_and_round (a b : Z) : Z :=
  let q := a / b in
  let r := (a mod b) * 2 in
  let greater_than_half := if 0 <? b then b <? r else r <? b in
  if greater_than_half || ((r =? b) && (q mod 2 =? 1)) then q + 1 else q.

(** [timedelta / 2] *)
Definition timedelta_half (delta : Z) : Z := _divide_and_round delta 2.

Definition avg_datetime (start end_ : bound) : result tvalue :=
  match start, end_ with
  | Some s, Some e =>
      match tvalue_sub e s with
      | Ok d => Ok (tvalue_add s (timedelta_half d))
      | Raise e => Raise e
      end
  | _, _ => Raise (TypeError "unsupported operand type(s) for -")
  end.

Definition bifurcate_time_range (start end_ : bound)
  : result (bound * tvalue * bound) :=
  match avg_datetime start end_ with
  | Ok halfway => Ok (start, halfway, end_)
  | Raise e => Raise e
  end.

(** [min(values)] / [max(values)] over the first row of an aggregate query.
    Timestamp columns hold timestamps or NULL; other values are outside the
    model and are reported as a [TypeError]. *)
Fixpoint extreme_of (agg : aggregate) (acc : cell) (vs : list cell) : result cell :=
  match vs with
  | [] => Ok acc
  | v :: rest =>
      match acc, v with
      | CTime a, CTime b =>
          extreme_of agg
            (match agg with
             | MIN => if b <? a then CTime b else CTime a
             | MAX => if a <? b then CTime b else CTime a
             end) rest
      | _, _ => Raise (TypeError "'<' not supported between these instances")
      end
  end.

Definition py_extreme (agg : aggregate) (vs : list cell) : result bound :=
  match vs with
  | [] => Raise (ValueError "arg is an empty sequence")
  | v :: rest =>
      match extreme_of agg v rest with
      | Raise e => Raise e
      | Ok (CTime us) => Ok (Some (DateTime us))
      | Ok CNull => Ok None
      | Ok _ => Raise (TypeError "timestamp column holds no timestamp")
      end
  end.

(** [a - b] on bounds; [None] has no subtraction *)
Definition bound_sub (a b : bound) : result Z :=
  match a, b with
  | Some x, Some y => tvalue_sub x y
  | _, _ => Raise (TypeError "unsupported operand type(s) for -")
  end.

(** [(a - b) < delta] *)
Definition segment_below (a b : bound) (delta : Z) : result bool :=
  match bound_sub a b with
  | Ok d => Ok (d <? delta)
  | Raise e => Raise e
  end.

(** [a or b] and [a and b]: the right operand is evaluated only when needed *)
Definition or_else (a b : result bool) : result bool :=
  match a with
  | Ok true => Ok true
  | Ok false => b
  | Raise e => Raise e
  end.

Definition and_then (a b : result bool) : result bool :=
  match a with
  | Ok true => b
  | Ok false => Ok false
  | Raise e => Raise e
  end.

Definition default_thres : Z := 10000.
Definition default_min_segment_size : Z := Calendar.seconds 10.

Module ELTDBPair.
Section ELTDBPair.
Context {db : Type} `{Engine db}.

Definition compare_counts (table_name : string)
    (field_name : option string)
    (start_datetime end_datetime : bound)
    (timestamp_fields : option (list string))
    (stick_to_dates : bool) : M db difference :=
  target_count <- DataClient.count Target table_name field_name
                    start_datetime end_datetime timestamp_fields
                    stick_to_dates ;;
  source_count <- DataClient.count Source table_name field_name
                    start_datetime end_datetime timestamp_fields
                    stick_to_dates ;;
  lift (cell_sub target_count source_count).

(** The part of [find_orphans] after the count shortcut. *)
Definition fetch_and_diff (all_ids_query : query) : M db (list key) :=
  rows <- DataClient.fetch_rows Target all_ids_query ;;
  target_ids <- lift (map_result format_id rows) ;;
  let target_ids := set_of_list target_ids in
  rows <- DataClient.fetch_rows Source all_ids_query ;;
  source_ids <- lift (map_result format_id rows) ;;
  let source_ids := set_of_list source_ids in
  let orphans := set_difference target_ids source_ids in
  ret orphans.

Definition find_orphans (table_name key_field : string)
    (start_datetime end_datetime : bound)
    (timestamp_fields : option (list string))
    (stick_to_dates : bool) : M db (list key) :=
  where_clause <- lift (where_clause_of_timerange start_datetime end_datetime
                          timestamp_fields stick_to_dates) ;;
  let all_ids_query := AllIdsQuery key_field table_name where_clause in
  if clause_nonempty where_clause then
    count_diff <- compare_counts table_name None start_datetime end_datetime
                    timestamp_fields stick_to_dates ;;
    if difference_is_zero count_diff then ret []
    else fetch_and_diff all_ids_query
  else fetch_and_diff all_ids_query.

Definition remove_orphans_from_target (table_name key_field : string)
    (start_datetime end_datetime : bound)
    (timestamp_fields : option (list string))
    (stick_to_dates : bool) : M db Z :=
  orphans <- find_orphans table_name key_field start_datetime end_datetime
               timestamp_fields stick_to_dates ;;
  let num_orphans := Z.of_nat (List.length orphans) in
  let orphan_ids_csv := orphan_ids_csv orphans in
  if String.eqb orphan_ids_csv "" then ret num_orphans
  else
    (DataClient.query Target (DeleteQuery table_name key_field orphans) ;;
     ret num_orphans).

(** [if not start_datetime:] / [if not end_datetime:] of the binary search:
    the bound is read from the target store. *)
Definition derive_bound (agg : aggregate) (table_name : string)
    (timestamp_fields : option (list string)) : M db bound :=
  match timestamp_fields with
  | None => raise (TypeError "'NoneType' object is not iterable")
  | Some fields =>
      result <- DataClient.query Target
                  (ExtremeQuery agg fields table_name) ;;
      match result with
      | [] => raise (IndexError "list index out of range")
      | first :: _ => lift (py_extreme agg (map snd first))
      end
  end.

(** The signature of [remove_orphans_from_target_with_binary_search]. *)
Definition binary_search : Type :=
  string -> string -> bound -> bound -> option (list string) -> bool ->
  Z -> Z -> M db Z.

(** The body of [remove_orphans_from_target_with_binary_search]; [self] is
    the method itself, for the two recursive calls. *)
Definition binary_search_body (self : binary_search)
    (table_name key_field : string)
    (start_datetime end_datetime : bound)
    (timestamp_fields : option (list string))
    (stick_to_dates : bool)
    (thres : Z) (min_segment_size : Z) : M db Z :=
  start_datetime <-
    (if truthy start_datetime then ret start_datetime
     else derive_bound MIN table_name timestamp_fields) ;;
  end_datetime <-
    (if truthy end_datetime then ret end_datetime
     else derive_bound MAX table_name timestamp_fields) ;;
  start_datetime <-
    lift (if stick_to_dates then truncate_bound start_datetime
          else Ok start_datetime) ;;
  end_datetime <-
    lift (if stick_to_dates then truncate_bound end_datetime
          else Ok end_datetime) ;;
  let removed_count := 0 in
  '(start, halfway, end_) <-
    lift (bifurcate_time_range start_datetime end_datetime) ;;
  let halfway := Some halfway in
  count1 <-
    (if negb (bound_eqb start halfway) then
       DataClient.count Target table_name (Some key_field) start halfway
         timestamp_fields stick_to_dates
     else ret (CInt 0)) ;;
  count2 <-
    (if negb (bound_eqb end_ halfway) then
       DataClient.count Target table_name (Some key_field) halfway end_
         timestamp_fields stick_to_dates
     else ret (CInt 0)) ;;
  exit_now <-
    lift (or_else (Ok (bound_eqb start halfway))
            (or_else (Ok (bound_eqb end_ halfway))
               (segment_below halfway start min_segment_size))) ;;
  if exit_now then
    remove_orphans_from_target table_name key_field start end_
      timestamp_fields stick_to_dates
  else if cell_is_zero count1 && cell_is_zero count2 then ret 0
  else
    both_below <- lift (and_then (cell_lt count1 thres)
                                 (cell_lt count2 thres)) ;;
    if both_below then
      a <- remove_orphans_from_target table_name key_field start halfway
             timestamp_fields stick_to_dates ;;
      b <- remove_orphans_from_target table_name key_field halfway end_
             timestamp_fields stick_to_dates ;;
      ret (a + b)
    else
      some_above <- lift (or_else (cell_ge count1 thres)
                                  (cell_ge count2 thres)) ;;
      if some_above then
        a <- self table_name key_field start halfway timestamp_fields
               stick_to_dates thres default_min_segment_size ;;
        b <- self table_name key_field halfway end_ timestamp_fields
               stick_to_dates thres default_min_segment_size ;;
        ret (removed_count + (a + b))
      else ret removed_count.

(** The recursion is bounded by [fuel]; the theorems below show that enough
    fuel always exists. *)
Fixpoint remove_orphans_from_target_with_binary_search (fuel : nat)
  : binary_search :=
  match fuel with
  | O => fun _ _ _ _ _ _ _ _ w => (OutOfFuel, w)
  | S fuel =>
      binary_search_body (remove_orphans_from_target_with_binary_search fuel)
  end.

End ELTDBPair.
End ELTDBPair.

(** ** An in-memory store

    A relational store with the semantics the client's queries rely on:
    tables are lists of rows, a timestamp comparison against NULL or against
    a cell that holds no timestamp is not satisfied, [COUNT(c)] skips NULL,
    and text that is not a statement (a clause that does not begin with
    WHERE, an empty select list, an empty IN list) is rejected.

    The delete acts on the text of its IN list, as the client sent it: the
    store reads the literals back from the text, integers and texts between
    single quotes with a doubled quote for a quote inside, separated by
    commas and blanks, and rejects every other text. *)

Module MemDB.

Definition table : Type := list row.
Definition store : Type := list (string * table).

Fixpoint lookup_table (name : string) (s : store) : option table :=
  match s with
  | [] => None
  | (n, t) :: rest => if String.eqb n name then Some t
                      else lookup_table name rest
  end.

Fixpoint replace_table (name : string) (t : table) (s : store) : store :=
  match s with
  | [] => []
  | (n, t0) :: rest => if String.eqb n name then (n, t) :: rest
                       else (n, t0) :: replace_table name t rest
  end.

(** The point in time a quoted bound denotes. *)
Definition instant (v : tvalue) : Z :=
  match v with
  | DateTime us => us
  | Date o => (o - 1) * Calendar.us_per_day
  end.

Definition column_time (f : string) (r : row) : option Z :=
  match row_get f r with
  | Some (CTime t) => Some t
  | _ => None
  end.

Definition holds (r : row) (c : comparison) : bool :=
  match c with
  | Between f (Some lo) (Some hi) =>
      match column_time f r with
      | Some t => (instant lo <=? t) && (t <? instant hi)
      | None => false
      end
  | AtLeast f (Some lo) =>
      match column_time f r with
      | Some t => instant lo <=? t
      | None => false
      end
  | Before f (Some hi) =>
      match column_time f r with
      | Some t => t <? instant hi
      | None => false
      end
  | _ => false
  end.

Fixpoint and_fragments (frs : list fragment) : option (row -> bool) :=
  match frs with
  | [] => Some (fun _ => true)
  | fr :: rest =>
      match intro fr, glue fr, tests fr with
      | KwAnd, ConnAnd, _ :: _ =>
          match and_fragments rest with
          | Some p => Some (fun r => forallb (holds r) (tests fr) && p r)
          | None => None
          end
      | _, _, _ => None
      end
  end.

(** The rows a clause selects, or [None] when the text is not a clause. *)
Definition selection (c : clause) : option (row -> bool) :=
  match c with
  | [] => Some (fun _ => true)
  | fr :: rest =>
      match intro fr, tests fr with
      | KwWhere, _ :: _ =>
          match glue fr, rest with
          | ConnOr, [] => Some (fun r => existsb (holds r) (tests fr))
          | ConnOr, _ :: _ => None
          | ConnAnd, _ =>
              match and_fragments rest with
              | Some p => Some (fun r => forallb (holds r) (tests fr) && p r)
              | None => None
              end
          end
      | _, _ => None
      end
  end.

Definition column (f : string) (r : row) : cell :=
  match row_get f r with Some v => v | None => CNull end.

Definition counted (field_name : string) (r : row) : bool :=
  if String.eqb field_name "*" then true
  else match column field_name r with CNull => false | _ => true end.

(** The literal of an IN list that equals a cell, if any. *)
Definition cell_key (v : cell) : option key :=
  match v with
  | CNull => None
  | CInt z => Some (KInt z)
  | CText s => Some (KStr s)
  | CTime us => Some (KStr (Calendar.isoformat_datetime us))
  end.

Definition listed (key_field : string) (ids : list key) (r : row) : bool :=
  match cell_key (column key_field r) with
  | Some k => key_mem k ids
  | None => false
  end.

(** *** The literals of an IN list *)

Definition is_comma (ch : ascii) : bool := Ascii.eqb ch ","%char.
Definition is_quote (ch : ascii) : bool := Ascii.eqb ch single_quote.
Definition is_blank (ch : ascii) : bool :=
  existsb (Ascii.eqb ch)
    [" "%char; ascii_of_nat 9; ascii_of_nat 10; ascii_of_nat 13].

(** Where the reader is: before a literal, inside a number, inside a quoted
    text, after a quote inside a text (its end, or the first half of a
    doubled quote), after a literal. *)
Inductive reader : Type :=
| Expecting
| InNumber (digits : string)
| InText (chars : string)
| QuoteSeen (chars : string)
| Closed.

Definition number (digits : string) : option key :=
  option_map (fun d => KInt (Z.of_int d)) (NilZero.int_of_string digits).

Definition snoc (s : string) (ch : ascii) : string := s +++ String ch "".

Fixpoint read_literals (st : reader) (seen : list key) (text : string)
  : option (list key) :=
  match text with
  | EmptyString =>
      match st with
      | Expecting => None
      | InNumber digits => option_map (fun k => seen ++ [k]) (number digits)
      | InText _ => None
      | QuoteSeen chars => Some (seen ++ [KStr chars])
      | Closed => Some seen
      end
  | String ch rest =>
      match st with
      | Expecting =>
          if is_blank ch then read_literals Expecting seen rest
          else if is_quote ch then read_literals (InText "") seen rest
          else if is_comma ch then None
          else read_literals (InNumber (String ch "")) seen rest
      | InNumber digits =>
          if is_comma ch || is_blank ch then
            match number digits with
            | Some k =>
                read_literals (if is_comma ch then Expecting else Closed)
                  (seen ++ [k]) rest
            | None => None
            end
          else read_literals (InNumber (snoc digits ch)) seen rest
      | InText chars =>
          if is_quote ch then read_literals (QuoteSeen chars) seen rest
          else read_literals (InText (snoc chars ch)) seen rest
      | QuoteSeen chars =>
          if is_quote ch then read_literals (InText (snoc chars ch)) seen rest
          else if is_comma ch then
            read_literals Expecting (seen ++ [KStr chars]) rest
          else if is_blank ch then
            read_literals Closed (seen ++ [KStr chars]) rest
          else None
      | Closed =>
          if is_blank ch then read_literals Closed seen rest
          else if is_comma ch then read_literals Expecting seen rest
          else None
      end
  end.

(** The keys the text of an IN list denotes, or [None] when the text is no
    list of literals. *)
Definition literals (text : string) : option (list key) :=
  read_literals Expecting [] text.

Definition extreme_time (agg : aggregate) (f : string) (t : table) : cell :=
  fold_left
    (fun acc r =>
       match column_time f r, acc with
       | Some x, CTime a =>
           match agg with
           | MIN => if x <? a then CTime x else CTime a
           | MAX => if a <? x then CTime x else CTime a
           end
       | Some x, _ => CTime x
       | None, _ => acc
       end) t CNull.

Definition syntax_error : exn := QueryError "syntax error".
Definition no_such_table : exn := QueryError "no such table".

Definition run (s : store) (q : query) : result (list row) * store :=
  match q with
  | CountQuery field_name table_name where_clause =>
      match lookup_table table_name s, selection where_clause with
      | None, _ => (Raise no_such_table, s)
      | _, None => (Raise syntax_error, s)
      | Some t, Some p =>
          let n := List.length
                     (filter (fun r => p r && counted field_name r) t) in
          (Ok [[("count", CInt (Z.of_nat n))]], s)
      end
  | AllIdsQuery key_field table_name where_clause =>
      match lookup_table table_name s, selection where_clause with
      | None, _ => (Raise no_such_table, s)
      | _, None => (Raise syntax_error, s)
      | Some t, Some p =>
          (Ok (map (fun r => [("id", column key_field r)]) (filter p t)), s)
      end
  | DeleteQuery table_name key_field ids =>
      match lookup_table table_name s, literals (orphan_ids_csv ids) with
      | None, _ => (Raise no_such_table, s)
      | _, None => (Raise syntax_error, s)
      | Some t, Some denoted =>
          (Ok [],
           replace_table table_name
             (filter (fun r => negb (listed key_field denoted r)) t) s)
      end
  | ExtremeQuery agg fields table_name =>
      match lookup_table table_name s, fields with
      | None, _ => (Raise no_such_table, s)
      | _, [] => (Raise syntax_error, s)
      | Some t, _ :: _ =>
          (Ok [map (fun f => (f, extreme_time agg f t)) fields], s)
      end
  end.

End MemDB.

#[export] Instance mem_engine : Engine MemDB.store := MemDB.run.

(** ** Example data *)

Module Examples.

Definition t0 : Z := Calendar.datetime 2020 1 1 0 0 0.
Definition at_second (n : Z) : Z := t0 + Calendar.seconds n.

Definition record (id : cell) (created_at : Z) : row :=
  [("id", id); ("created_at", CTime created_at)].

(** One orphan in the target early in the window; one row of the source
    that has not reached the target yet, late in the window. *)
Definition lagging : world MemDB.store :=
  World [("events", [record (CInt 2) (at_second 25)])]
        [("events", [record (CInt 1) (at_second 5)])]
        [].

(** The target holds one identifier twice and the source holds nothing. *)
Definition duplicated : world MemDB.store :=
  World [("events", [])]
        [("events", [record (CInt 7) (at_second 1);
                     record (CInt 7) (at_second 2)])]
        [].

(** The source lost two of the four rows the target holds: the rows of keys
    2 and "d" are orphans, one in each half of a forty-second window. *)
Definition kept : MemDB.table :=
  [record (CInt 1) (at_second 5); record (CText "c") (at_second 25)].

Definition loaded : MemDB.table :=
  [record (CInt 1) (at_second 5); record (CInt 2) (at_second 12);
   record (CText "c") (at_second 25); record (CText "d") (at_second 31)].

Definition reconciled : world MemDB.store :=
  World [("events", kept)] [("events", loaded)] [].

(** The target holds a row without a key, which the source lacks. *)
Definition unkeyed : world MemDB.store :=
  World [("events", [])]
        [("events", [record CNull (at_second 1)])]
        [].

(** Two orphans in the target, one in each half of a forty-second window;
    the key of the second holds a single quote. *)
Definition apostrophe : world MemDB.store :=
  World [("events", [record (CInt 1) (at_second 5)])]
        [("events", [record (CInt 1) (at_second 5);
                     record (CInt 2) (at_second 12);
                     record (CText "O'Brien") (at_second 31)])]
        [].

(** 08:00 and 17:00 of the same day. *)
Definition morning : tvalue := DateTime (Calendar.datetime 2020 1 1 8 0 0).
Definition evening : tvalue := DateTime (Calendar.datetime 2020 1 1 17 0 0).

(** A window of three days. *)
Definition first_day : tvalue := DateTime (Calendar.datetime 2020 1 1 8 0 0).
Definition third_day : tvalue := DateTime (Calendar.datetime 2020 1 3 17 0 0).

End Examples.

(** ** Vocabulary of the statements *)

(** [w'] is [w] after more queries: the trace only grows. *)
Definition extends {db : Type} (w w' : world db) : Prop :=
  exists events, trace w' = trace w ++ events.

(** A call that cannot run out of fuel. *)
Definition fuel_free {db A : Type} (m : M db A) : Prop :=
  forall w, fst (m w) <> OutOfFuel.

(** A call that only adds to the trace. *)
Definition appends {db A : Type} (m : M db A) : Prop :=
  forall w, extends w (snd (m w)).

(** A query that reads: every query of the client but the bulk delete. *)
Definition is_read (ev : endpoint * query) : bool :=
  match snd ev with
  | DeleteQuery _ _ _ => false
  | _ => true
  end.

(** How many deletes a trace holds. *)
Definition deletes (t : list (endpoint * query)) : nat :=
  List.length (filter (fun ev => negb (is_read ev)) t).

(** A call that sends read queries only. *)
Definition reads_only {db A : Type} (m : M db A) : Prop :=
  forall w, exists events,
      trace (snd (m w)) = trace w ++ events /\ forallb is_read events = true.

(** The two recursive calls of the binary search on [[s, h)] and [[h, e)],
    as the body makes them: same table, key, columns, flag and threshold,
    and the default minimum segment size. *)
Definition recursive_calls {db : Type} (self : @ELTDBPair.binary_search db)
    (table_name key_field : string) (timestamp_fields : option (list string))
    (stick_to_dates : bool) (thres : Z) (s h e : tvalue) : M db Z :=
  bind (self table_name key_field (Some s) (Some h) timestamp_fields
          stick_to_dates thres default_min_segment_size)
    (fun a =>
       bind (self table_name key_field (Some h) (Some e) timestamp_fields
               stick_to_dates thres default_min_segment_size)
         (fun b => ret (0 + (a + b)))).

(** What is known of a segment [[s, e)] with midpoint [h] when the body
    recurses: no date truncation, the given bounds are the segment's, the
    midpoint differs from both and lies at least [min_segment_size] after
    the start. *)
Definition bisects (start_datetime end_datetime : bound)
    (stick_to_dates : bool) (min_segment_size : Z) (s h e : tvalue) : Prop :=
  stick_to_dates = false
  /\ (truthy start_datetime = true -> start_datetime = Some s)
  /\ (truthy end_datetime = true -> end_datetime = Some e)
  /\ avg_datetime (Some s) (Some e) = Ok h
  /\ tvalue_eqb s h = false
  /\ tvalue_eqb e h = false
  /\ segment_below (Some h) (Some s) min_segment_size = Ok false.

(** A computation that depends on [self] either makes exactly the two
    recursive calls on a segment that satisfies [P], after a prefix that
    leaves the world [w1], or never calls [self] and ends without it. *)
Definition splits {db : Type} (P : tvalue -> tvalue -> tvalue -> Prop)
    (table_name key_field : string) (timestamp_fields : option (list string))
    (stick_to_dates : bool) (thres : Z)
    (f : @ELTDBPair.binary_search db -> M db Z) (w : world db) : Prop :=
  (exists s h e w1,
      P s h e
      /\ forall self,
          f self w = recursive_calls self table_name key_field
                       timestamp_fields stick_to_dates thres s h e w1)
  \/ (exists r, fst r <> OutOfFuel /\ forall self, f self w = r).

(** The length of a segment in microseconds. *)
Definition span (s e : tvalue) : Z :=
  match tvalue_sub e s with
  | Ok d => d
  | Raise _ => 0
  end.

(** The indivisible unit of a bound: a microsecond for a datetime, a day
    for a date. *)
Definition unit_of (v : tvalue) : Z :=
  match v with
  | DateTime _ => 1
  | Date _ => Calendar.us_per_day
  end.

(** The steps of the body that come before its exit test: the two counts. *)
Definition half_counts {db : Type} `{Engine db} (table_name key_field : string)
    (timestamp_fields : option (list string)) (stick_to_dates : bool)
    (s h e : tvalue) (after : M db Z) : M db Z :=
  bind (if negb (bound_eqb (Some s) (Some h)) then
          DataClient.count Target table_name (Some key_field) (Some s) (Some h)
            timestamp_fields stick_to_dates
        else ret (CInt 0))
    (fun _ =>
       bind (if negb (bound_eqb (Some e) (Some h)) then
               DataClient.count Target table_name (Some key_field) (Some h)
                 (Some e) timestamp_fields stick_to_dates
             else ret (CInt 0))
         (fun _ => after)).

(** *** Datasets in which the target differs from the source by orphans only *)

(** The tests of a datetime range [[s, e)], one for each column. *)
Definition range_tests (fields : list string) (s e : Z) : list comparison :=
  map (fun f => Between f (Some (DateTime s)) (Some (DateTime e))) fields.

(** The row has one of its [fields] timestamps in [[s, e)]. *)
Definition in_range (fields : list string) (s e : Z) (r : row) : bool :=
  existsb (MemDB.holds r) (range_tests fields s e).

(** The identifier [format_id] makes of the key of a row. *)
Definition id_of (key_field : string) (r : row) : key :=
  match MemDB.column key_field r with
  | CInt z => KInt z
  | v => KStr (str_cell v)
  end.

(** The key of the row is not NULL. *)
Definition keyed (key_field : string) (r : row) : bool :=
  match MemDB.column key_field r with
  | CNull => false
  | _ => true
  end.

(** A row of the target in [[s, e)] whose key no row of the source has. *)
Definition orphan_in (key_field : string) (fields : list string)
    (src : MemDB.table) (s e : Z) (r : row) : bool :=
  in_range fields s e r
  && negb (key_mem (id_of key_field r) (map (id_of key_field) src)).

(** The table holds [src] in the source and [tgt] in the target; the key is
    a primary key of both (no key twice, and in the target no NULL and no
    text that the unescaped quoting of the delete would break); every row of
    the source is a row of the target. *)
Record orphans_only (table_name key_field : string) (w : world MemDB.store)
    (src tgt : MemDB.table) : Prop := {
  source_rows : MemDB.lookup_table table_name (source w) = Some src;
  target_rows : MemDB.lookup_table table_name (target w) = Some tgt;
  source_keys_unique : NoDup (map (id_of key_field) src);
  target_keys_unique : NoDup (map (id_of key_field) tgt);
  target_keyed : forall r, In r tgt -> keyed key_field r = true;
  target_plain : forall r, In r tgt -> plain_key (id_of key_field r) = true;
  source_in_target : incl src tgt
}.

(** The key is a primary key of the table, and the delete can name every
    key: no key twice, none NULL, none that the unescaped quoting breaks. *)
Definition primary_key (key_field : string) (t : MemDB.table) : Prop :=
  NoDup (map (id_of key_field) t)
  /\ forall r, In r t ->
       keyed key_field r = true /\ plain_key (id_of key_field r) = true.

(** A call that leaves the two in-memory stores as they were. *)
Definition keeps_stores {A : Type} (m : M MemDB.store A) : Prop :=
  forall w, source (snd (m w)) = source w /\ target (snd (m w)) = target w.

(** The world after more queries were logged. *)
Definition logged {db : Type} (w : world db) (events : list (endpoint * query))
  : world db :=
  World (source w) (target w) (trace w ++ events).

(** The clause of a datetime range on the listed columns. *)
Definition range_clause (fields : list string) (s e : Z) : clause :=
  [Fragment KwWhere ConnOr (range_tests fields s e)].

(** ** Loading rows: [DataClient.insert_rows]

    The statements of [insert_rows] are not queries of the pair; they have a
    type and an engine class of their own.  Reflecting the table
    ([Table(name, metadata, autoload=True)]) and inserting the rows with
    [table.insert()] is one statement: what happens in between belongs to
    the engine. *)

Inductive statement : Type :=
| TruncateTable (table : option string)
| InsertRows (table_name : string) (rows : list row).

(** [f"{table}"] for a table name that may be [None] *)
Definition str_table (table : option string) : string :=
  match table with
  | Some t => t
  | None => "None"
  end.

Definition render_truncate (table : option string) : string :=
  "TRUNCATE TABLE " +++ str_table table.

Class Loader (db : Type) : Type :=
  run_statement : db -> statement -> result unit * db.

(** A [DataClient]: the store behind its engine, its [table_name]
    attribute, and the statements it has executed. *)
Record client (db : Type) : Type := Client {
  client_store : db;
  client_table_name : option string;
  client_executed : list statement
}.
Arguments Client {db}.
Arguments client_store {db}.
Arguments client_table_name {db}.
Arguments client_executed {db}.

(** [DataClient.__init__] *)
Definition new_client {db : Type} (engine : db) : client db :=
  Client engine None [].

(** [DataClient.construct_response]; a row is a dict, its columns are the
    names it lists. *)
Definition construct_response (rows : list row) (table : option string)
  : result string :=
  match rows with
  | [] => Raise (IndexError "list index out of range")
  | first :: _ =>
      let columns := map fst first in
      let column_names := join ", " columns in
      let num_rows := Z.of_nat (List.length rows) in
      Ok ("Inserted " +++ str_int num_rows +++ " rows into `"
          +++ str_table table +++ "` with "
          +++ str_int (Z.of_nat (List.length columns)) +++ " columns: "
          +++ column_names)
  end.

(** [self.engine.execute(...)] of a statement *)
Definition execute_statement {db : Type} `{Loader db} (st : statement)
    (self : client db) : result unit * client db :=
  let '(r, d) := run_statement (client_store self) st in
  (r, Client d (client_table_name self) (client_executed self ++ [st])).

(** [self.table]: [None] unless [table_name] is a non-empty name *)
Definition client_table {db : Type} (self : client db) : option string :=
  match client_table_name self with
  | Some t => if String.eqb t "" then None else Some t
  | None => None
  end.

(** [DataClient.insert_rows(rows, table, replace)] *)
Definition insert_rows {db : Type} `{Loader db} (rows : list row)
    (table : option string) (replace : bool) (self : client db)
  : result string * client db :=
  let '(truncated, self) :=
    if replace then execute_statement (TruncateTable table) self
    else (Ok tt, self) in
  match truncated with
  | Raise e => (Raise e, self)
  | Ok _ =>
      let self := Client (client_store self) table (client_executed self) in
      match client_table self with
      | None =>
          (Raise (AttributeError
                    "'NoneType' object has no attribute 'insert'"), self)
      | Some t =>
          let '(inserted, self) := execute_statement (InsertRows t rows) self in
          match inserted with
          | Raise e => (Raise e, self)
          | Ok _ => (construct_response rows table, self)
          end
      end
  end.

(** The rows an insert adds.  Executed with an empty list of parameters, the
    insert of [table.insert()] carries no values and adds one row of
    defaults: every column NULL, which is the row without a cell here. *)
Definition inserted_rows (rows : list row) : list row :=
  match rows with
  | [] => [[]]
  | _ :: _ => rows
  end.

(** The in-memory store as a loader: TRUNCATE empties the table, the insert
    appends the rows; both fail on a table the store does not hold. *)
Definition mem_load (s : MemDB.store) (st : statement)
  : result unit * MemDB.store :=
  match st with
  | TruncateTable table =>
      match MemDB.lookup_table (str_table table) s with
      | Some _ => (Ok tt, MemDB.replace_table (str_table table) [] s)
      | None => (Raise MemDB.no_such_table, s)
      end
  | InsertRows t rows =>
      match MemDB.lookup_table t s with
      | Some old =>
          (Ok tt, MemDB.replace_table t (old ++ inserted_rows rows) s)
      | None => (Raise MemDB.no_such_table, s)
      end
  end.

#[export] Instance mem_loader : Loader MemDB.store := mem_load.

(** ** Building a pair from settings: [from_settings], [__repr__]

    [elt_tools.settings] and [elt_tools.engines] are not among the sources:
    the two settings tables and [engine_from_settings] are parameters. *)

Module Settings.
Section Settings.

Variable engine : Type.
Variable settings : Type.

(** [elt_tools.engines.engine_from_settings(db_key, databases=...)] *)
Variable engine_from_settings :
  string -> list (string * settings) -> result engine.

(** [DataClient.databases], [ELTDBPair.databases] and
    [ELTDBPair.elt_pairs], the class attributes *)
Variable client_databases : list (string * settings).
Variable databases : list (string * settings).
Variable elt_pairs : list (string * list (string * string)).

Fixpoint dict_get {V : Type} (key : string) (d : list (string * V))
  : option V :=
  match d with
  | [] => None
  | (k, v) :: rest => if String.eqb k key then Some v else dict_get key rest
  end.

(** [d[key]] *)
Definition dict_item {V : Type} (key : string) (d : list (string * V))
  : result V :=
  match dict_get key d with
  | Some v => Ok v
  | None => Raise (KeyError key)
  end.

(** Truth value of an optional string: [None] and [""] are false. *)
Definition truthy_name (n : option string) : bool :=
  match n with
  | Some s => negb (String.eqb s "")
  | None => false
  end.

(** [DataClient.from_settings(db_key, databases)]; the client is its
    engine. *)
Definition client_from_settings (db_key : string)
    (given : option (list (string * settings))) : result engine :=
  let db_settings :=
    match given with
    | Some ((_ :: _) as d) => d
    | _ => client_databases
    end in
  engine_from_settings db_key db_settings.

Record pair : Type := Pair {
  pair_name : option string;
  pair_source : engine;
  pair_target : engine
}.

(** [ELTDBPair.from_settings(name, db_key)] *)
Definition from_settings (name db_key : option string) : result pair :=
  let name := if truthy_name name then name else db_key in
  let db_key := if truthy_name db_key then db_key else name in
  match (match db_key with
         | Some k => dict_item k elt_pairs
         | None => Raise (KeyError "None")
         end) with
  | Raise e => Raise e
  | Ok source_target_settings =>
      match dict_item "source" source_target_settings with
      | Raise e => Raise e
      | Ok source_key =>
          match client_from_settings source_key (Some databases) with
          | Raise e => Raise e
          | Ok source_client =>
              match dict_item "target" source_target_settings with
              | Raise e => Raise e
              | Ok target_key =>
                  match client_from_settings target_key (Some databases) with
                  | Raise e => Raise e
                  | Ok target_client =>
                      Ok (Pair name source_client target_client)
                  end
              end
          end
      end
  end.

(** [ELTDBPair.__repr__]: it returns [self.name]; Python's [repr] refuses a
    result that is no string. *)
Definition repr (p : pair) : result string :=
  match pair_name p with
  | Some n => Ok n
  | None => Raise (TypeError "__repr__ returned non-string (type NoneType)")
  end.

End Settings.
End Settings.

(** *** Vocabulary of the further properties *)

(** The bound is a [datetime.date]. *)
Definition is_date (b : bound) : bool :=
  match b with
  | Some (Date _) => true
  | _ => false
  end.

(** What the source may receive: counts and fetches of identifiers.  The
    target may receive every query. *)
Definition source_is_read (ev : endpoint * query) : bool :=
  match fst ev with
  | Target => true
  | Source =>
      match snd ev with
      | CountQuery _ _ _ => true
      | AllIdsQuery _ _ _ => true
      | _ => false
      end
  end.

(** A call whose queries all satisfy [P]. *)
Definition sends {db A : Type} (P : endpoint * query -> bool) (m : M db A)
  : Prop :=
  forall w, exists events,
      trace (snd (m w)) = trace w ++ events /\ forallb P events = true.

(** * Properties *)

(** ** The predicate builder *)

(** The term built by [where_clause_of_timerange] renders to the text built
    by [_construct_where_clause_from_timerange], and the two fail alike. *)
Lemma render_where_clause start_datetime end_datetime timestamp_fields stick :
  _construct_where_clause_from_timerange start_datetime end_datetime
    timestamp_fields stick
  = match where_clause_of_timerange start_datetime end_datetime
            timestamp_fields stick with
    | Ok c => Ok (render_clause c)
    | Raise e => Raise e
    end.
Proof.
  unfold _construct_where_clause_from_timerange, where_clause_of_timerange.
  destruct (stick && bound_eqb start_datetime end_datetime); [reflexivity|].
  destruct ((negb (truthy_fields timestamp_fields) && truthy start_datetime)
            || (negb (truthy_fields timestamp_fields) && truthy end_datetime));
    [reflexivity|].
  destruct (if stick then truncate_bound start_datetime else Ok start_datetime)
    as [s|]; [|reflexivity].
  destruct (if stick then truncate_bound end_datetime else Ok end_datetime)
    as [e|]; [|reflexivity].
  destruct (truthy_fields timestamp_fields), (truthy s), (truthy e);
    cbn [andb app]; unfold render_clause, render_fragment;
    cbn [map String.concat intro glue tests render_keyword render_connective
         String.append];
    rewrite ?map_map; reflexivity.
Qed.

(** Rendered text is empty exactly for the empty clause. *)
Lemma clause_nonempty_cons fr rest : clause_nonempty (fr :: rest) = true.
Proof.
  unfold clause_nonempty, render_clause. cbn [map String.concat].
  destruct rest; unfold render_fragment; destruct (intro fr); reflexivity.
Qed.

Lemma clause_nonempty_nil : clause_nonempty [] = false.
Proof. reflexivity. Qed.

Lemma truthy_some (b : bound) : b <> None -> truthy b = true.
Proof. destruct b; [reflexivity | congruence]. Qed.

(** With the truncation flag off and no bound, the clause is empty. *)
Lemma no_range_no_clause timestamp_fields :
  where_clause_of_timerange None None timestamp_fields false = Ok []
  /\ _construct_where_clause_from_timerange None None timestamp_fields false
     = Ok "".
Proof.
  unfold where_clause_of_timerange, _construct_where_clause_from_timerange.
  cbn [andb bound_eqb truthy]. rewrite !andb_false_r. split; reflexivity.
Qed.

(** C2 (the code departs from the claim).  With an end bound, no start bound
    and a non-empty column list, the builder returns the conjunction of the
    tests [column < 'end'] introduced by [" AND "] and not by [" WHERE "]:
    the text is no clause, and the in-memory store rejects a count that
    carries it. *)
Theorem end_only_clause_lacks_where :
  (forall e f fs,
      _construct_where_clause_from_timerange None (Some e) (Some (f :: fs))
        false
      = Ok (" AND " +++ join " AND "
              (map (fun c => c +++ " < '" +++ str_tvalue e +++ "'") (f :: fs))))
  /\ _construct_where_clause_from_timerange None (Some (DateTime Examples.t0))
       (Some ["created_at"]) false
     = Ok " AND created_at < '2020-01-01 00:00:00'"
  /\ fst (DataClient.count Target "events" None None
            (Some (DateTime Examples.t0)) (Some ["created_at"]) false
            Examples.lagging)
     = Raises MemDB.syntax_error.
Proof.
  split; [|split].
  - intros e f fs. reflexivity.
  - vm_compute. reflexivity.
  - vm_compute. reflexivity.
Qed.

(** C3 (the code departs from the claim).  With the truncation flag on, the
    bounds are compared before they are truncated: 08:00 and 17:00 of one
    day are accepted, and the clause that comes back spans no time at all. *)
Theorem same_day_bounds_are_accepted :
  date_of Examples.morning = date_of Examples.evening
  /\ _construct_where_clause_from_timerange (Some Examples.morning)
       (Some Examples.evening) (Some ["created_at"]) true
     = Ok " WHERE (created_at >= '2020-01-01' AND created_at < '2020-01-01')".
Proof. split; vm_compute; reflexivity. Qed.

(** C5 (the code departs from the claim).  With no bound at all and the
    truncation flag on, the builder raises: [None == None] passes for a range
    whose dates coincide. *)
Theorem no_range_with_truncation_raises :
  forall timestamp_fields,
    _construct_where_clause_from_timerange None None timestamp_fields true
    = Raise (ValueError same_range_msg).
Proof. intros fs. reflexivity. Qed.

(** A bound given without timestamp columns makes the builder raise
    [ValueError], whichever of its two checks fires first. *)
Lemma where_clause_needs_fields start_datetime end_datetime timestamp_fields
    stick :
  start_datetime <> None \/ end_datetime <> None ->
  truthy_fields timestamp_fields = false ->
  exists msg,
    where_clause_of_timerange start_datetime end_datetime timestamp_fields
      stick = Raise (ValueError msg).
Proof.
  intros Hb Hf. unfold where_clause_of_timerange.
  destruct (stick && bound_eqb start_datetime end_datetime);
    [eexists; reflexivity|].
  rewrite Hf. cbn [negb andb].
  destruct Hb as [Hb | Hb]; rewrite (truthy_some _ Hb);
    [|rewrite orb_true_r]; eexists; reflexivity.
Qed.

(** ** Calls on any engine *)

Create HintDb client.

Lemma extends_refl {db} (w : world db) : extends w w.
Proof. exists []. now rewrite app_nil_r. Qed.

Lemma extends_trans {db} (w1 w2 w3 : world db) :
  extends w1 w2 -> extends w2 w3 -> extends w1 w3.
Proof.
  intros [e1 H1] [e2 H2]. exists (e1 ++ e2). now rewrite H2, H1, app_assoc.
Qed.

Lemma bind_appends {db A B} (m : M db A) (k : A -> M db B) :
  appends m -> (forall a, appends (k a)) -> appends (bind m k).
Proof.
  intros Hm Hk w. unfold bind. specialize (Hm w).
  destruct (m w) as [[a | e |] w1]; cbn [snd] in *; trivial.
  eapply extends_trans; [exact Hm | apply Hk].
Qed.

Lemma bind_fuel_free {db A B} (m : M db A) (k : A -> M db B) :
  fuel_free m -> (forall a, fuel_free (k a)) -> fuel_free (bind m k).
Proof.
  intros Hm Hk w. unfold bind. specialize (Hm w).
  destruct (m w) as [[a | e |] w1]; cbn [fst] in *;
    [apply Hk | discriminate | congruence].
Qed.

Lemma ret_appends {db A} (a : A) : appends (@ret db A a).
Proof. intros w. apply extends_refl. Qed.

Lemma ret_fuel_free {db A} (a : A) : fuel_free (@ret db A a).
Proof. intros w. discriminate. Qed.

Lemma raise_appends {db A} e : appends (@raise db A e).
Proof. intros w. apply extends_refl. Qed.

Lemma raise_fuel_free {db A} e : fuel_free (@raise db A e).
Proof. intros w. discriminate. Qed.

Lemma lift_appends {db A} (r : result A) : appends (@lift db A r).
Proof. destruct r; [apply ret_appends | apply raise_appends]. Qed.

Lemma lift_fuel_free {db A} (r : result A) : fuel_free (@lift db A r).
Proof. destruct r; [apply ret_fuel_free | apply raise_fuel_free]. Qed.

(** What one query does to the world: the store of the endpoint is the one
    the engine hands back, and the query is logged. *)
Lemma fetch_rows_run {db} `{Engine db} (self : endpoint) (q : query)
    (w : world db) :
  exists o w',
    DataClient.fetch_rows self q w = (o, w')
    /\ trace w' = trace w ++ [(self, q)]
    /\ o <> OutOfFuel
    /\ (o = match fst (execute (DataClient.store_of self w) q) with
            | Ok rows => Returns rows
            | Raise e => Raises e
            end)
    /\ DataClient.store_of self w'
       = snd (execute (DataClient.store_of self w) q)
    /\ match self with
       | Source => target w' = target w
       | Target => source w' = source w
       end.
Proof.
  unfold DataClient.fetch_rows.
  destruct (execute (DataClient.store_of self w) q) as [r d].
  destruct r, self; eexists; eexists; cbn;
    repeat split; try reflexivity; discriminate.
Qed.

Lemma fetch_rows_appends {db} `{Engine db} self q :
  appends (DataClient.fetch_rows self q).
Proof.
  intros w. destruct (fetch_rows_run self q w) as (o & w' & E & T & _).
  rewrite E. exists [(self, q)]. exact T.
Qed.

Lemma fetch_rows_fuel_free {db} `{Engine db} self q :
  fuel_free (DataClient.fetch_rows self q).
Proof.
  intros w. destruct (fetch_rows_run self q w) as (o & w' & E & _ & N & _).
  now rewrite E.
Qed.

#[export] Hint Resolve bind_appends bind_fuel_free ret_appends ret_fuel_free
  raise_appends raise_fuel_free lift_appends lift_fuel_free
  fetch_rows_appends fetch_rows_fuel_free : client.
#[export] Hint Extern 3 (appends (match ?x with _ => _ end)) =>
  destruct x : client.
#[export] Hint Extern 3 (fuel_free (match ?x with _ => _ end)) =>
  destruct x : client.

Lemma count_appends {db} `{Engine db} self table_name field_name
    start_datetime end_datetime timestamp_fields stick :
  appends (DataClient.count self table_name field_name start_datetime
             end_datetime timestamp_fields stick).
Proof. unfold DataClient.count, DataClient.query. auto 12 with client. Qed.

Lemma count_fuel_free {db} `{Engine db} self table_name field_name
    start_datetime end_datetime timestamp_fields stick :
  fuel_free (DataClient.count self table_name field_name start_datetime
               end_datetime timestamp_fields stick).
Proof. unfold DataClient.count, DataClient.query. auto 12 with client. Qed.

#[export] Hint Resolve count_appends count_fuel_free : client.

Lemma compare_counts_appends {db} `{Engine db} table_name field_name
    start_datetime end_datetime timestamp_fields stick :
  appends (ELTDBPair.compare_counts table_name field_name start_datetime
             end_datetime timestamp_fields stick).
Proof. unfold ELTDBPair.compare_counts. auto 12 with client. Qed.

Lemma compare_counts_fuel_free {db} `{Engine db} table_name field_name
    start_datetime end_datetime timestamp_fields stick :
  fuel_free (ELTDBPair.compare_counts table_name field_name start_datetime
               end_datetime timestamp_fields stick).
Proof. unfold ELTDBPair.compare_counts. auto 12 with client. Qed.

Lemma fetch_and_diff_appends {db} `{Engine db} q :
  appends (ELTDBPair.fetch_and_diff q).
Proof. unfold ELTDBPair.fetch_and_diff. auto 12 with client. Qed.

Lemma fetch_and_diff_fuel_free {db} `{Engine db} q :
  fuel_free (ELTDBPair.fetch_and_diff q).
Proof. unfold ELTDBPair.fetch_and_diff. auto 12 with client. Qed.

#[export] Hint Resolve compare_counts_appends compare_counts_fuel_free
  fetch_and_diff_appends fetch_and_diff_fuel_free : client.

Lemma find_orphans_appends {db} `{Engine db} table_name key_field
    start_datetime end_datetime timestamp_fields stick :
  appends (ELTDBPair.find_orphans table_name key_field start_datetime
             end_datetime timestamp_fields stick).
Proof. unfold ELTDBPair.find_orphans. auto 12 with client. Qed.

Lemma find_orphans_fuel_free {db} `{Engine db} table_name key_field
    start_datetime end_datetime timestamp_fields stick :
  fuel_free (ELTDBPair.find_orphans table_name key_field start_datetime
               end_datetime timestamp_fields stick).
Proof. unfold ELTDBPair.find_orphans. auto 12 with client. Qed.

#[export] Hint Resolve find_orphans_appends find_orphans_fuel_free : client.

Lemma remove_orphans_appends {db} `{Engine db} table_name key_field
    start_datetime end_datetime timestamp_fields stick :
  appends (ELTDBPair.remove_orphans_from_target table_name key_field
             start_datetime end_datetime timestamp_fields stick).
Proof.
  unfold ELTDBPair.remove_orphans_from_target, DataClient.query.
  auto 12 with client.
Qed.

Lemma remove_orphans_fuel_free {db} `{Engine db} table_name key_field
    start_datetime end_datetime timestamp_fields stick :
  fuel_free (ELTDBPair.remove_orphans_from_target table_name key_field
               start_datetime end_datetime timestamp_fields stick).
Proof.
  unfold ELTDBPair.remove_orphans_from_target, DataClient.query.
  auto 12 with client.
Qed.

Lemma derive_bound_fuel_free {db} `{Engine db} agg table_name
    timestamp_fields :
  fuel_free (ELTDBPair.derive_bound agg table_name timestamp_fields).
Proof.
  unfold ELTDBPair.derive_bound, DataClient.query. auto 12 with client.
Qed.

#[export] Hint Resolve remove_orphans_appends remove_orphans_fuel_free
  derive_bound_fuel_free : client.

Lemma bind_returns {db A B} (m : M db A) (k : A -> M db B) w b w' :
  bind m k w = (Returns b, w') ->
  exists a w1, m w = (Returns a, w1) /\ k a w1 = (Returns b, w').
Proof.
  unfold bind. destruct (m w) as [[a | e |] w1]; intros E;
    [exists a, w1; auto | discriminate | discriminate].
Qed.

Lemma lift_returns {db A} (r : result A) (w : world db) a w' :
  lift r w = (Returns a, w') -> r = Ok a /\ w' = w.
Proof.
  destruct r; cbn; unfold ret, raise; intros E; inversion E; auto.
Qed.

Lemma bind_assoc_run {db A B C} (m : M db A) (k : A -> M db B)
    (k' : B -> M db C) w :
  bind m (fun a => bind (k a) k') w = bind (bind m k) k' w.
Proof.
  unfold bind. destruct (m w) as [[a | e |] w1]; reflexivity.
Qed.

(** What comes after the first call of a sequence only extends its world. *)
Lemma bind_extends_first {db A B} (m : M db A) (k : A -> M db B) w :
  (forall a, appends (k a)) -> extends (snd (m w)) (snd (bind m k w)).
Proof.
  intros Hk. unfold bind.
  destruct (m w) as [[a | e |] w1]; cbn [snd];
    [apply Hk | apply extends_refl | apply extends_refl].
Qed.

Section Reconciliation.
Context {db : Type} `{Engine db}.

Lemma count_unfold self table_name field_name start_datetime end_datetime
    timestamp_fields stick c (w : world db) :
  where_clause_of_timerange start_datetime end_datetime timestamp_fields stick
  = Ok c ->
  DataClient.count self table_name field_name start_datetime end_datetime
    timestamp_fields stick w
  = bind (DataClient.fetch_rows self
            (CountQuery (counted_field field_name) table_name c))
      (fun rows =>
         match rows with
         | [] => raise (IndexError "list index out of range")
         | first :: _ =>
             match row_get "count" first with
             | None => raise (KeyError "count")
             | Some v => ret v
             end
         end) w.
Proof.
  intros Hc. unfold DataClient.count, DataClient.query.
  unfold bind at 1. rewrite Hc. reflexivity.
Qed.

Lemma count_trace self table_name field_name start_datetime end_datetime
    timestamp_fields stick c (w : world db) :
  where_clause_of_timerange start_datetime end_datetime timestamp_fields stick
  = Ok c ->
  trace (snd (DataClient.count self table_name field_name start_datetime
                end_datetime timestamp_fields stick w))
  = trace w ++ [(self, CountQuery (counted_field field_name) table_name c)].
Proof.
  intros Hc. rewrite (count_unfold _ _ _ _ _ _ _ _ _ Hc). unfold bind.
  destruct (fetch_rows_run self
              (CountQuery (counted_field field_name) table_name c) w)
    as (o & w' & E & T & _).
  rewrite E.
  destruct o as [[|first rest] | e |]; cbn [snd]; trivial.
  destruct (row_get "count" first); exact T.
Qed.

Lemma count_raises_early self table_name field_name start_datetime
    end_datetime timestamp_fields stick e (w : world db) :
  where_clause_of_timerange start_datetime end_datetime timestamp_fields stick
  = Raise e ->
  DataClient.count self table_name field_name start_datetime end_datetime
    timestamp_fields stick w = (Raises e, w).
Proof.
  intros Hc. unfold DataClient.count, bind. rewrite Hc. reflexivity.
Qed.

Lemma where_clause_given_range start_datetime end_datetime timestamp_fields
    stick c :
  where_clause_of_timerange start_datetime end_datetime timestamp_fields stick
  = Ok c ->
  start_datetime <> None \/ end_datetime <> None ->
  clause_nonempty c = true.
Proof.
  unfold where_clause_of_timerange. intros Hc Hb.
  destruct (stick && bound_eqb start_datetime end_datetime); [discriminate|].
  destruct (truthy_fields timestamp_fields) eqn:Hf.
  2:{ destruct (where_clause_needs_fields start_datetime end_datetime
                  timestamp_fields false Hb Hf) as [msg Hm].
      unfold where_clause_of_timerange in Hm. rewrite Hf in Hm.
      cbn [andb negb] in *.
      destruct (truthy start_datetime || truthy end_datetime); discriminate. }
  cbn [negb andb orb] in Hc.
  destruct start_datetime as [s|], end_datetime as [e|];
    try (destruct Hb; congruence);
    destruct stick; cbn in Hc;
    repeat match type of Hc with
           | context [date_of ?v] => destruct (date_of v); cbn in Hc
           end;
    try discriminate; inversion Hc; subst c; apply clause_nonempty_cons.
Qed.

Lemma where_clause_without_range timestamp_fields stick c :
  where_clause_of_timerange None None timestamp_fields stick = Ok c -> c = [].
Proof.
  destruct stick; [discriminate|].
  rewrite (proj1 (no_range_no_clause timestamp_fields)). congruence.
Qed.

(** C4.  A start or an end bound with an empty or absent list of timestamp
    columns makes the builder raise [ValueError]; [count], [find_orphans] and
    [remove_orphans_from_target] raise it with the world as it was, no query
    sent. *)
Theorem bound_without_fields_raises start_datetime end_datetime
    timestamp_fields stick :
  start_datetime <> None \/ end_datetime <> None ->
  truthy_fields timestamp_fields = false ->
  exists msg,
    _construct_where_clause_from_timerange start_datetime end_datetime
      timestamp_fields stick = Raise (ValueError msg)
    /\ forall (w : world db) self table_name field_name key_field,
        DataClient.count self table_name field_name start_datetime
          end_datetime timestamp_fields stick w
        = (Raises (ValueError msg), w)
        /\ ELTDBPair.find_orphans table_name key_field start_datetime
             end_datetime timestamp_fields stick w
           = (Raises (ValueError msg), w)
        /\ ELTDBPair.remove_orphans_from_target table_name key_field
             start_datetime end_datetime timestamp_fields stick w
           = (Raises (ValueError msg), w).
Proof.
  intros Hb Hf.
  destruct (where_clause_needs_fields _ _ _ stick Hb Hf) as [msg Hw].
  exists msg. split.
  - rewrite render_where_clause, Hw. reflexivity.
  - intros w self table_name field_name key_field.
    assert (Hfind : ELTDBPair.find_orphans table_name key_field
                      start_datetime end_datetime timestamp_fields stick w
                    = (Raises (ValueError msg), w)).
    { unfold ELTDBPair.find_orphans, bind. rewrite Hw. reflexivity. }
    split; [apply count_raises_early; exact Hw | split; [exact Hfind|]].
    unfold ELTDBPair.remove_orphans_from_target, bind. rewrite Hfind.
    reflexivity.
Qed.

Lemma find_orphans_with_clause table_name key_field start_datetime
    end_datetime timestamp_fields stick c (w : world db) :
  where_clause_of_timerange start_datetime end_datetime timestamp_fields stick
  = Ok c ->
  ELTDBPair.find_orphans table_name key_field start_datetime end_datetime
    timestamp_fields stick w
  = (if clause_nonempty c then
       bind (ELTDBPair.compare_counts table_name None start_datetime
               end_datetime timestamp_fields stick)
         (fun count_diff =>
            if difference_is_zero count_diff then ret []
            else ELTDBPair.fetch_and_diff (AllIdsQuery key_field table_name c))
     else ELTDBPair.fetch_and_diff (AllIdsQuery key_field table_name c)) w.
Proof.
  intros Hc. unfold ELTDBPair.find_orphans. unfold bind at 1.
  rewrite Hc. reflexivity.
Qed.

Lemma compare_counts_returns table_name field_name start_datetime
    end_datetime timestamp_fields stick c (w w' : world db) d :
  where_clause_of_timerange start_datetime end_datetime timestamp_fields stick
  = Ok c ->
  ELTDBPair.compare_counts table_name field_name start_datetime end_datetime
    timestamp_fields stick w = (Returns d, w') ->
  trace w' = trace w
             ++ [(Target, CountQuery (counted_field field_name) table_name c);
                 (Source, CountQuery (counted_field field_name) table_name c)].
Proof.
  intros Hc E. unfold ELTDBPair.compare_counts in E.
  apply bind_returns in E. destruct E as (tc & w1 & E1 & E).
  apply bind_returns in E. destruct E as (sc & w2 & E2 & E).
  apply lift_returns in E. destruct E as [_ ->].
  pose proof (count_trace Target table_name field_name _ _ _ _ _ w Hc) as T1.
  pose proof (count_trace Source table_name field_name _ _ _ _ _ w1 Hc) as T2.
  rewrite E1 in T1. rewrite E2 in T2. cbn [snd] in *.
  rewrite T2, T1, <- app_assoc. reflexivity.
Qed.

(** C6.  When a bound is given (and the builder accepts the arguments),
    [find_orphans] begins with the target count of [compare_counts] over the
    range, and when [compare_counts] returns zero it returns the empty set
    having sent the two count queries and nothing else.  With no bound,
    [find_orphans] is the fetch of the two identifier sets and begins with
    the fetch from the target. *)
Theorem find_orphans_count_shortcut table_name key_field start_datetime
    end_datetime timestamp_fields stick c (w : world db) :
  where_clause_of_timerange start_datetime end_datetime timestamp_fields stick
  = Ok c ->
  (start_datetime <> None \/ end_datetime <> None ->
   (exists rest,
       trace (snd (ELTDBPair.find_orphans table_name key_field start_datetime
                     end_datetime timestamp_fields stick w))
       = trace w ++ (Target, CountQuery "*" table_name c) :: rest)
   /\ forall d w',
       ELTDBPair.compare_counts table_name None start_datetime end_datetime
         timestamp_fields stick w = (Returns d, w') ->
       difference_is_zero d = true ->
       ELTDBPair.find_orphans table_name key_field start_datetime
         end_datetime timestamp_fields stick w = (Returns [], w')
       /\ trace w' = trace w ++ [(Target, CountQuery "*" table_name c);
                                 (Source, CountQuery "*" table_name c)])
  /\ (start_datetime = None -> end_datetime = None ->
      ELTDBPair.find_orphans table_name key_field start_datetime end_datetime
        timestamp_fields stick w
      = ELTDBPair.fetch_and_diff (AllIdsQuery key_field table_name []) w
      /\ exists rest,
          trace (snd (ELTDBPair.find_orphans table_name key_field
                        start_datetime end_datetime timestamp_fields stick w))
          = trace w ++ (Target, AllIdsQuery key_field table_name []) :: rest).
Proof.
  intros Hc. split.
  - intros Hb. rewrite (find_orphans_with_clause _ _ _ _ _ _ _ w Hc).
    rewrite (where_clause_given_range _ _ _ _ _ Hc Hb). split.
    + unfold ELTDBPair.compare_counts. rewrite <- !bind_assoc_run.
      match goal with
      | |- context [bind ?m ?k w] =>
          destruct (bind_extends_first m k w) as [rest Hrest]
      end.
      { auto 15 with client. }
      rewrite Hrest, (count_trace Target table_name None _ _ _ _ _ w Hc).
      rewrite <- app_assoc. exists rest. reflexivity.
    + intros d w' E Hz. split.
      * unfold bind. rewrite E, Hz. reflexivity.
      * exact (compare_counts_returns _ None _ _ _ _ _ _ _ _ Hc E).
  - intros -> ->. apply where_clause_without_range in Hc as Hnil. subst c.
    rewrite (find_orphans_with_clause _ _ _ _ _ _ _ w Hc).
    rewrite clause_nonempty_nil. split; [reflexivity|].
    unfold ELTDBPair.fetch_and_diff.
    match goal with
    | |- context [bind ?m ?k w] =>
        destruct (bind_extends_first m k w) as [rest Hrest]
    end.
    { auto 15 with client. }
    rewrite Hrest.
    destruct (fetch_rows_run Target (AllIdsQuery key_field table_name []) w)
      as (o & w1 & E & T & _).
    rewrite E. cbn [snd]. rewrite T, <- app_assoc. exists rest. reflexivity.
Qed.

Lemma bind_reads_only {A B} (m : M db A) (k : A -> M db B) :
  reads_only m -> (forall a, reads_only (k a)) -> reads_only (bind m k).
Proof.
  intros Hm Hk w. unfold bind. destruct (Hm w) as (e1 & T1 & R1).
  destruct (m w) as [[a | e |] w1]; cbn [snd] in *;
    try (exists e1; split; assumption).
  destruct (Hk a w1) as (e2 & T2 & R2). exists (e1 ++ e2).
  rewrite T2, T1, <- app_assoc, forallb_app, R1, R2. split; reflexivity.
Qed.

Lemma ret_reads_only {A} (a : A) : reads_only (@ret db A a).
Proof. intros w. exists []. cbn. now rewrite app_nil_r. Qed.

Lemma raise_reads_only {A} e : reads_only (@raise db A e).
Proof. intros w. exists []. cbn. now rewrite app_nil_r. Qed.

Lemma lift_reads_only {A} (r : result A) : reads_only (@lift db A r).
Proof. destruct r; [apply ret_reads_only | apply raise_reads_only]. Qed.

Lemma fetch_rows_reads_only self q :
  is_read (self, q) = true -> reads_only (DataClient.fetch_rows self q).
Proof.
  intros R w. destruct (fetch_rows_run self q w) as (o & w' & E & T & _).
  rewrite E. exists [(self, q)]. cbn [snd forallb]. now rewrite R.
Qed.

Lemma find_orphans_reads_only table_name key_field start_datetime
    end_datetime timestamp_fields stick :
  reads_only (ELTDBPair.find_orphans table_name key_field start_datetime
                end_datetime timestamp_fields stick).
Proof.
  unfold ELTDBPair.find_orphans, ELTDBPair.compare_counts,
    ELTDBPair.fetch_and_diff, DataClient.count, DataClient.query.
  repeat first
    [ apply bind_reads_only | apply ret_reads_only | apply raise_reads_only
    | apply lift_reads_only | apply fetch_rows_reads_only; reflexivity
    | match goal with
      | |- forall _, reads_only _ => intro
      | |- reads_only (match ?x with _ => _ end) => destruct x
      end ].
Qed.

Lemma deletes_app t1 t2 : deletes (t1 ++ t2) = (deletes t1 + deletes t2)%nat.
Proof. unfold deletes. now rewrite filter_app, length_app. Qed.

Lemma deletes_reads t : forallb is_read t = true -> deletes t = 0%nat.
Proof.
  unfold deletes. induction t as [|ev t IH]; cbn; [reflexivity|].
  intros R. apply andb_prop in R. destruct R as [R1 R2].
  rewrite R1. cbn. auto.
Qed.

Lemma str_int_nonempty z : exists c s, str_int z = String c s.
Proof.
  unfold str_int.
  assert (U : forall d, exists c s, NilZero.string_of_uint d = String c s).
  { intros []; cbn; eexists; eexists; reflexivity. }
  destruct z as [|p|p]; cbn.
  - eexists; eexists; reflexivity.
  - apply U.
  - eexists; eexists; reflexivity.
Qed.

Lemma orphan_ids_csv_nonempty orphans :
  orphans <> [] -> String.eqb (orphan_ids_csv orphans) "" = false.
Proof.
  destruct orphans as [|k rest]; [congruence|]. intros _.
  assert (K : exists c s, format_primary_key k = String c s).
  { destruct k; [apply str_int_nonempty | eexists; eexists; reflexivity]. }
  destruct K as (c & s & K). unfold orphan_ids_csv, join.
  cbn [map String.concat]. rewrite K. destruct (map format_primary_key rest);
    reflexivity.
Qed.

Lemma remove_orphans_after_find table_name key_field start_datetime
    end_datetime timestamp_fields stick orphans (w w1 : world db) :
  ELTDBPair.find_orphans table_name key_field start_datetime end_datetime
    timestamp_fields stick w = (Returns orphans, w1) ->
  ELTDBPair.remove_orphans_from_target table_name key_field start_datetime
    end_datetime timestamp_fields stick w
  = match orphans with
    | [] => (Returns 0, w1)
    | _ :: _ =>
        bind (DataClient.fetch_rows Target
                (DeleteQuery table_name key_field orphans))
          (fun _ => ret (Z.of_nat (List.length orphans))) w1
    end.
Proof.
  intros E. unfold ELTDBPair.remove_orphans_from_target, DataClient.query.
  unfold bind at 1. rewrite E.
  destruct orphans as [|k rest]; [reflexivity|].
  rewrite orphan_ids_csv_nonempty by congruence. reflexivity.
Qed.

(** What [remove_orphans_from_target] sends after [find_orphans] returned:
    nothing on the empty set, one delete to the target otherwise, and what
    it returns then. *)
Lemma remove_orphans_delete_sent table_name key_field start_datetime
    end_datetime timestamp_fields stick orphans (w w1 : world db) :
  ELTDBPair.find_orphans table_name key_field start_datetime end_datetime
    timestamp_fields stick w = (Returns orphans, w1) ->
  let run := ELTDBPair.remove_orphans_from_target table_name key_field
               start_datetime end_datetime timestamp_fields stick w in
  let delete_query := DeleteQuery table_name key_field orphans in
  (orphans = [] ->
   run = (Returns 0, w1) /\ deletes (trace (snd run)) = deletes (trace w))
  /\ (orphans <> [] ->
      trace (snd run) = trace w1 ++ [(Target, delete_query)]
      /\ deletes (trace (snd run)) = S (deletes (trace w))
      /\ fst run = match fst (execute (target w1) delete_query) with
                   | Ok _ => Returns (Z.of_nat (List.length orphans))
                   | Raise e => Raises e
                   end
      /\ render_query delete_query
         = newline +++ indent12 +++ "DELETE " +++ table_name +++ " "
           +++ newline +++ indent12 +++ "WHERE " +++ key_field +++ " IN ("
           +++ join "," (map format_primary_key orphans) +++ ") "
           +++ newline +++ indent12)
  /\ (forall z, format_primary_key (KInt z) = str_int z)
  /\ (forall s, format_primary_key (KStr s) = "'" +++ s +++ "'").
Proof.
  intros E run delete_query.
  assert (D : deletes (trace w1) = deletes (trace w)).
  { destruct (find_orphans_reads_only table_name key_field start_datetime
                end_datetime timestamp_fields stick w) as (ev & T & R).
    rewrite E in T. cbn [snd] in T.
    rewrite T, deletes_app, (deletes_reads _ R). lia. }
  pose proof (remove_orphans_after_find _ _ _ _ _ _ _ _ _ E) as U.
  fold run in U. split; [|split; [|split; reflexivity]].
  - intros ->. rewrite U. cbn [snd]. auto.
  - intros Hne. destruct orphans as [|k rest]; [congruence|].
    destruct (fetch_rows_run Target delete_query w1)
      as (o & w2 & F & T & _ & O & _).
    unfold bind in U. fold delete_query in U. rewrite F in U.
    cbn [DataClient.store_of] in O.
    assert (T' : trace (snd run) = trace w1 ++ [(Target, delete_query)]).
    { rewrite U. destruct o; exact T. }
    split; [exact T'|]. split; [|split; [|reflexivity]].
    + rewrite T', deletes_app, D. cbn. lia.
    + rewrite U, O.
      destruct (fst (execute (target w1) delete_query)); reflexivity.
Qed.

(** ** The shape of the binary search *)

Lemma splits_bind {A} P table_name key_field timestamp_fields stick thres
    (m : M db A) (g : ELTDBPair.binary_search -> A -> M db Z) (w : world db) :
  fuel_free m ->
  (forall a w1, m w = (Returns a, w1) ->
                splits P table_name key_field timestamp_fields stick thres
                  (fun self => g self a) w1) ->
  splits P table_name key_field timestamp_fields stick thres
    (fun self => bind m (g self)) w.
Proof.
  intros Fm Hk. unfold splits. specialize (Fm w).
  destruct (m w) as [[a | e |] w1] eqn:E.
  - destruct (Hk a w1 eq_refl)
      as [(s & h & e & w2 & HP & Hs) | (r & Hr & Hs)].
    + left. exists s, h, e, w2. split; [exact HP|].
      intros self. unfold bind. rewrite E. apply Hs.
    + right. exists r. split; [exact Hr|].
      intros self. unfold bind. rewrite E. apply Hs.
  - right. exists (Raises e, w1). split; [discriminate|].
    intros self. unfold bind. rewrite E. reflexivity.
  - now cbn in Fm.
Qed.

Lemma splits_const P table_name key_field timestamp_fields stick thres
    (m : M db Z) (w : world db) :
  fuel_free m ->
  splits P table_name key_field timestamp_fields stick thres (fun _ => m) w.
Proof. intros Fm. right. exists (m w). split; [apply Fm | reflexivity]. Qed.

(** Once a bound is a date, a second truncation is refused. *)
Lemma where_clause_date_truncation a other timestamp_fields :
  exists e,
    where_clause_of_timerange (Some (Date a)) other timestamp_fields true
    = Raise e.
Proof.
  unfold where_clause_of_timerange.
  destruct (true && bound_eqb (Some (Date a)) other); [eexists; reflexivity|].
  destruct ((negb (truthy_fields timestamp_fields) && truthy (Some (Date a)))
            || (negb (truthy_fields timestamp_fields) && truthy other));
    eexists; reflexivity.
Qed.

Lemma truncate_bound_date b s :
  truncate_bound b = Ok (Some s) -> exists a, s = Date a.
Proof.
  destruct b as [[us | o]|]; cbn; intros E; inversion E. eexists; reflexivity.
Qed.

Lemma or_else_false a b : or_else a b = Ok false -> a = Ok false /\ b = Ok false.
Proof. destruct a as [[]|]; cbn; intros E; try discriminate; auto. Qed.

(** The body of the binary search either ends without calling itself, or
    calls itself exactly twice, on the two halves of its segment, with the
    default minimum segment size. *)
Lemma binary_search_body_splits table_name key_field start_datetime
    end_datetime timestamp_fields stick thres min_segment_size (w : world db) :
  splits (bisects start_datetime end_datetime stick min_segment_size)
    table_name key_field timestamp_fields stick thres
    (fun self =>
       ELTDBPair.binary_search_body self table_name key_field start_datetime
         end_datetime timestamp_fields stick thres min_segment_size) w.
Proof.
  unfold ELTDBPair.binary_search_body.
  apply splits_bind; [destruct (truthy start_datetime); auto with client|].
  intros start' w1 E1.
  apply splits_bind; [destruct (truthy end_datetime); auto with client|].
  intros end' w2 E2.
  apply splits_bind; [auto with client|]. intros s0 w3 E3.
  apply lift_returns in E3. destruct E3 as [E3 ->].
  apply splits_bind; [auto with client|]. intros e0 w4 E4.
  apply lift_returns in E4. destruct E4 as [E4 ->].
  apply splits_bind; [auto with client|]. intros [[st0 h] en0] w5 E5.
  apply lift_returns in E5. destruct E5 as [E5 ->].
  unfold bifurcate_time_range in E5.
  destruct (avg_datetime s0 e0) as [h'|] eqn:Havg; [|discriminate].
  inversion E5; subst st0 h' en0; clear E5.
  destruct s0 as [s|]; [|discriminate]. destruct e0 as [e|]; [|discriminate].
  cbv beta iota zeta.
  apply splits_bind;
    [destruct (negb (bound_eqb (Some s) (Some h))); auto with client|].
  intros count1 w6 E6.
  apply splits_bind;
    [destruct (negb (bound_eqb (Some e) (Some h))); auto with client|].
  intros count2 w7 E7.
  apply splits_bind; [auto with client|]. intros exit_now w8 E8.
  apply lift_returns in E8. destruct E8 as [E8 ->].
  destruct exit_now; [apply splits_const; auto with client|].
  destruct (cell_is_zero count1 && cell_is_zero count2);
    [apply splits_const; auto with client|].
  apply splits_bind; [auto with client|]. intros both_below w9 _.
  destruct both_below; [apply splits_const; auto 10 with client|].
  apply splits_bind; [auto with client|]. intros some_above w10 _.
  destruct some_above; [|apply splits_const; auto with client].
  left. exists s, h, e, w10. split; [|intros self; reflexivity].
  apply or_else_false in E8. destruct E8 as [Esh E8].
  apply or_else_false in E8. destruct E8 as [Eeh Eseg].
  inversion Esh as [Esh']. inversion Eeh as [Eeh'].
  cbn [bound_eqb] in Esh', Eeh'.
  assert (Hstick : stick = false).
  { destruct stick; [exfalso|reflexivity].
    apply truncate_bound_date in E3. destruct E3 as [a ->].
    cbn [bound_eqb] in E6. rewrite Esh' in E6. cbn [negb] in E6.
    destruct (where_clause_date_truncation a (Some h) timestamp_fields)
      as [err Herr].
    rewrite (count_raises_early _ _ _ _ _ _ _ _ _ Herr) in E6.
    discriminate. }
  subst stick. inversion E3; subst start'. inversion E4; subst end'.
  repeat split; trivial.
  - intros Ht. rewrite Ht in E1. now inversion E1.
  - intros Ht. rewrite Ht in E2. now inversion E2.
Qed.

(** ** Midpoints and termination *)

Lemma timedelta_half_bounds d :
  2 * timedelta_half d - 1 <= d <= 2 * timedelta_half d + 1.
Proof.
  unfold timedelta_half, _divide_and_round.
  pose proof (Z.div_mod d 2 ltac:(lia)) as Hd.
  pose proof (Z.mod_pos_bound d 2 ltac:(lia)) as Hm.
  change (0 <? 2) with true. cbv iota.
  destruct (2 <? d mod 2 * 2) eqn:Hgt; cbn [orb];
    [apply Z.ltb_lt in Hgt; lia|].
  destruct ((d mod 2 * 2 =? 2) && (d / 2 mod 2 =? 1)) eqn:Htie; [|lia].
  apply andb_prop in Htie. destruct Htie as [Htie _].
  apply Z.eqb_eq in Htie. lia.
Qed.

Lemma us_per_day_value : Calendar.us_per_day = 86400000000.
Proof. reflexivity. Qed.

Lemma default_min_segment_size_value : default_min_segment_size = 10000000.
Proof. reflexivity. Qed.

(** A segment that the body bisects with the default minimum size has two
    halves strictly shorter than itself. *)
Lemma bisects_shrinks s h e :
  avg_datetime (Some s) (Some e) = Ok h ->
  segment_below (Some h) (Some s) default_min_segment_size = Ok false ->
  0 <= span s h < span s e /\ 0 <= span h e < span s e.
Proof.
  rewrite default_min_segment_size_value.
  unfold avg_datetime, segment_below, bound_sub, span.
  destruct s as [s | s], e as [e | e]; cbn [tvalue_sub]; try discriminate;
    intros Havg; inversion Havg; subst h; clear Havg;
    cbn [tvalue_add tvalue_sub]; intros Hseg; inversion Hseg as [Hlt];
    clear Hseg; apply Z.ltb_ge in Hlt.
  - pose proof (timedelta_half_bounds (e - s)). lia.
  - rewrite us_per_day_value in *.
    pose proof (timedelta_half_bounds ((e - s) * 86400000000)) as Hb.
    set (r := timedelta_half ((e - s) * 86400000000)) in *.
    pose proof (Z.div_mod r 86400000000 ltac:(lia)) as Hd.
    pose proof (Z.mod_pos_bound r 86400000000 ltac:(lia)) as Hm.
    lia.
Qed.

Lemma binary_search_unfold fuel table_name key_field start_datetime
    end_datetime timestamp_fields stick thres min_segment_size :
  ELTDBPair.remove_orphans_from_target_with_binary_search (S fuel) table_name
    key_field start_datetime end_datetime timestamp_fields stick thres
    min_segment_size
  = ELTDBPair.binary_search_body
      (ELTDBPair.remove_orphans_from_target_with_binary_search (db := db) fuel)
      table_name key_field start_datetime end_datetime timestamp_fields stick
      thres min_segment_size.
Proof. reflexivity. Qed.

(** Below the top level, fuel beyond the length of the segment is enough. *)
Lemma binary_search_default_terminates fuel :
  forall table_name key_field s e timestamp_fields stick thres,
    (Z.to_nat (span s e) < fuel)%nat ->
    fuel_free (ELTDBPair.remove_orphans_from_target_with_binary_search
                 (db := db) fuel table_name key_field (Some s) (Some e)
                 timestamp_fields stick thres default_min_segment_size).
Proof.
  induction fuel as [|fuel IH]; intros table_name key_field s e
    timestamp_fields stick thres Hfuel w; [lia|].
  rewrite binary_search_unfold.
  destruct (binary_search_body_splits table_name key_field (Some s) (Some e)
              timestamp_fields stick thres default_min_segment_size w)
    as [(s' & h & e' & w1 & HP & Hs) | (r & Hr & Hs)];
    rewrite Hs; [|exact Hr].
  destruct HP as (_ & Hs1 & He1 & Havg & _ & _ & Hseg).
  specialize (Hs1 eq_refl). specialize (He1 eq_refl).
  inversion Hs1; subst s'. inversion He1; subst e'.
  destruct (bisects_shrinks _ _ _ Havg Hseg) as [Hl Hr].
  unfold recursive_calls.
  apply bind_fuel_free; [apply IH; lia|]. intros a.
  apply bind_fuel_free; [apply IH; lia|]. intros b.
  apply ret_fuel_free.
Qed.

(** Some amount of fuel is enough for every call, on every engine. *)
Lemma binary_search_has_enough_fuel table_name key_field start_datetime
    end_datetime timestamp_fields stick thres min_segment_size (w : world db) :
  exists N, forall fuel, (N <= fuel)%nat ->
    fst (ELTDBPair.remove_orphans_from_target_with_binary_search fuel
           table_name key_field start_datetime end_datetime timestamp_fields
           stick thres min_segment_size w) <> OutOfFuel.
Proof.
  destruct (binary_search_body_splits table_name key_field start_datetime
              end_datetime timestamp_fields stick thres min_segment_size w)
    as [(s & h & e & w1 & HP & Hs) | (r & Hr & Hs)].
  - exists (2 + Z.to_nat (span s h) + Z.to_nat (span h e))%nat.
    intros [|fuel] Hfuel; [lia|].
    rewrite binary_search_unfold, Hs. unfold recursive_calls.
    apply bind_fuel_free;
      [apply binary_search_default_terminates; lia|]. intros a.
    apply bind_fuel_free;
      [apply binary_search_default_terminates; lia|]. intros b.
    apply ret_fuel_free.
  - exists 1%nat. intros [|fuel] Hfuel; [lia|].
    rewrite binary_search_unfold, Hs. exact Hr.
Qed.

Lemma bind_ret_run {A B} (a : A) (k : A -> M db B) (w : world db) :
  bind (ret a) k w = k a w.
Proof. reflexivity. Qed.

Lemma bind_lift_ok_run {A B} (a : A) (k : A -> M db B) (w : world db) :
  bind (lift (Ok a)) k w = k a w.
Proof. reflexivity. Qed.

(** The midpoint of a segment lies strictly inside it, unless the segment is
    one unit long, and then it is the start. *)
Lemma midpoint_strictly_inside s e :
  0 < span s e ->
  exists h,
    avg_datetime (Some s) (Some e) = Ok h
    /\ (unit_of s < span s e -> 0 < span s h /\ 0 < span h e)
    /\ (span s e = unit_of s -> h = s).
Proof.
  unfold span, avg_datetime.
  destruct s as [s | s], e as [e | e]; cbn [tvalue_sub unit_of]; try lia;
    intros Hpos; eexists; (split; [reflexivity|]); cbn [tvalue_add tvalue_sub].
  - pose proof (timedelta_half_bounds (e - s)) as Hb. split.
    + lia.
    + intros Hone. rewrite Hone. cbn. f_equal. lia.
  - rewrite us_per_day_value in *.
    pose proof (timedelta_half_bounds ((e - s) * 86400000000)) as Hb.
    set (r := timedelta_half ((e - s) * 86400000000)) in *.
    pose proof (Z.div_mod r 86400000000 ltac:(lia)) as Hd.
    pose proof (Z.mod_pos_bound r 86400000000 ltac:(lia)) as Hm.
    split; [lia|]. intros Hone. f_equal.
    assert (r / 86400000000 = 0) by lia. lia.
Qed.

(** Base case A: when the midpoint is the start, or the end, or less than
    [min_segment_size] after the start, the body makes its two counts and
    delegates to [remove_orphans_from_target] on the whole segment, whatever
    the counts, the threshold and [self] are. *)
Lemma base_case_a_delegates self table_name key_field s e h timestamp_fields
    thres min_segment_size (w : world db) :
  avg_datetime (Some s) (Some e) = Ok h ->
  tvalue_eqb s h = true \/ tvalue_eqb e h = true
  \/ segment_below (Some h) (Some s) min_segment_size = Ok true ->
  ELTDBPair.binary_search_body self table_name key_field (Some s) (Some e)
    timestamp_fields false thres min_segment_size w
  = half_counts table_name key_field timestamp_fields false s h e
      (ELTDBPair.remove_orphans_from_target table_name key_field (Some s)
         (Some e) timestamp_fields false) w.
Proof.
  intros Havg Hexit.
  assert (Hor : or_else (Ok (bound_eqb (Some s) (Some h)))
                  (or_else (Ok (bound_eqb (Some e) (Some h)))
                     (segment_below (Some h) (Some s) min_segment_size))
                = Ok true).
  { cbn [bound_eqb]. destruct (tvalue_eqb s h); [reflexivity|].
    destruct (tvalue_eqb e h); [reflexivity|].
    destruct Hexit as [Hx | [Hx | Hx]]; try discriminate.
    rewrite Hx. reflexivity. }
  unfold ELTDBPair.binary_search_body, half_counts. cbn [truthy].
  rewrite !bind_ret_run. cbv beta. rewrite !bind_lift_ok_run. cbv beta.
  unfold bifurcate_time_range. rewrite Havg, bind_lift_ok_run.
  cbv beta iota zeta. rewrite Hor. reflexivity.
Qed.

(** C8.  On a segment with start before end the binary search terminates:
    some amount of fuel is enough, on every engine and for every threshold
    and minimum segment size.  The midpoint lies strictly inside the segment
    unless the segment is one unit long; and in base case A (midpoint equal
    to the start or to the end, or less than the minimum segment size after
    the start) the body makes no recursive call, whatever the counts are. *)
Theorem binary_search_terminates table_name key_field s e timestamp_fields
    stick thres min_segment_size (w : world db) :
  0 < span s e ->
  (exists N, forall fuel, (N <= fuel)%nat ->
      fst (ELTDBPair.remove_orphans_from_target_with_binary_search fuel
             table_name key_field (Some s) (Some e) timestamp_fields stick
             thres min_segment_size w) <> OutOfFuel)
  /\ (exists h,
         avg_datetime (Some s) (Some e) = Ok h
         /\ (unit_of s < span s e -> 0 < span s h /\ 0 < span h e)
         /\ (span s e = unit_of s -> h = s)
         /\ (tvalue_eqb s h = true \/ tvalue_eqb e h = true
             \/ segment_below (Some h) (Some s) min_segment_size = Ok true ->
             forall self,
               ELTDBPair.binary_search_body self table_name key_field
                 (Some s) (Some e) timestamp_fields false thres
                 min_segment_size w
               = half_counts table_name key_field timestamp_fields false
                   s h e
                   (ELTDBPair.remove_orphans_from_target table_name key_field
                      (Some s) (Some e) timestamp_fields false) w)).
Proof.
  intros Hpos. split; [apply binary_search_has_enough_fuel|].
  destruct (midpoint_strictly_inside s e Hpos) as (h & Havg & Hin & Hunit).
  exists h. repeat split; try assumption; try (apply Hin; assumption).
  intros Hexit self. apply base_case_a_delegates; assumption.
Qed.

(** The body either ends without calling itself, or calls itself exactly
    twice, passing the threshold it was given and ten seconds as the minimum
    segment size, whatever [min_segment_size] it received. *)
Lemma recursion_passes_default_segment_size table_name key_field
    start_datetime end_datetime timestamp_fields stick thres min_segment_size
    (w : world db) :
  (forall fuel,
      ELTDBPair.remove_orphans_from_target_with_binary_search (S fuel)
        table_name key_field start_datetime end_datetime timestamp_fields
        stick thres min_segment_size
      = ELTDBPair.binary_search_body
          (ELTDBPair.remove_orphans_from_target_with_binary_search
             (db := db) fuel)
          table_name key_field start_datetime end_datetime timestamp_fields
          stick thres min_segment_size)
  /\ ((exists s h e w1,
          bisects start_datetime end_datetime stick min_segment_size s h e
          /\ forall self,
              ELTDBPair.binary_search_body self table_name key_field
                start_datetime end_datetime timestamp_fields stick thres
                min_segment_size w
              = bind (self table_name key_field (Some s) (Some h)
                        timestamp_fields stick thres (Calendar.seconds 10))
                  (fun a =>
                     bind (self table_name key_field (Some h) (Some e)
                             timestamp_fields stick thres
                             (Calendar.seconds 10))
                       (fun b => ret (0 + (a + b)))) w1)
      \/ (exists r,
             fst r <> OutOfFuel
             /\ forall self,
                 ELTDBPair.binary_search_body self table_name key_field
                   start_datetime end_datetime timestamp_fields stick thres
                   min_segment_size w = r)).
Proof.
  split; [intros fuel; reflexivity|].
  exact (binary_search_body_splits table_name key_field start_datetime
           end_datetime timestamp_fields stick thres min_segment_size w).
Qed.

End Reconciliation.

(** ** The sum law on the in-memory store *)

Lemma key_eqb_eq a b : key_eqb a b = true <-> a = b.
Proof.
  destruct a, b; cbn; split; intros E; try discriminate; try congruence.
  - apply Z.eqb_eq in E. congruence.
  - inversion E. apply Z.eqb_refl.
  - apply String.eqb_eq in E. congruence.
  - inversion E. apply String.eqb_refl.
Qed.

Lemma key_mem_In k l : key_mem k l = true <-> In k l.
Proof.
  unfold key_mem. rewrite existsb_exists. split.
  - intros (x & Hx & E). apply key_eqb_eq in E. now subst.
  - intros Hk. exists k. split; [exact Hk | now apply key_eqb_eq].
Qed.

Lemma set_of_list_NoDup l : NoDup l -> set_of_list l = l.
Proof.
  induction 1 as [|k l Hk Hl IH]; cbn; [reflexivity|].
  destruct (key_mem k l) eqn:E; [apply key_mem_In in E; contradiction|].
  now rewrite IH.
Qed.

Lemma NoDup_map_filter {A B} (f : A -> B) (p : A -> bool) l :
  NoDup (map f l) -> NoDup (map f (filter p l)).
Proof.
  induction l as [|x l IH]; cbn; intros Hn; [constructor|].
  inversion Hn as [|? ? Hx Hl]; subst.
  destruct (p x); cbn; auto. constructor; auto.
  intros Hin. apply Hx. apply in_map_iff in Hin.
  destruct Hin as (y & Hy & Hin). apply filter_In in Hin.
  apply in_map_iff. exists y. tauto.
Qed.

Lemma NoDup_map_inj_in {A B} (f : A -> B) l x y :
  NoDup (map f l) -> In x l -> In y l -> f x = f y -> x = y.
Proof.
  induction l as [|z l IH]; cbn; intros Hn Hx Hy E; [contradiction|].
  inversion Hn as [|? ? Hz Hl]; subst.
  destruct Hx as [-> | Hx], Hy as [-> | Hy]; auto.
  - exfalso. apply Hz. rewrite E. now apply in_map.
  - exfalso. apply Hz. rewrite <- E. now apply in_map.
Qed.

Lemma NoDup_of_map {A B} (f : A -> B) l : NoDup (map f l) -> NoDup l.
Proof.
  induction l as [|x l IH]; cbn; intros Hn; constructor;
    inversion Hn as [|? ? Hx Hl]; subst; auto.
  intros Hin. apply Hx. now apply in_map.
Qed.

Lemma filter_all {A} (p : A -> bool) l :
  (forall x, In x l -> p x = true) -> filter p l = l.
Proof.
  induction l as [|x l IH]; cbn; intros Hp; [reflexivity|].
  rewrite (Hp x) by auto. f_equal. apply IH. auto.
Qed.

Lemma filter_none {A} (p : A -> bool) l :
  (forall x, In x l -> p x = false) -> filter p l = [].
Proof.
  induction l as [|x l IH]; cbn; intros Hp; [reflexivity|].
  rewrite (Hp x) by auto. apply IH. auto.
Qed.

Lemma filter_nil_inv {A} (p : A -> bool) l x :
  filter p l = [] -> In x l -> p x = false.
Proof.
  intros E Hx. destruct (p x) eqn:Hp; [|reflexivity].
  assert (Hin : In x (filter p l)) by (apply filter_In; auto).
  rewrite E in Hin. contradiction.
Qed.

Lemma filter_map_swap {A B} (f : A -> B) (p : B -> bool) l :
  filter p (map f l) = map f (filter (fun x => p (f x)) l).
Proof.
  induction l as [|x l IH]; cbn; [reflexivity|].
  destruct (p (f x)); cbn; now rewrite IH.
Qed.

Lemma filter_filter {A} (p q : A -> bool) l :
  filter p (filter q l) = filter (fun x => q x && p x) l.
Proof.
  induction l as [|x l IH]; cbn; [reflexivity|].
  destruct (q x); cbn; [destruct (p x)|]; now rewrite IH.
Qed.

Lemma filter_length_split {A} (p q pq : A -> bool) l :
  (forall x, pq x = p x || q x) -> (forall x, p x && q x = false) ->
  List.length (filter pq l)
  = (List.length (filter p l) + List.length (filter q l))%nat.
Proof.
  intros Hpq Hd. induction l as [|x l IH]; cbn; [reflexivity|].
  rewrite Hpq. specialize (Hd x).
  destruct (p x), (q x); cbn in *; try discriminate; lia.
Qed.

Lemma range_clause_built c cs s e :
  where_clause_of_timerange (Some (DateTime s)) (Some (DateTime e))
    (Some (c :: cs)) false = Ok (range_clause (c :: cs) s e).
Proof. reflexivity. Qed.

Lemma selection_range c cs s e :
  MemDB.selection (range_clause (c :: cs) s e)
  = Some (in_range (c :: cs) s e).
Proof. reflexivity. Qed.

Lemma bind_run {db A B} (m : M db A) (k : A -> M db B) w a w1 :
  m w = (Returns a, w1) -> bind m k w = k a w1.
Proof. intros E. unfold bind. now rewrite E. Qed.

Lemma logged_logged {db} (w : world db) e1 e2 :
  logged (logged w e1) e2 = logged w (e1 ++ e2).
Proof. unfold logged. cbn. now rewrite app_assoc. Qed.

Lemma lookup_replace t rows' st rows :
  MemDB.lookup_table t st = Some rows ->
  MemDB.lookup_table t (MemDB.replace_table t rows' st) = Some rows'.
Proof.
  induction st as [|[n r0] st IH]; cbn; [discriminate|].
  destruct (String.eqb n t) eqn:E; cbn; rewrite E; auto.
Qed.

Lemma count_mem self t fld c cs s e (w : world MemDB.store) rows :
  MemDB.lookup_table t (DataClient.store_of self w) = Some rows ->
  DataClient.count self t fld (Some (DateTime s)) (Some (DateTime e))
    (Some (c :: cs)) false w
  = (Returns
       (CInt (Z.of_nat
                (List.length
                   (filter (fun r => in_range (c :: cs) s e r
                                     && MemDB.counted (counted_field fld) r)
                      rows)))),
     logged w [(self, CountQuery (counted_field fld) t (range_clause (c :: cs) s e))]).
Proof.
  intros Hrows.
  rewrite (count_unfold _ _ _ _ _ _ _ _ _ (range_clause_built c cs s e)).
  unfold bind, DataClient.fetch_rows, execute, mem_engine.
  cbn [MemDB.run]. rewrite Hrows, selection_range.
  cbn [row_get String.eqb Ascii.eqb Bool.eqb fst snd].
  destruct self; reflexivity.
Qed.

Lemma fetch_ids_mem self t key_field c cs s e (w : world MemDB.store) rows :
  MemDB.lookup_table t (DataClient.store_of self w) = Some rows ->
  DataClient.fetch_rows self (AllIdsQuery key_field t (range_clause (c :: cs) s e)) w
  = (Returns (map (fun r => [("id", MemDB.column key_field r)])
                (filter (in_range (c :: cs) s e) rows)),
     logged w [(self, AllIdsQuery key_field t (range_clause (c :: cs) s e))]).
Proof.
  intros Hrows. unfold DataClient.fetch_rows, execute, mem_engine.
  cbn [MemDB.run]. rewrite Hrows, selection_range.
  destruct self; reflexivity.
Qed.

Lemma format_ids key_field rows :
  map_result format_id (map (fun r => [("id", MemDB.column key_field r)]) rows)
  = Ok (map (id_of key_field) rows).
Proof.
  induction rows as [|r rows IH]; [reflexivity|].
  cbn [map map_result]. rewrite IH. unfold format_id, id_of.
  cbn [row_get String.eqb Ascii.eqb Bool.eqb].
  destruct (MemDB.column key_field r); reflexivity.
Qed.

(** *** The IN list read back *)

Lemma numeric_inside ch :
  numeric ch = true ->
  MemDB.is_blank ch = false /\ MemDB.is_quote ch = false
  /\ MemDB.is_comma ch = false.
Proof.
  unfold numeric. cbn [existsb]. rewrite !orb_true_iff.
  intros Hch.
  repeat (destruct Hch as [Hch | Hch];
          [apply Ascii.eqb_eq in Hch; subst ch; repeat split; reflexivity|]).
  discriminate.
Qed.

Lemma str_int_numeric z : all_numeric (str_int z) = true.
Proof.
  unfold str_int.
  assert (U : forall d, all_numeric (NilEmpty.string_of_uint d) = true).
  { induction d; cbn [NilEmpty.string_of_uint all_numeric]; try reflexivity;
      rewrite IHd; reflexivity. }
  assert (V : forall d, all_numeric (NilZero.string_of_uint d) = true).
  { intros d. destruct d; try reflexivity; apply U. }
  destruct z as [|p|p]; cbn [Z.to_int NilZero.string_of_int].
  - reflexivity.
  - apply V.
  - cbn [all_numeric]. rewrite V. reflexivity.
Qed.

Lemma number_str_int z : MemDB.number (str_int z) = Some (KInt z).
Proof.
  unfold MemDB.number, str_int.
  rewrite NilZero.isi.
  - cbn [option_map]. now rewrite DecimalZ.of_to.
  - destruct z; cbn; try discriminate.
    intros E. injection E as E. now apply DecimalPos.Unsigned.to_uint_nonnil in E.
  - destruct z; cbn; try discriminate.
    intros E. injection E as E. now apply DecimalPos.Unsigned.to_uint_nonnil in E.
Qed.

Lemma append_snoc a ch s : MemDB.snoc a ch +++ s = a +++ String ch s.
Proof.
  unfold MemDB.snoc. induction a as [|x a IH]; cbn; [reflexivity|].
  now rewrite IH.
Qed.

Lemma append_assoc a b c : (a +++ b) +++ c = a +++ b +++ c.
Proof. induction a as [|x a IH]; cbn; [reflexivity | now rewrite IH]. Qed.

Lemma append_empty s : s +++ "" = s.
Proof. induction s as [|x s IH]; cbn; [reflexivity | now rewrite IH]. Qed.

Lemma read_number digits s seen rest :
  all_numeric s = true ->
  MemDB.read_literals (MemDB.InNumber digits) seen (s +++ rest)
  = MemDB.read_literals (MemDB.InNumber (digits +++ s)) seen rest.
Proof.
  revert digits. induction s as [|ch s IH]; intros digits Hs.
  - now rewrite append_empty.
  - cbn [all_numeric] in Hs. apply andb_prop in Hs. destruct Hs as [Hch Hs].
    destruct (numeric_inside ch Hch) as (Hb & _ & Hc).
    cbn [String.append MemDB.read_literals]. rewrite Hb, Hc. cbn [orb].
    rewrite IH by exact Hs. now rewrite append_snoc.
Qed.

Lemma read_text chars s seen rest :
  plain_text s = true ->
  MemDB.read_literals (MemDB.InText chars) seen
    (s +++ String single_quote rest)
  = MemDB.read_literals (MemDB.QuoteSeen (chars +++ s)) seen rest.
Proof.
  revert chars. induction s as [|ch s IH]; intros chars Hs.
  - rewrite append_empty. reflexivity.
  - cbn [plain_text] in Hs. apply andb_prop in Hs. destruct Hs as [Hch Hs].
    apply andb_prop in Hch. destruct Hch as [Hq _].
    apply negb_true_iff in Hq.
    cbn [String.append MemDB.read_literals]. unfold MemDB.is_quote.
    rewrite Hq, IH by exact Hs. now rewrite append_snoc.
Qed.

(** What the reader does with one formatted key and what follows it. *)
Lemma read_formatted_key k seen :
  plain_key k = true ->
  MemDB.read_literals MemDB.Expecting seen (format_primary_key k)
  = Some (seen ++ [k])
  /\ forall rest,
      MemDB.read_literals MemDB.Expecting seen
        (format_primary_key k +++ "," +++ rest)
      = MemDB.read_literals MemDB.Expecting (seen ++ [k]) rest.
Proof.
  intros Hk. destruct k as [z | t]; cbn [format_primary_key plain_key] in *.
  - pose proof (str_int_numeric z) as Hn.
    pose proof (number_str_int z) as Hz.
    destruct (str_int_nonempty z) as (ch & digits & E).
    rewrite E in Hn, Hz |- *. cbn [all_numeric] in Hn.
    apply andb_prop in Hn. destruct Hn as [Hch Hn].
    destruct (numeric_inside ch Hch) as (Hb & Hq & Hc).
    split.
    + cbn [MemDB.read_literals]. rewrite Hb, Hq, Hc.
      rewrite <- (append_empty digits) at 1.
      rewrite read_number by exact Hn.
      cbn [String.append MemDB.read_literals]. now rewrite Hz.
    + intros rest. cbn [String.append MemDB.read_literals].
      rewrite Hb, Hq, Hc, read_number by exact Hn.
      cbn [String.append MemDB.read_literals MemDB.is_comma].
      cbn [Ascii.eqb Bool.eqb orb]. now rewrite Hz.
  - split.
    + cbn [String.append MemDB.read_literals].
      change (MemDB.is_blank "'") with false.
      change (MemDB.is_quote "'") with true. cbv iota.
      change (t +++ "'") with (t +++ String single_quote "").
      rewrite read_text by exact Hk. reflexivity.
    + intros rest. cbn [String.append MemDB.read_literals].
      change (MemDB.is_blank "'") with false.
      change (MemDB.is_quote "'") with true. cbv iota.
      rewrite append_assoc.
      change ("'" +++ String "," rest)
        with (String single_quote ("," +++ rest)).
      rewrite read_text by exact Hk. reflexivity.
Qed.

(** Read back, the IN list of plain keys is the list of the keys: on such
    keys the delete by text is the delete by key. *)
Lemma literals_of_plain_keys ids :
  ids <> [] ->
  forallb plain_key ids = true ->
  MemDB.literals (orphan_ids_csv ids) = Some ids.
Proof.
  unfold MemDB.literals, orphan_ids_csv, join.
  assert (G : forall ks k seen,
             forallb plain_key (k :: ks) = true ->
             MemDB.read_literals MemDB.Expecting seen
               (String.concat "," (map format_primary_key (k :: ks)))
             = Some (seen ++ k :: ks)).
  { induction ks as [|k' ks IH]; intros k seen Hp;
      cbn [forallb] in Hp; apply andb_prop in Hp; destruct Hp as [Hk Hks].
    - cbn [map String.concat].
      exact (proj1 (read_formatted_key k seen Hk)).
    - change (String.concat "," (map format_primary_key (k :: k' :: ks)))
        with (format_primary_key k +++ ","
              +++ String.concat "," (map format_primary_key (k' :: ks))).
      rewrite (proj2 (read_formatted_key k seen Hk)).
      rewrite IH by exact Hks. now rewrite <- app_assoc. }
  intros Hne Hp. destruct ids as [|k ks]; [congruence|].
  exact (G ks k [] Hp).
Qed.

Lemma delete_mem t key_field ids (w : world MemDB.store) rows :
  MemDB.lookup_table t (target w) = Some rows ->
  ids <> [] ->
  forallb plain_key ids = true ->
  DataClient.fetch_rows Target (DeleteQuery t key_field ids) w
  = (Returns [],
     World (source w)
       (MemDB.replace_table t
          (filter (fun r => negb (MemDB.listed key_field ids r)) rows)
          (target w))
       (trace w ++ [(Target, DeleteQuery t key_field ids)])).
Proof.
  intros Hrows Hids Hplain. unfold DataClient.fetch_rows, execute, mem_engine.
  cbn [MemDB.run DataClient.store_of].
  rewrite Hrows, (literals_of_plain_keys ids Hids Hplain). reflexivity.
Qed.

(** [find_orphans] over a datetime range on the listed columns, on the in-memory
    store: the counts decide between the shortcut and the difference of the
    two identifier sets. *)
Lemma find_orphans_mem t key_field c cs s e (w : world MemDB.store) src tgt :
  MemDB.lookup_table t (source w) = Some src ->
  MemDB.lookup_table t (target w) = Some tgt ->
  exists events,
    ELTDBPair.find_orphans t key_field (Some (DateTime s)) (Some (DateTime e))
      (Some (c :: cs)) false w
    = (Returns
         (if Z.of_nat (List.length (filter (in_range (c :: cs) s e) tgt))
             - Z.of_nat (List.length (filter (in_range (c :: cs) s e) src)) =? 0
          then []
          else set_difference
                 (set_of_list (map (id_of key_field)
                                 (filter (in_range (c :: cs) s e) tgt)))
                 (set_of_list (map (id_of key_field)
                                 (filter (in_range (c :: cs) s e) src)))),
       logged w events).
Proof.
  intros Hsrc Htgt.
  rewrite (find_orphans_with_clause _ _ _ _ _ _ _ w (range_clause_built c cs s e)).
  replace (clause_nonempty (range_clause (c :: cs) s e)) with true
    by (symmetry; apply clause_nonempty_cons).
  unfold ELTDBPair.compare_counts.
  assert (Hstar : forall rows,
             filter (fun r => in_range (c :: cs) s e r
                              && MemDB.counted (counted_field None) r) rows
             = filter (in_range (c :: cs) s e) rows).
  { intros rows. apply filter_ext. intros r. cbn. apply andb_true_r. }
  rewrite <- !bind_assoc_run.
  erewrite bind_run; [|apply count_mem; exact Htgt]. cbv beta.
  rewrite <- !bind_assoc_run.
  erewrite bind_run; [|apply count_mem; exact Hsrc]. cbv beta.
  rewrite !Hstar, logged_logged. cbn [cell_sub].
  rewrite bind_lift_ok_run. cbn [difference_is_zero].
  destruct (_ =? 0); [eexists; reflexivity|].
  unfold ELTDBPair.fetch_and_diff.
  erewrite bind_run; [|apply fetch_ids_mem; exact Htgt]. cbv beta.
  rewrite format_ids, bind_lift_ok_run.
  erewrite bind_run; [|apply fetch_ids_mem; exact Hsrc]. cbv beta.
  rewrite format_ids, bind_lift_ok_run, !logged_logged.
  eexists; reflexivity.
Qed.

Section SumLaw.
Variables (table_name key_field c : string) (cs : list string).
Variable src : MemDB.table.

Local Abbreviation orphan := (orphan_in key_field (c :: cs) src).
Local Abbreviation good w tgt :=
  (orphans_only table_name key_field w src tgt).

Lemma key_mem_eq k l l' :
  (In k l <-> In k l') -> key_mem k l = key_mem k l'.
Proof.
  intros Hiff. destruct (key_mem k l) eqn:E1, (key_mem k l') eqn:E2;
    try reflexivity.
  - apply key_mem_In, Hiff, key_mem_In in E1. congruence.
  - apply key_mem_In, Hiff, key_mem_In in E2. congruence.
Qed.

(** What [find_orphans] computes is the list of the keys of the orphan rows:
    the shortcut on equal counts loses nothing when the source is part of
    the target. *)
Lemma orphan_list w tgt s e :
  good w tgt ->
  (if Z.of_nat (List.length (filter (in_range (c :: cs) s e) tgt))
      - Z.of_nat (List.length (filter (in_range (c :: cs) s e) src)) =? 0
   then []
   else set_difference
          (set_of_list (map (id_of key_field) (filter (in_range (c :: cs) s e) tgt)))
          (set_of_list (map (id_of key_field) (filter (in_range (c :: cs) s e) src))))
  = map (id_of key_field) (filter (orphan s e) tgt).
Proof.
  intros [_ _ HnS HnT _ _ Hincl].
  assert (HinclR : incl (filter (in_range (c :: cs) s e) src)
                        (filter (in_range (c :: cs) s e) tgt)).
  { intros r Hr. apply filter_In in Hr. apply filter_In. split; [|tauto].
    apply Hincl. tauto. }
  destruct (_ =? 0) eqn:Hz.
  - apply Z.eqb_eq in Hz.
    assert (Hback : incl (filter (in_range (c :: cs) s e) tgt)
                         (filter (in_range (c :: cs) s e) src)).
    { apply NoDup_length_incl; [|lia|exact HinclR].
      apply NoDup_filter. eapply NoDup_of_map. exact HnS. }
    rewrite filter_none; [reflexivity|].
    intros r Hr. unfold orphan_in.
    destruct (in_range (c :: cs) s e r) eqn:Hin; [|reflexivity]. cbn.
    assert (Hsrc : In r src).
    { assert (Hr' : In r (filter (in_range (c :: cs) s e) tgt))
        by (apply filter_In; auto).
      apply Hback, filter_In in Hr'. tauto. }
    apply negb_false_iff, key_mem_In, in_map. exact Hsrc.
  - rewrite !set_of_list_NoDup by (apply NoDup_map_filter; assumption).
    unfold set_difference. rewrite filter_map_swap, filter_filter.
    f_equal. apply filter_ext_in. intros r Hr. unfold orphan_in.
    destruct (in_range (c :: cs) s e r) eqn:Hin; [|reflexivity]. cbn. f_equal.
    apply key_mem_eq. rewrite !in_map_iff. split.
    + intros (r' & E & Hr'). apply filter_In in Hr'. exists r'. tauto.
    + intros (r' & E & Hr'). exists r'. split; [exact E|].
      apply filter_In. split; [exact Hr'|].
      assert (r' = r) as ->; [|exact Hin].
      eapply NoDup_map_inj_in; eauto.
Qed.

(** On a row of the target, whose key is not NULL, the delete by key removes
    the orphans. *)
Lemma listed_orphans w tgt s e r :
  good w tgt -> In r tgt ->
  MemDB.listed key_field (map (id_of key_field) (filter (orphan s e) tgt)) r
  = orphan s e r.
Proof.
  intros [_ _ _ HnT Hkeyed _ _] Hr. specialize (Hkeyed r Hr).
  unfold MemDB.listed.
  assert (Hk : MemDB.cell_key (MemDB.column key_field r)
               = Some (id_of key_field r)).
  { unfold keyed in Hkeyed. unfold id_of.
    destruct (MemDB.column key_field r); try discriminate; reflexivity. }
  rewrite Hk.
  destruct (orphan s e r) eqn:Ho.
  - apply key_mem_In, in_map, filter_In. auto.
  - destruct (key_mem _ _) eqn:Hm; [|reflexivity].
    apply key_mem_In, in_map_iff in Hm. destruct Hm as (r' & E & Hr').
    apply filter_In in Hr'. destruct Hr' as [Hr' Ho'].
    assert (r' = r) as -> by (eapply NoDup_map_inj_in; eauto). congruence.
Qed.

(** Removing orphans keeps the dataset one that differs by orphans only. *)
Lemma good_after_removal w w' tgt s e :
  good w tgt ->
  source w' = source w ->
  MemDB.lookup_table table_name (target w')
  = Some (filter (fun r => negb (orphan s e r)) tgt) ->
  good w' (filter (fun r => negb (orphan s e r)) tgt).
Proof.
  intros [Hs Ht HnS HnT Hkeyed Hplain Hincl] Hsrc Htgt. constructor.
  - now rewrite Hsrc.
  - exact Htgt.
  - exact HnS.
  - now apply NoDup_map_filter.
  - intros r Hr. apply filter_In in Hr. apply Hkeyed. tauto.
  - intros r Hr. apply filter_In in Hr. apply Hplain. tauto.
  - intros r Hr. apply filter_In. split; [now apply Hincl|].
    unfold orphan_in. apply negb_true_iff, andb_false_iff. right.
    apply negb_false_iff, key_mem_In, in_map. exact Hr.
Qed.

Lemma good_logged w tgt events : good w tgt -> good (logged w events) tgt.
Proof. intros [Hs Ht HnS HnT Hkeyed Hplain Hincl]. now constructor. Qed.

(** [remove_orphans_from_target] on such a dataset returns the number of
    orphan rows of the segment and leaves the target without them. *)
Lemma remove_orphans_mem w tgt s e :
  good w tgt ->
  exists w',
    ELTDBPair.remove_orphans_from_target table_name key_field
      (Some (DateTime s)) (Some (DateTime e)) (Some (c :: cs)) false w
    = (Returns (Z.of_nat (List.length (filter (orphan s e) tgt))), w')
    /\ good w' (filter (fun r => negb (orphan s e r)) tgt).
Proof.
  intros Hgood.
  destruct (find_orphans_mem table_name key_field c cs s e w src tgt
              (source_rows _ _ _ _ _ Hgood) (target_rows _ _ _ _ _ Hgood))
    as [events Hfind].
  rewrite (orphan_list w tgt s e Hgood) in Hfind.
  rewrite (remove_orphans_after_find _ _ _ _ _ _ _ _ _ Hfind).
  destruct (filter (orphan s e) tgt) as [|r0 rest] eqn:Ho.
  - cbn [map List.length]. eexists. split; [reflexivity|].
    rewrite filter_all.
    + now apply good_logged.
    + intros r Hr. apply negb_true_iff. eapply filter_nil_inv; eauto.
  - cbn [map]. rewrite <- Ho.
    change (id_of key_field r0 :: map (id_of key_field) rest)
      with (map (id_of key_field) (r0 :: rest)).
    rewrite <- Ho.
    erewrite bind_run;
      [|apply delete_mem;
        [exact (target_rows _ _ _ _ _ Hgood) | rewrite Ho; discriminate|]].
    2: { apply forallb_forall. intros k Hk. apply in_map_iff in Hk.
         destruct Hk as (r & <- & Hr). apply filter_In in Hr.
         apply (target_plain _ _ _ _ _ Hgood). tauto. }
    rewrite length_map. eexists. split; [reflexivity|].
    apply good_after_removal with (w := w); [exact Hgood | reflexivity|].
    cbn [target]. erewrite lookup_replace by exact (target_rows _ _ _ _ _ Hgood).
    f_equal. apply filter_ext_in. intros r Hr. f_equal.
    eapply listed_orphans; eauto.
Qed.

Lemma holds_between_split f s h e r :
  s <= h <= e \/ e <= h <= s ->
  MemDB.holds r (Between f (Some (DateTime s)) (Some (DateTime e)))
  = MemDB.holds r (Between f (Some (DateTime s)) (Some (DateTime h)))
    || MemDB.holds r (Between f (Some (DateTime h)) (Some (DateTime e))).
Proof.
  intros Hh. unfold MemDB.holds. cbn [MemDB.instant].
  destruct (MemDB.column_time f r) as [t|]; [|reflexivity].
  destruct (Z.leb_spec s t), (Z.ltb_spec t e), (Z.ltb_spec t h),
    (Z.leb_spec h t); cbn; try reflexivity; lia.
Qed.

(** A row is in [[s, e)] exactly when it is in [[s, h)] or in [[h, e)]. *)
Lemma in_range_split fields s h e r :
  s <= h <= e \/ e <= h <= s ->
  in_range fields s e r = in_range fields s h r || in_range fields h e r.
Proof.
  intros Hh. unfold in_range, range_tests.
  induction fields as [|f fields IH]; cbn [map existsb]; [reflexivity|].
  rewrite IH, (holds_between_split f s h e r Hh).
  repeat match goal with
         | |- context [MemDB.holds ?x ?y] => destruct (MemDB.holds x y)
         | |- context [existsb ?x ?y] => destruct (existsb x y)
         end; reflexivity.
Qed.

Lemma in_range_empty fields a r : in_range fields a a r = false.
Proof.
  unfold in_range, range_tests.
  induction fields as [|f fields IH]; cbn [map existsb]; [reflexivity|].
  rewrite IH, orb_false_r. unfold MemDB.holds. cbn [MemDB.instant].
  destruct (MemDB.column_time f r) as [t|]; [|reflexivity].
  destruct (Z.leb_spec a t), (Z.ltb_spec t a); cbn; try reflexivity; lia.
Qed.

Lemma orphan_split s h e r :
  s <= h <= e \/ e <= h <= s ->
  orphan s e r = orphan s h r || orphan h e r.
Proof.
  intros Hh. unfold orphan_in. rewrite (in_range_split (c :: cs) s h e r Hh).
  destruct (in_range (c :: cs) s h r), (in_range (c :: cs) h e r),
    (key_mem (id_of key_field r) (map (id_of key_field) src)); reflexivity.
Qed.

(** Removing the orphans of [[s, h)] and then those of [[h, e)] that are
    left removes the orphans of [[s, e)], each counted once. *)
Lemma orphans_compose tgt s h e :
  s <= h <= e \/ e <= h <= s ->
  (List.length (filter (orphan s h) tgt)
   + List.length (filter (orphan h e)
                    (filter (fun r => negb (orphan s h r)) tgt))
   = List.length (filter (orphan s e) tgt))%nat
  /\ filter (fun r => negb (orphan h e r))
       (filter (fun r => negb (orphan s h r)) tgt)
     = filter (fun r => negb (orphan s e r)) tgt.
Proof.
  intros Hh. rewrite !filter_filter. split.
  - symmetry. apply filter_length_split; intros r.
    + rewrite (orphan_split s h e r Hh).
      destruct (orphan s h r), (orphan h e r); reflexivity.
    + destruct (orphan s h r); reflexivity.
  - apply filter_ext. intros r. rewrite (orphan_split s h e r Hh).
    now rewrite negb_orb.
Qed.

Lemma timedelta_half_between d :
  (0 <= d -> 0 <= timedelta_half d <= d)
  /\ (d <= 0 -> d <= timedelta_half d <= 0).
Proof. pose proof (timedelta_half_bounds d). lia. Qed.

Lemma midpoint_between s e :
  s <= s + timedelta_half (e - s) <= e \/ e <= s + timedelta_half (e - s) <= s.
Proof. pose proof (timedelta_half_between (e - s)). lia. Qed.

Lemma counted_key w tgt r :
  good w tgt -> In r tgt ->
  MemDB.counted (counted_field (Some key_field)) r = true.
Proof.
  intros Hgood Hr. pose proof (target_keyed _ _ _ _ _ Hgood r Hr) as Hk.
  unfold keyed in Hk. unfold MemDB.counted, counted_field.
  destruct (String.eqb key_field ""); [reflexivity|].
  destruct (String.eqb key_field "*"); [reflexivity|].
  destruct (MemDB.column key_field r); try discriminate; reflexivity.
Qed.

(** One of the two counts of the body: a number, and when it is zero the
    half holds no row of the target. *)
Lemma half_count_mem (skip : bool) w tgt a b :
  good w tgt ->
  (skip = true -> a = b) ->
  exists n events,
    (if negb skip then
       DataClient.count Target table_name (Some key_field)
         (Some (DateTime a)) (Some (DateTime b)) (Some (c :: cs)) false
     else ret (CInt 0)) w
    = (Returns (CInt (Z.of_nat n)), logged w events)
    /\ (n = 0%nat -> filter (in_range (c :: cs) a b) tgt = []).
Proof.
  intros Hgood Hskip. destruct skip; cbn [negb].
  - exists 0%nat, []. split.
    + unfold ret, logged. rewrite app_nil_r. now destruct w.
    + intros _. rewrite Hskip by reflexivity. apply filter_none.
      intros r _. apply in_range_empty.
  - eexists. eexists. split.
    + apply count_mem. exact (target_rows _ _ _ _ _ Hgood).
    + intros Hz. apply length_zero_iff_nil in Hz. rewrite <- Hz.
      apply filter_ext_in. intros r Hr.
      rewrite (counted_key w tgt r Hgood Hr). now rewrite andb_true_r.
Qed.

Lemma tvalue_eqb_datetime a b :
  tvalue_eqb (DateTime a) (DateTime b) = true -> a = b.
Proof. cbn. apply Z.eqb_eq. Qed.

(** With enough fuel, the binary search on such a dataset returns the number
    of orphan rows of its segment and leaves the target without them. *)
Lemma binary_search_mem fuel :
  forall thres min_segment_size s e w tgt,
    good w tgt ->
    let run :=
      ELTDBPair.remove_orphans_from_target_with_binary_search fuel table_name
        key_field (Some (DateTime s)) (Some (DateTime e)) (Some (c :: cs)) false
        thres min_segment_size w in
    fst run = OutOfFuel
    \/ (fst run = Returns (Z.of_nat (List.length (filter (orphan s e) tgt)))
        /\ good (snd run) (filter (fun r => negb (orphan s e r)) tgt)).
Proof.
  induction fuel as [|fuel IH]; intros thres min_segment_size s e w tgt Hgood;
    [left; reflexivity|].
  cbv zeta. rewrite binary_search_unfold.
  unfold ELTDBPair.binary_search_body. cbn [truthy].
  rewrite !bind_ret_run. cbv beta. rewrite !bind_lift_ok_run. cbv beta.
  unfold bifurcate_time_range. cbn [avg_datetime tvalue_sub tvalue_add].
  rewrite bind_lift_ok_run. cbv beta iota zeta.
  set (h := s + timedelta_half (e - s)).
  pose proof (midpoint_between s e) as Hh. fold h in Hh.
  destruct (half_count_mem (bound_eqb (Some (DateTime s)) (Some (DateTime h)))
              w tgt s h Hgood (tvalue_eqb_datetime s h))
    as (n1 & ev1 & E1 & Z1).
  erewrite bind_run by exact E1. cbv beta.
  assert (Hgood1 := good_logged w tgt ev1 Hgood).
  destruct (half_count_mem (bound_eqb (Some (DateTime e)) (Some (DateTime h)))
              (logged w ev1) tgt h e Hgood1
              (fun E => eq_sym (tvalue_eqb_datetime e h E)))
    as (n2 & ev2 & E2 & Z2).
  erewrite bind_run by exact E2. cbv beta. rewrite logged_logged.
  assert (Hgood2 := good_logged w tgt (ev1 ++ ev2) Hgood).
  set (w2 := logged w (ev1 ++ ev2)) in *.
  cbn [segment_below bound_sub tvalue_sub bound_eqb].
  destruct (or_else _ _) as [exit_now|] eqn:Hexit.
  2:{ exfalso. destruct (tvalue_eqb (DateTime s) (DateTime h));
        [discriminate|].
      destruct (tvalue_eqb (DateTime e) (DateTime h)); discriminate. }
  rewrite bind_lift_ok_run. clear Hexit.
  destruct exit_now.
  { destruct (remove_orphans_mem w2 tgt s e Hgood2) as (w3 & E3 & Hgood3).
    rewrite E3. right. split; [reflexivity | exact Hgood3]. }
  cbn [cell_is_zero].
  destruct ((Z.of_nat n1 =? 0) && (Z.of_nat n2 =? 0)) eqn:Hzero.
  { apply andb_prop in Hzero. destruct Hzero as [Hz1 Hz2].
    apply Z.eqb_eq in Hz1, Hz2.
    specialize (Z1 ltac:(lia)). specialize (Z2 ltac:(lia)).
    assert (Hnone : forall r, In r tgt -> orphan s e r = false).
    { intros r Hr. unfold orphan_in.
      rewrite (in_range_split (c :: cs) s h e r Hh).
      rewrite (filter_nil_inv _ _ _ Z1 Hr), (filter_nil_inv _ _ _ Z2 Hr).
      reflexivity. }
    right. cbn [ret fst snd]. rewrite (filter_none _ _ Hnone).
    split; [reflexivity|]. rewrite filter_all; [exact Hgood2|].
    intros r Hr. now rewrite (Hnone r Hr). }
  cbn [cell_lt].
  assert (Hboth : exists both_below,
             and_then (Ok (Z.of_nat n1 <? thres)) (Ok (Z.of_nat n2 <? thres))
             = Ok both_below
             /\ (both_below = false ->
                 thres <= Z.of_nat n1 \/ thres <= Z.of_nat n2)).
  { destruct (Z.ltb_spec (Z.of_nat n1) thres); cbn.
    - destruct (Z.ltb_spec (Z.of_nat n2) thres); eexists;
        (split; [reflexivity|]); intros; try discriminate; lia.
    - eexists; split; [reflexivity|]; intros; lia. }
  destruct Hboth as (both_below & Eboth & Hbelow). rewrite Eboth.
  rewrite bind_lift_ok_run.
  destruct (orphans_compose tgt s h e Hh) as [Hlen Hrest].
  destruct both_below.
  { destruct (remove_orphans_mem w2 tgt s h Hgood2) as (w3 & E3 & Hgood3).
    erewrite bind_run by exact E3.
    destruct (remove_orphans_mem w3 _ h e Hgood3) as (w4 & E4 & Hgood4).
    erewrite bind_run by exact E4.
    right. cbn [ret fst snd]. rewrite <- Nat2Z.inj_add, Hlen.
    split; [reflexivity|]. rewrite <- Hrest. exact Hgood4. }
  specialize (Hbelow eq_refl). cbn [cell_ge].
  assert (Eabove : or_else (Ok (thres <=? Z.of_nat n1))
                     (Ok (thres <=? Z.of_nat n2)) = Ok true).
  { destruct (Z.leb_spec thres (Z.of_nat n1)); cbn; [reflexivity|].
    destruct (Z.leb_spec thres (Z.of_nat n2)); [reflexivity | lia]. }
  rewrite Eabove, bind_lift_ok_run.
  pose proof (IH thres default_min_segment_size s h w2 tgt Hgood2) as IH1.
  cbv zeta in IH1.
  destruct (ELTDBPair.remove_orphans_from_target_with_binary_search fuel
              table_name key_field (Some (DateTime s)) (Some (DateTime h))
              (Some (c :: cs)) false thres default_min_segment_size w2)
    as [[a | err |] w3] eqn:R1; cbn [fst snd] in IH1;
    [|destruct IH1 as [? | [? _]]; discriminate
     |left; unfold bind; rewrite R1; reflexivity].
  destruct IH1 as [? | [Ea Hgood3]]; [discriminate|]. inversion Ea; subst a.
  erewrite bind_run by exact R1. cbv beta.
  pose proof (IH thres default_min_segment_size h e w3 _ Hgood3) as IH2.
  cbv zeta in IH2.
  destruct (ELTDBPair.remove_orphans_from_target_with_binary_search fuel
              table_name key_field (Some (DateTime h)) (Some (DateTime e))
              (Some (c :: cs)) false thres default_min_segment_size w3)
    as [[b | err |] w4] eqn:R2; cbn [fst snd] in IH2;
    [|destruct IH2 as [? | [? _]]; discriminate
     |left; unfold bind; rewrite R2; reflexivity].
  destruct IH2 as [? | [Eb Hgood4]]; [discriminate|]. inversion Eb; subst b.
  erewrite bind_run by exact R2.
  right. cbn [ret fst snd]. rewrite Z.add_0_l, <- Nat2Z.inj_add, Hlen.
  split; [reflexivity|]. rewrite <- Hrest. exact Hgood4.
Qed.

End SumLaw.

(** ** Fuel

    Once a run ends, more fuel changes nothing. *)



(** ** The count returned and the rows removed *)

Lemma set_of_list_In k l : In k (set_of_list l) <-> In k l.
Proof.
  induction l as [|x l IH]; cbn; [tauto|].
  destruct (key_mem x l) eqn:Hm.
  - rewrite IH. apply key_mem_In in Hm. split; [auto|].
    intros [-> | H]; auto.
  - cbn. rewrite IH. tauto.
Qed.

Lemma set_of_list_no_dup l : NoDup (set_of_list l).
Proof.
  induction l as [|x l IH]; cbn; [constructor|].
  destruct (key_mem x l) eqn:Hm; [exact IH|].
  constructor; [|exact IH]. rewrite set_of_list_In. intros Hin.
  apply key_mem_In in Hin. congruence.
Qed.

Lemma set_difference_In k a b :
  In k (set_difference a b) <-> In k a /\ ~ In k b.
Proof.
  unfold set_difference. rewrite filter_In, negb_true_iff.
  split; intros [Ha Hb]; (split; [exact Ha|]).
  - intros Hin. apply key_mem_In in Hin. congruence.
  - destruct (key_mem k b) eqn:Hm; [|reflexivity].
    apply key_mem_In in Hm. contradiction.
Qed.

Lemma fetch_and_diff_returns {db} `{Engine db} q (w w' : world db) orphans :
  ELTDBPair.fetch_and_diff q w = (Returns orphans, w') ->
  exists target_ids source_ids,
    orphans = set_difference (set_of_list target_ids) (set_of_list source_ids).
Proof.
  unfold ELTDBPair.fetch_and_diff. intros E.
  apply bind_returns in E. destruct E as (rows1 & w1 & _ & E).
  apply bind_returns in E. destruct E as (tids & w2 & _ & E).
  apply bind_returns in E. destruct E as (rows2 & w3 & _ & E).
  apply bind_returns in E. destruct E as (sids & w4 & _ & E).
  inversion E. exists tids, sids. reflexivity.
Qed.

Lemma run_read_keeps (s : MemDB.store) self q :
  is_read (self, q) = true -> snd (MemDB.run s q) = s.
Proof.
  destruct q as [f t c | k t c | t k ids | agg fields t];
    cbn [is_read snd MemDB.run]; try discriminate; intros _.
  - destruct (MemDB.lookup_table t s), (MemDB.selection c); reflexivity.
  - destruct (MemDB.lookup_table t s), (MemDB.selection c); reflexivity.
  - destruct (MemDB.lookup_table t s), fields; reflexivity.
Qed.

Lemma bind_keeps {A B} (m : M MemDB.store A) (k : A -> M MemDB.store B) :
  keeps_stores m -> (forall a, keeps_stores (k a)) -> keeps_stores (bind m k).
Proof.
  intros Hm Hk w. unfold bind. destruct (Hm w) as [S1 T1].
  destruct (m w) as [[a | e |] w1]; cbn [snd] in *; try (split; assumption).
  destruct (Hk a w1) as [S2 T2]. split; congruence.
Qed.

Lemma ret_keeps {A} (a : A) : keeps_stores (@ret MemDB.store A a).
Proof. intros w. split; reflexivity. Qed.

Lemma raise_keeps {A} e : keeps_stores (@raise MemDB.store A e).
Proof. intros w. split; reflexivity. Qed.

Lemma lift_keeps {A} (r : result A) : keeps_stores (@lift MemDB.store A r).
Proof. destruct r; [apply ret_keeps | apply raise_keeps]. Qed.

Lemma fetch_rows_keeps self q :
  is_read (self, q) = true -> keeps_stores (DataClient.fetch_rows self q).
Proof.
  intros R w. unfold DataClient.fetch_rows, execute, mem_engine.
  pose proof (run_read_keeps (DataClient.store_of self w) self q R) as K.
  destruct (MemDB.run (DataClient.store_of self w) q) as [r d].
  cbn [snd] in K. subst d. destruct r, self; split; reflexivity.
Qed.

Ltac solve_keeps :=
  repeat first
    [ apply bind_keeps | apply ret_keeps | apply raise_keeps
    | apply lift_keeps | apply fetch_rows_keeps; reflexivity
    | match goal with
      | |- forall _, keeps_stores _ => intro
      | |- keeps_stores (match ?x with _ => _ end) => destruct x
      end ].

Lemma compare_counts_keeps table_name field_name start_datetime end_datetime
    timestamp_fields stick :
  keeps_stores (ELTDBPair.compare_counts table_name field_name start_datetime
                  end_datetime timestamp_fields stick).
Proof.
  unfold ELTDBPair.compare_counts, DataClient.count, DataClient.query.
  solve_keeps.
Qed.

Lemma find_orphans_keeps table_name key_field start_datetime end_datetime
    timestamp_fields stick :
  keeps_stores (ELTDBPair.find_orphans table_name key_field start_datetime
                  end_datetime timestamp_fields stick).
Proof.
  unfold ELTDBPair.find_orphans, ELTDBPair.compare_counts,
    ELTDBPair.fetch_and_diff, DataClient.count, DataClient.query.
  solve_keeps.
Qed.

(** On the in-memory store the identifiers [fetch_and_diff] returns are
    identifiers of rows of the target. *)
Lemma fetch_and_diff_within t key_field c (w w' : world MemDB.store) tgt
    orphans :
  MemDB.lookup_table t (target w) = Some tgt ->
  ELTDBPair.fetch_and_diff (AllIdsQuery key_field t c) w
  = (Returns orphans, w') ->
  incl orphans (map (id_of key_field) tgt).
Proof.
  intros Htgt E. unfold ELTDBPair.fetch_and_diff in E.
  apply bind_returns in E. destruct E as (rows1 & w1 & F1 & E).
  apply bind_returns in E. destruct E as (tids & w2 & L1 & E).
  apply bind_returns in E. destruct E as (rows2 & w3 & _ & E).
  apply bind_returns in E. destruct E as (sids & w4 & _ & E).
  inversion E as [[Ho Hw]]. clear E.
  apply lift_returns in L1. destruct L1 as [L1 _].
  unfold DataClient.fetch_rows, execute, mem_engine in F1.
  cbn [MemDB.run DataClient.store_of] in F1. rewrite Htgt in F1.
  destruct (MemDB.selection c) as [sel|]; [|discriminate].
  inversion F1 as [[Hrows Hw1]]. clear F1. subst rows1.
  rewrite format_ids in L1. inversion L1 as [Htids]. clear L1.
  intros k Hk. apply set_difference_In in Hk. destruct Hk as [Hk _].
  rewrite !set_of_list_In in Hk. apply in_map_iff in Hk.
  destruct Hk as (r & <- & Hr). apply filter_In in Hr.
  apply in_map. tauto.
Qed.

(** [find_orphans] on the in-memory store, whatever the range: it leaves
    the stores as they were and returns a duplicate-free list of identifiers
    of rows of the target. *)
Lemma find_orphans_mem_any t key_field start_datetime end_datetime
    timestamp_fields stick (w w1 : world MemDB.store) tgt orphans :
  MemDB.lookup_table t (target w) = Some tgt ->
  ELTDBPair.find_orphans t key_field start_datetime end_datetime
    timestamp_fields stick w = (Returns orphans, w1) ->
  source w1 = source w /\ target w1 = target w
  /\ NoDup orphans /\ incl orphans (map (id_of key_field) tgt).
Proof.
  intros Htgt E.
  destruct (find_orphans_keeps t key_field start_datetime end_datetime
              timestamp_fields stick w) as [Ks Kt].
  rewrite E in Ks, Kt. cbn [snd] in Ks, Kt.
  split; [exact Ks|]. split; [exact Kt|].
  unfold ELTDBPair.find_orphans in E.
  apply bind_returns in E. destruct E as (c & w0 & L & E).
  apply lift_returns in L. destruct L as [_ ->].
  assert (D : forall w2,
             target w2 = target w ->
             ELTDBPair.fetch_and_diff (AllIdsQuery key_field t c) w2
             = (Returns orphans, w1) ->
             NoDup orphans /\ incl orphans (map (id_of key_field) tgt)).
  { intros w2 Hw2 F. split.
    - apply fetch_and_diff_returns in F. destruct F as (tids & sids & ->).
      unfold set_difference. apply NoDup_filter, set_of_list_no_dup.
    - eapply fetch_and_diff_within; [|exact F]. now rewrite Hw2. }
  destruct (clause_nonempty c); [|exact (D w eq_refl E)].
  apply bind_returns in E. destruct E as (d & w2 & C & E).
  destruct (compare_counts_keeps t None start_datetime end_datetime
              timestamp_fields stick w) as [_ Ct].
  rewrite C in Ct. cbn [snd] in Ct.
  destruct (difference_is_zero d); [|exact (D w2 Ct E)].
  inversion E. split; [constructor | intros k []].
Qed.

(** On a row whose key is not NULL, the delete names the row by its
    identifier. *)
Lemma listed_by_identifier key_field ids r :
  keyed key_field r = true ->
  MemDB.listed key_field ids r = key_mem (id_of key_field r) ids.
Proof.
  unfold keyed, MemDB.listed, id_of.
  destruct (MemDB.column key_field r); try discriminate; reflexivity.
Qed.

(** A set of keys of a table with a primary key names as many rows as it
    has keys. *)
Lemma rows_of_keys key_field tgt ids :
  NoDup (map (id_of key_field) tgt) ->
  NoDup ids ->
  incl ids (map (id_of key_field) tgt) ->
  List.length (filter (fun r => key_mem (id_of key_field r) ids) tgt)
  = List.length ids.
Proof.
  intros Hn Hids Hincl.
  rewrite <- (length_map (id_of key_field)), <- filter_map_swap
    with (p := fun k => key_mem k ids).
  apply Nat.le_antisymm; apply NoDup_incl_length.
  - now apply NoDup_filter.
  - intros k Hk. apply filter_In in Hk. apply key_mem_In. tauto.
  - exact Hids.
  - intros k Hk. apply filter_In. split; [now apply Hincl|].
    now apply key_mem_In.
Qed.

(** C7, as amended.  [remove_orphans_from_target] computes [find_orphans].
    On every engine: on the empty set it returns 0 in the world
    [find_orphans] left, and its trace holds no delete more than before; on a
    non-empty set it sends one query more, to the target, the delete of the
    listed keys, whose text is [DELETE <table> WHERE <key> IN (<csv>)] with
    integers bare and the other keys between single quotes; the trace holds
    exactly one delete more, and the call returns the size of the set unless
    the store fails the delete.  The size of the set is the number of rows
    removed where the key is a primary key of the target: on the in-memory
    store, when no key of the target occurs twice, is NULL or holds a quote
    or a backslash, the call returns, the target has lost as many rows as
    the number returned, namely the rows whose identifier is in the set, and
    the source is as it was. *)
Theorem remove_orphans_issues_one_delete :
  (forall (db : Type) (E : Engine db) table_name key_field start_datetime
          end_datetime timestamp_fields stick orphans (w w1 : world db),
      ELTDBPair.find_orphans table_name key_field start_datetime end_datetime
        timestamp_fields stick w = (Returns orphans, w1) ->
      let run := ELTDBPair.remove_orphans_from_target table_name key_field
                   start_datetime end_datetime timestamp_fields stick w in
      let delete_query := DeleteQuery table_name key_field orphans in
      (orphans = [] ->
       run = (Returns 0, w1)
       /\ deletes (trace (snd run)) = deletes (trace w))
      /\ (orphans <> [] ->
          trace (snd run) = trace w1 ++ [(Target, delete_query)]
          /\ deletes (trace (snd run)) = S (deletes (trace w))
          /\ fst run = match fst (execute (target w1) delete_query) with
                       | Ok _ => Returns (Z.of_nat (List.length orphans))
                       | Raise e => Raises e
                       end
          /\ render_query delete_query
             = newline +++ indent12 +++ "DELETE " +++ table_name +++ " "
               +++ newline +++ indent12 +++ "WHERE " +++ key_field +++ " IN ("
               +++ join "," (map format_primary_key orphans) +++ ") "
               +++ newline +++ indent12)
      /\ (forall z, format_primary_key (KInt z) = str_int z)
      /\ (forall s, format_primary_key (KStr s) = "'" +++ s +++ "'"))
  /\ (forall table_name key_field start_datetime end_datetime
             timestamp_fields stick orphans tgt (w w1 : world MemDB.store),
      MemDB.lookup_table table_name (target w) = Some tgt ->
      primary_key key_field tgt ->
      ELTDBPair.find_orphans table_name key_field start_datetime end_datetime
        timestamp_fields stick w = (Returns orphans, w1) ->
      exists w2 tgt',
        ELTDBPair.remove_orphans_from_target table_name key_field
          start_datetime end_datetime timestamp_fields stick w
        = (Returns (Z.of_nat (List.length orphans)), w2)
        /\ MemDB.lookup_table table_name (target w2) = Some tgt'
        /\ (List.length tgt' + List.length orphans = List.length tgt)%nat
        /\ (forall r, In r tgt'
                      <-> In r tgt /\ ~ In (id_of key_field r) orphans)
        /\ source w2 = source w).
Proof.
  split.
  - intros db E table_name key_field start_datetime end_datetime
      timestamp_fields stick orphans w w1 Hfind.
    exact (remove_orphans_delete_sent table_name key_field start_datetime
             end_datetime timestamp_fields stick orphans w w1 Hfind).
  - intros table_name key_field start_datetime end_datetime timestamp_fields
      stick orphans tgt w w1 Htgt [Hunique Hkeys] Hfind.
    destruct (find_orphans_mem_any _ _ _ _ _ _ _ _ _ _ Htgt Hfind)
      as (Hs & Ht & Hnodup & Hincl).
    rewrite (remove_orphans_after_find _ _ _ _ _ _ _ _ _ Hfind).
    destruct orphans as [|k rest].
    + exists w1, tgt. rewrite Ht. cbn [List.length].
      repeat split; try tauto; try assumption; lia.
    + set (orphans := k :: rest) in *.
      assert (Hplain : forallb plain_key orphans = true).
      { apply forallb_forall. intros x Hx. apply Hincl, in_map_iff in Hx.
        destruct Hx as (r & <- & Hr). now apply Hkeys. }
      assert (Hrows : MemDB.lookup_table table_name (target w1) = Some tgt)
        by now rewrite Ht.
      erewrite bind_run;
        [|apply delete_mem; [exact Hrows | discriminate | exact Hplain]].
      eexists. eexists. split; [reflexivity|]. cbn [target source].
      split; [eapply lookup_replace; exact Hrows|].
      assert (Hsame : filter (fun r => negb (MemDB.listed key_field orphans r))
                        tgt
                      = filter (fun r => negb (key_mem (id_of key_field r)
                                                 orphans)) tgt).
      { apply filter_ext_in. intros r Hr. f_equal.
        apply listed_by_identifier. now apply Hkeys. }
      rewrite Hsame. split; [|split; [|exact Hs]].
      * rewrite <- (rows_of_keys key_field tgt orphans Hunique Hnodup Hincl).
        rewrite Nat.add_comm. symmetry.
        rewrite <- (filter_all (fun _ => true) tgt) at 1 by reflexivity.
        apply filter_length_split; intros r.
        -- now destruct (key_mem _ _).
        -- now destruct (key_mem _ _).
      * intros r. rewrite filter_In, negb_true_iff. split.
        -- intros [Hr Hm]. split; [exact Hr|]. intros Hin.
           apply key_mem_In in Hin. congruence.
        -- intros [Hr Hm]. split; [exact Hr|].
           destruct (key_mem _ _) eqn:Hk; [|reflexivity].
           apply key_mem_In in Hk. contradiction.
Qed.

(** C7, as stated, fails: the number returned is the size of the set, not
    the number of rows removed.  Where the target holds one identifier
    twice, the call returns 1 and removes two rows; where the target holds a
    row without a key, the call returns 1, sends the delete of ['None'], and
    removes nothing. *)
Theorem returned_count_is_not_rows_removed :
  (let run := ELTDBPair.remove_orphans_from_target "events" "id" None None
                None false Examples.duplicated in
   fst run = Returns 1
   /\ option_map (@List.length row)
        (MemDB.lookup_table "events" (target Examples.duplicated))
      = Some 2%nat
   /\ option_map (@List.length row)
        (MemDB.lookup_table "events" (target (snd run)))
      = Some 0%nat)
  /\ (let run := ELTDBPair.remove_orphans_from_target "events" "id" None None
                   None false Examples.unkeyed in
      fst run = Returns 1
      /\ In (Target, DeleteQuery "events" "id" [KStr "None"])
           (trace (snd run))
      /\ MemDB.lookup_table "events" (target (snd run))
         = MemDB.lookup_table "events" (target Examples.unkeyed)).
Proof. vm_compute. tauto. Qed.

(** Where a key of the target holds a single quote, the delete is no
    statement: the flat call raises and removes nothing, the binary search
    removes the orphan of the first half and raises in the second. *)
Example unescaped_quote_breaks_the_delete :
  (let run := ELTDBPair.remove_orphans_from_target "events" "id"
                (Some (DateTime Examples.t0))
                (Some (DateTime (Examples.at_second 40)))
                (Some ["created_at"]) false Examples.apostrophe in
   fst run = Raises MemDB.syntax_error
   /\ target (snd run) = target Examples.apostrophe)
  /\ (let run := ELTDBPair.remove_orphans_from_target_with_binary_search 10
                   "events" "id" (Some (DateTime Examples.t0))
                   (Some (DateTime (Examples.at_second 40)))
                   (Some ["created_at"]) false 1 default_min_segment_size
                   Examples.apostrophe in
      fst run = Raises MemDB.syntax_error
      /\ option_map (map (id_of "id"))
           (MemDB.lookup_table "events" (target (snd run)))
         = Some [KInt 1; KStr "O'Brien"]).
Proof. vm_compute. tauto. Qed.

(** ** The claims on concrete data *)

(** C9.  [min_segment_size] is read by the exit test of the call that
    receives it and by nothing else: the body either ends without calling
    itself, or calls itself exactly twice, passing the threshold it was given
    and a minimum segment size of ten seconds.  On the example, a caller's
    fifteen seconds do not stop the second level, whose midpoint lies ten
    seconds after its start: the third level counts the rows of a
    five-second half. *)
Theorem min_segment_size_applies_at_top_only :
  (forall (db : Type) (E : Engine db) table_name key_field start_datetime
          end_datetime timestamp_fields stick thres min_segment_size
          (w : world db),
      (exists s h e w1,
          bisects start_datetime end_datetime stick min_segment_size s h e
          /\ forall self,
              ELTDBPair.binary_search_body self table_name key_field
                start_datetime end_datetime timestamp_fields stick thres
                min_segment_size w
              = bind (self table_name key_field (Some s) (Some h)
                        timestamp_fields stick thres (Calendar.seconds 10))
                  (fun a =>
                     bind (self table_name key_field (Some h) (Some e)
                             timestamp_fields stick thres
                             (Calendar.seconds 10))
                       (fun b => ret (0 + (a + b)))) w1)
      \/ (exists r,
             fst r <> OutOfFuel
             /\ forall self,
                 ELTDBPair.binary_search_body self table_name key_field
                   start_datetime end_datetime timestamp_fields stick thres
                   min_segment_size w = r))
  /\ In (Target,
         CountQuery "id" "events"
           (range_clause ["created_at"] Examples.t0 (Examples.at_second 5)))
       (trace
          (snd (ELTDBPair.remove_orphans_from_target_with_binary_search 10
                  "events" "id" (Some (DateTime Examples.t0))
                  (Some (DateTime (Examples.at_second 40)))
                  (Some ["created_at"]) false 1 (Calendar.seconds 15)
                  Examples.lagging))).
Proof.
  split.
  - intros db E table_name key_field start_datetime end_datetime
      timestamp_fields stick thres min_segment_size w.
    exact (proj2 (recursion_passes_default_segment_size table_name key_field
                    start_datetime end_datetime timestamp_fields stick thres
                    min_segment_size w)).
  - vm_compute. tauto.
Qed.

(** C10.  What [remove_orphans_from_target] returns is the size of the set
    [find_orphans] computed, whatever the delete did to the store.  On the
    example the set has one key, the delete removes two rows, and the call
    returns 1. *)
Theorem removed_count_is_set_size :
  (forall (db : Type) (E : Engine db) table_name key_field start_datetime
          end_datetime timestamp_fields stick orphans n (w w1 w2 : world db),
      ELTDBPair.find_orphans table_name key_field start_datetime end_datetime
        timestamp_fields stick w = (Returns orphans, w1) ->
      ELTDBPair.remove_orphans_from_target table_name key_field
        start_datetime end_datetime timestamp_fields stick w
      = (Returns n, w2) ->
      n = Z.of_nat (List.length orphans))
  /\ (let run := ELTDBPair.remove_orphans_from_target "events" "id" None None
                   None false Examples.duplicated in
      fst (ELTDBPair.find_orphans "events" "id" None None None false
             Examples.duplicated) = Returns [KInt 7]
      /\ fst run = Returns 1
      /\ option_map (@List.length row)
           (MemDB.lookup_table "events" (target Examples.duplicated))
         = Some 2%nat
      /\ MemDB.lookup_table "events" (target (snd run)) = Some []).
Proof.
  split.
  - intros db E table_name key_field start_datetime end_datetime
      timestamp_fields stick orphans n w w1 w2 Hfind Hrun.
    rewrite (remove_orphans_after_find _ _ _ _ _ _ _ _ _ Hfind) in Hrun.
    destruct orphans as [|k rest]; [now inversion Hrun|].
    apply bind_returns in Hrun. destruct Hrun as (rows & w3 & _ & Hret).
    now inversion Hret.
  - vm_compute. repeat split; reflexivity.
Qed.



(** With date truncation the binary search truncates its bounds to dates
    and hands them to [count] with the flag still on; the builder calls
    [.date()] on a date and the search ends in an [AttributeError], where the
    flat removal over the same window returns its count. *)
Example binary_search_with_truncation_raises :
  fst (ELTDBPair.remove_orphans_from_target_with_binary_search 10 "events"
         "id" (Some Examples.first_day) (Some Examples.third_day)
         (Some ["created_at"]) true default_thres default_min_segment_size
         Examples.reconciled)
  = Raises (AttributeError "'datetime.date' object has no attribute 'date'")
  /\ fst (ELTDBPair.remove_orphans_from_target "events" "id"
            (Some Examples.first_day) (Some Examples.third_day)
            (Some ["created_at"]) true Examples.reconciled)
     = Returns 2.
Proof. split; vm_compute; reflexivity. Qed.

(** ** The hypotheses of the theorems hold on the examples *)

Lemma reconciled_differs_by_orphans_only :
  orphans_only "events" "id" Examples.reconciled Examples.kept Examples.loaded.
Proof.
  constructor; try reflexivity.
  - vm_compute. repeat constructor; cbn; intuition discriminate.
  - vm_compute. repeat constructor; cbn; intuition discriminate.
  - intros r Hr. cbn in Hr. intuition (subst; reflexivity).
  - intros r Hr. cbn in Hr. intuition (subst; reflexivity).
  - intros r Hr. cbn in Hr |- *. intuition.
Qed.


Lemma bound_without_fields_raises_witness :
  (Some Examples.morning <> None \/ @None tvalue <> None)
  /\ truthy_fields None = false
  /\ exists msg,
      _construct_where_clause_from_timerange (Some Examples.morning) None None
        false = Raise (ValueError msg)
      /\ DataClient.count Target "events" None (Some Examples.morning) None
           None false Examples.lagging
         = (Raises (ValueError msg), Examples.lagging).
Proof.
  split; [left; discriminate|]. split; [reflexivity|].
  pose proof (bound_without_fields_raises (db := MemDB.store)
              (Some Examples.morning) None None false) as T.
  assert (H1 : Some Examples.morning <> None \/ @None tvalue <> None) by (left; discriminate).
  specialize (T H1 eq_refl).
  destruct T as [msg [Hb Hc]].
  exists msg. split; [exact Hb|].
  pose proof (Hc Examples.lagging Target "events" None "id") as Hd.
  destruct Hd as [Hd _].
  exact Hd.
Defined.

Lemma find_orphans_count_shortcut_witness :
  where_clause_of_timerange (Some (DateTime Examples.t0))
    (Some (DateTime (Examples.at_second 40))) (Some ["created_at"]) false
  = Ok (range_clause ["created_at"] Examples.t0 (Examples.at_second 40))
  /\ exists w',
      ELTDBPair.find_orphans "events" "id" (Some (DateTime Examples.t0))
        (Some (DateTime (Examples.at_second 40))) (Some ["created_at"]) false
        Examples.lagging = (Returns [], w')
      /\ trace w'
         = trace Examples.lagging
           ++ [(Target,
                CountQuery "*" "events"
                  (range_clause ["created_at"] Examples.t0
                     (Examples.at_second 40)));
               (Source,
                CountQuery "*" "events"
                  (range_clause ["created_at"] Examples.t0
                     (Examples.at_second 40)))].
Proof.
  split; [apply range_clause_built|].
  pose proof (find_orphans_count_shortcut "events" "id"
              (Some (DateTime Examples.t0))
              (Some (DateTime (Examples.at_second 40))) (Some ["created_at"])
              false (range_clause ["created_at"] Examples.t0 (Examples.at_second 40))
              Examples.lagging
              (range_clause_built "created_at" [] Examples.t0 (Examples.at_second 40))) as T.
  destruct T as [Hrange _].
  assert (Hb : Some (DateTime Examples.t0) <> None
               \/ Some (DateTime (Examples.at_second 40)) <> None)
    by (left; discriminate).
  destruct (Hrange Hb) as [_ Hzero].
  assert (Hcmp :
    ELTDBPair.compare_counts "events" None (Some (DateTime Examples.t0))
      (Some (DateTime (Examples.at_second 40))) (Some ["created_at"]) false
      Examples.lagging
    = (Returns (DiffInt 0),
       logged Examples.lagging
         [(Target, CountQuery "*" "events"
                     (range_clause ["created_at"] Examples.t0
                        (Examples.at_second 40)));
          (Source, CountQuery "*" "events"
                     (range_clause ["created_at"] Examples.t0
                        (Examples.at_second 40)))]))
    by (vm_compute; reflexivity).
  destruct (Hzero _ _ Hcmp eq_refl) as [Hfind Htrace].
  eexists. split; [exact Hfind | exact Htrace].
Defined.

Lemma remove_orphans_issues_one_delete_witness :
  (ELTDBPair.find_orphans "events" "id" None None None false
     Examples.duplicated
   = (Returns [KInt 7],
      logged Examples.duplicated
        [(Target, AllIdsQuery "id" "events" []);
         (Source, AllIdsQuery "id" "events" [])])
   /\ trace (snd (ELTDBPair.remove_orphans_from_target "events" "id" None
                    None None false Examples.duplicated))
      = trace (logged Examples.duplicated
                 [(Target, AllIdsQuery "id" "events" []);
                  (Source, AllIdsQuery "id" "events" [])])
        ++ [(Target, DeleteQuery "events" "id" [KInt 7])]
   /\ deletes (trace (snd (ELTDBPair.remove_orphans_from_target "events"
                             "id" None None None false Examples.duplicated)))
      = S (deletes (trace Examples.duplicated)))
  /\ (primary_key "id" Examples.loaded
      /\ ELTDBPair.find_orphans "events" "id" None None None false
           Examples.reconciled
         = (Returns [KInt 2; KStr "d"],
            logged Examples.reconciled
              [(Target, AllIdsQuery "id" "events" []);
               (Source, AllIdsQuery "id" "events" [])])
      /\ exists w2 tgt',
          ELTDBPair.remove_orphans_from_target "events" "id" None None None
            false Examples.reconciled
          = (Returns (Z.of_nat (List.length [KInt 2; KStr "d"])), w2)
          /\ MemDB.lookup_table "events" (target w2) = Some tgt'
          /\ (List.length tgt' + List.length [KInt 2; KStr "d"]
              = List.length Examples.loaded)%nat
          /\ (forall r, In r tgt'
                        <-> In r Examples.loaded
                            /\ ~ In (id_of "id" r) [KInt 2; KStr "d"])
          /\ source w2 = source Examples.reconciled).
Proof.
  pose proof remove_orphans_issues_one_delete as T.
  destruct T as [Tsent Tremoved].
  split.
  - assert (Hfind : ELTDBPair.find_orphans "events" "id" None None None false
                      Examples.duplicated
                    = (Returns [KInt 7],
                       logged Examples.duplicated
                         [(Target, AllIdsQuery "id" "events" []);
                          (Source, AllIdsQuery "id" "events" [])]))
      by (vm_compute; reflexivity).
    split; [exact Hfind|].
    pose proof (Tsent MemDB.store mem_engine "events" "id" None None None
                  false [KInt 7] Examples.duplicated
                  (logged Examples.duplicated
                     [(Target, AllIdsQuery "id" "events" []);
                      (Source, AllIdsQuery "id" "events" [])]) Hfind) as T.
    cbv zeta in T.
    destruct T as [_ [Hone _]].
    assert (Hne : [KInt 7] <> []) by discriminate.
    destruct (Hone Hne) as [Htrace [Hdel _]].
    split; [exact Htrace | exact Hdel].
  - assert (Hkey : primary_key "id" Examples.loaded).
    { split.
      - exact (target_keys_unique _ _ _ _ _
                 reconciled_differs_by_orphans_only).
      - intros r Hr. split.
        + exact (target_keyed _ _ _ _ _ reconciled_differs_by_orphans_only
                   r Hr).
        + exact (target_plain _ _ _ _ _ reconciled_differs_by_orphans_only
                   r Hr). }
    assert (Hfind : ELTDBPair.find_orphans "events" "id" None None None false
                      Examples.reconciled
                    = (Returns [KInt 2; KStr "d"],
                       logged Examples.reconciled
                         [(Target, AllIdsQuery "id" "events" []);
                          (Source, AllIdsQuery "id" "events" [])]))
      by (vm_compute; reflexivity).
    assert (Htgt : MemDB.lookup_table "events" (target Examples.reconciled)
                   = Some Examples.loaded) by reflexivity.
    split; [exact Hkey|]. split; [exact Hfind|].
    exact (Tremoved "events" "id" None None None false [KInt 2; KStr "d"]
             Examples.loaded Examples.reconciled
             (logged Examples.reconciled
                [(Target, AllIdsQuery "id" "events" []);
                 (Source, AllIdsQuery "id" "events" [])]) Htgt Hkey Hfind).
Defined.

Lemma binary_search_terminates_witness :
  0 < span (DateTime Examples.t0) (DateTime (Examples.at_second 40))
  /\ exists N, forall fuel, (N <= fuel)%nat ->
      fst (ELTDBPair.remove_orphans_from_target_with_binary_search fuel
             "events" "id" (Some (DateTime Examples.t0))
             (Some (DateTime (Examples.at_second 40))) (Some ["created_at"])
             false 1 default_min_segment_size Examples.lagging)
      <> OutOfFuel.
Proof.
  assert (Hpos : 0 < span (DateTime Examples.t0)
                        (DateTime (Examples.at_second 40)))
    by (vm_compute; reflexivity).
  split; [exact Hpos|].
  pose proof (binary_search_terminates "events" "id"
                  (DateTime Examples.t0) (DateTime (Examples.at_second 40))
                  (Some ["created_at"]) false 1 default_min_segment_size
                  Examples.lagging Hpos) as T.
  destruct T as [Hend _].
  exact Hend.
Defined.

Lemma removed_count_is_set_size_witness :
  ELTDBPair.find_orphans "events" "id" None None None false
    Examples.duplicated
  = (Returns [KInt 7],
     logged Examples.duplicated
       [(Target, AllIdsQuery "id" "events" []);
        (Source, AllIdsQuery "id" "events" [])])
  /\ ELTDBPair.remove_orphans_from_target "events" "id" None None None false
       Examples.duplicated
     = (Returns 1,
        World [("events", [])] [("events", [])]
          [(Target, AllIdsQuery "id" "events" []);
           (Source, AllIdsQuery "id" "events" []);
           (Target, DeleteQuery "events" "id" [KInt 7])])
  /\ 1 = Z.of_nat (List.length [KInt 7]).
Proof.
  assert (Hfind : ELTDBPair.find_orphans "events" "id" None None None false
                    Examples.duplicated
                  = (Returns [KInt 7],
                     logged Examples.duplicated
                       [(Target, AllIdsQuery "id" "events" []);
                        (Source, AllIdsQuery "id" "events" [])]))
    by (vm_compute; reflexivity).
  assert (Hrun : ELTDBPair.remove_orphans_from_target "events" "id" None None
                   None false Examples.duplicated
                 = (Returns 1,
                    World [("events", [])] [("events", [])]
                      [(Target, AllIdsQuery "id" "events" []);
                       (Source, AllIdsQuery "id" "events" []);
                       (Target, DeleteQuery "events" "id" [KInt 7])]))
    by (vm_compute; reflexivity).
  split; [exact Hfind|]. split; [exact Hrun|].
  pose proof removed_count_is_set_size as T. destruct T as [T _].
  exact (T MemDB.store mem_engine "events" "id" None None None false
           [KInt 7] 1 Examples.duplicated _ _ Hfind Hrun).
Defined.

(** * Further properties *)

(** ** The predicate builder *)

(** X1.  The builder fails in three cases and no other: the truncation flag
    is on and the two bounds are equal as given ([None] twice included); a
    bound is given without timestamp columns; the flag is on and a bound is
    already a date.  The first two raise [ValueError], the third
    [AttributeError]. *)
Theorem builder_raises_iff start_datetime end_datetime timestamp_fields stick :
  ((exists err,
       _construct_where_clause_from_timerange start_datetime end_datetime
         timestamp_fields stick = Raise err)
   <-> (stick && bound_eqb start_datetime end_datetime = true
        \/ (truthy_fields timestamp_fields = false
            /\ truthy start_datetime || truthy end_datetime = true)
        \/ (stick = true
            /\ is_date start_datetime || is_date end_datetime = true)))
  /\ forall err,
      _construct_where_clause_from_timerange start_datetime end_datetime
        timestamp_fields stick = Raise err ->
      (exists msg, err = ValueError msg
                   /\ (stick && bound_eqb start_datetime end_datetime = true
                       \/ truthy_fields timestamp_fields = false))
      \/ (err = AttributeError "'datetime.date' object has no attribute 'date'"
          /\ stick = true
          /\ is_date start_datetime || is_date end_datetime = true).
Proof.
  unfold _construct_where_clause_from_timerange.
  destruct stick;
    destruct start_datetime as [[s | s]|], end_datetime as [[e | e]|];
    cbn [andb bound_eqb tvalue_eqb truthy is_date orb negb truncate_bound
         date_of];
    try destruct (Z.eqb_spec s e);
    destruct (truthy_fields timestamp_fields) eqn:Hf;
    cbn [andb orb negb];
    (split;
     [split;
      [intros [err Herr]; try discriminate; auto
      |intros [H | [[H1 H2] | [H1 H2]]]; try discriminate;
       eexists; reflexivity]
     |intros err Herr; try discriminate; inversion Herr; subst err;
      try (left; eexists; split; [reflexivity | auto; fail]);
      try (right; auto; fail)]).
Qed.

(** X2.  The builder returns the empty text exactly when the truncation flag
    is off and neither bound is given: every accepted range yields a
    non-empty clause. *)
Theorem builder_empty_iff_no_range start_datetime end_datetime
    timestamp_fields stick :
  _construct_where_clause_from_timerange start_datetime end_datetime
    timestamp_fields stick = Ok ""
  <-> stick = false /\ start_datetime = None /\ end_datetime = None.
Proof.
  split.
  - intros Htext. rewrite render_where_clause in Htext.
    destruct (where_clause_of_timerange start_datetime end_datetime
                timestamp_fields stick) as [c|] eqn:Hc; [|discriminate].
    inversion Htext as [Hrender].
    assert (Hempty : clause_nonempty c = false).
    { unfold clause_nonempty. now rewrite Hrender. }
    destruct start_datetime as [s|], end_datetime as [e|];
      try (rewrite (where_clause_given_range _ _ _ _ _ Hc) in Hempty;
           [discriminate | (left; discriminate) || (right; discriminate)]).
    destruct stick; [discriminate | auto].
  - intros (-> & -> & ->). apply no_range_no_clause.
Qed.

(** ** Identifier sets *)

(** X4.  Whatever the engine hands back, what [find_orphans] returns is a
    set: no identifier occurs in it twice. *)
Theorem find_orphans_returns_set {db} `{Engine db} table_name key_field
    start_datetime end_datetime timestamp_fields stick (w w' : world db)
    orphans :
  ELTDBPair.find_orphans table_name key_field start_datetime end_datetime
    timestamp_fields stick w = (Returns orphans, w') ->
  NoDup orphans.
Proof.
  unfold ELTDBPair.find_orphans. intros E.
  apply bind_returns in E. destruct E as (c & w1 & _ & E).
  assert (Hdiff : forall q w0,
             ELTDBPair.fetch_and_diff q w0 = (Returns orphans, w') ->
             NoDup orphans).
  { intros q w0 Hq. apply fetch_and_diff_returns in Hq.
    destruct Hq as (tids & sids & ->). unfold set_difference.
    apply NoDup_filter, set_of_list_no_dup. }
  destruct (clause_nonempty c); [|eapply Hdiff; exact E].
  apply bind_returns in E. destruct E as (d & w2 & _ & E).
  destruct (difference_is_zero d); [|eapply Hdiff; exact E].
  inversion E. constructor.
Qed.

(** [find_orphans] without a time range, on the in-memory store. *)
Lemma find_orphans_mem_all t key_field timestamp_fields
    (w : world MemDB.store) src tgt :
  MemDB.lookup_table t (source w) = Some src ->
  MemDB.lookup_table t (target w) = Some tgt ->
  ELTDBPair.find_orphans t key_field None None timestamp_fields false w
  = (Returns (set_difference (set_of_list (map (id_of key_field) tgt))
                (set_of_list (map (id_of key_field) src))),
     logged w [(Target, AllIdsQuery key_field t []);
               (Source, AllIdsQuery key_field t [])]).
Proof.
  intros Hsrc Htgt.
  rewrite (find_orphans_with_clause _ _ _ _ _ _ _ w
             (proj1 (no_range_no_clause timestamp_fields))).
  rewrite clause_nonempty_nil. unfold ELTDBPair.fetch_and_diff.
  assert (Hfetch : forall self (w0 : world MemDB.store) rows,
             MemDB.lookup_table t (DataClient.store_of self w0) = Some rows ->
             DataClient.fetch_rows self (AllIdsQuery key_field t []) w0
             = (Returns (map (fun r => [("id", MemDB.column key_field r)])
                           rows),
                logged w0 [(self, AllIdsQuery key_field t [])])).
  { intros self w0 rows Hrows.
    unfold DataClient.fetch_rows, execute, mem_engine.
    cbn [MemDB.run MemDB.selection]. rewrite Hrows.
    rewrite (filter_all (fun _ => true)) by reflexivity.
    destruct self; reflexivity. }
  erewrite bind_run; [|apply Hfetch; exact Htgt]. cbv beta.
  rewrite format_ids, bind_lift_ok_run.
  erewrite bind_run; [|apply Hfetch; exact Hsrc]. cbv beta.
  rewrite format_ids, bind_lift_ok_run, logged_logged. reflexivity.
Qed.

(** X6.  Without a time range, on the in-memory store, [find_orphans] is
    exact: an identifier is returned if and only if some row of the target
    has it and no row of the source has it.  Both stores are left as they
    were. *)
Theorem find_orphans_exact_without_range t key_field timestamp_fields
    (w : world MemDB.store) src tgt :
  MemDB.lookup_table t (source w) = Some src ->
  MemDB.lookup_table t (target w) = Some tgt ->
  exists orphans w',
    ELTDBPair.find_orphans t key_field None None timestamp_fields false w
    = (Returns orphans, w')
    /\ (forall k, In k orphans
                  <-> In k (map (id_of key_field) tgt)
                      /\ ~ In k (map (id_of key_field) src))
    /\ source w' = source w /\ target w' = target w.
Proof.
  intros Hsrc Htgt. eexists. eexists.
  split; [apply find_orphans_mem_all; eassumption|].
  split; [|split; reflexivity].
  intros k. rewrite set_difference_In, !set_of_list_In. reflexivity.
Qed.

(** X5.  With a datetime range, on the in-memory store and on any data,
    [find_orphans] is sound: every identifier it returns belongs to a row
    of the target inside the range and to no row of the source inside the
    range.  (It is not complete: equal counts return the empty set.) *)
Theorem find_orphans_sound_in_range t key_field c cs s e
    (w : world MemDB.store) src tgt :
  MemDB.lookup_table t (source w) = Some src ->
  MemDB.lookup_table t (target w) = Some tgt ->
  exists orphans w',
    ELTDBPair.find_orphans t key_field (Some (DateTime s)) (Some (DateTime e))
      (Some (c :: cs)) false w = (Returns orphans, w')
    /\ (forall k, In k orphans ->
          (exists r, In r tgt /\ in_range (c :: cs) s e r = true
                     /\ id_of key_field r = k)
          /\ (forall r, In r src -> in_range (c :: cs) s e r = true ->
                        id_of key_field r <> k))
    /\ source w' = source w /\ target w' = target w.
Proof.
  intros Hsrc Htgt.
  destruct (find_orphans_mem t key_field c cs s e w src tgt Hsrc Htgt)
    as [events Hfind].
  eexists. eexists. split; [exact Hfind|]. split; [|split; reflexivity].
  intros k Hk. destruct (_ =? 0); [contradiction|].
  apply set_difference_In in Hk. rewrite !set_of_list_In in Hk.
  destruct Hk as [Hin Hout]. split.
  - apply in_map_iff in Hin. destruct Hin as (r & Hid & Hr).
    apply filter_In in Hr. exists r. tauto.
  - intros r Hr Hrange Hid. apply Hout. apply in_map_iff.
    exists r. split; [exact Hid|]. apply filter_In. tauto.
Qed.

(** ** Counting adjacent segments *)

Lemma filter_length_union {A} (p q pq : A -> bool) l :
  (forall x, pq x = p x || q x) ->
  (List.length (filter pq l)
   <= List.length (filter p l) + List.length (filter q l))%nat.
Proof.
  intros Hpq. induction l as [|x l IH]; cbn; [lia|].
  rewrite Hpq. destruct (p x), (q x); cbn; lia.
Qed.

Lemma holds_between_disjoint f s h e r :
  MemDB.holds r (Between f (Some (DateTime s)) (Some (DateTime h)))
  && MemDB.holds r (Between f (Some (DateTime h)) (Some (DateTime e)))
  = false.
Proof.
  unfold MemDB.holds. cbn [MemDB.instant].
  destruct (MemDB.column_time f r) as [t|]; [|reflexivity].
  destruct (Z.leb_spec s t), (Z.ltb_spec t h), (Z.leb_spec h t),
    (Z.ltb_spec t e); cbn; try reflexivity; lia.
Qed.

(** X3.  On the in-memory store the count over [[s, e)] is at most the sum
    of the counts over [[s, h)] and [[h, e)] for a midpoint [h] between the
    bounds, and with a single timestamp column it is exactly the sum: the
    half-open tests of the builder make adjacent segments tile the range.
    With several columns a row may fall in both halves. *)
Theorem count_adjacent_segments self t field_name c cs s h e
    (w : world MemDB.store) rows :
  MemDB.lookup_table t (DataClient.store_of self w) = Some rows ->
  s <= h <= e ->
  exists n1 n2 n,
    fst (DataClient.count self t field_name (Some (DateTime s))
           (Some (DateTime h)) (Some (c :: cs)) false w) = Returns (CInt n1)
    /\ fst (DataClient.count self t field_name (Some (DateTime h))
              (Some (DateTime e)) (Some (c :: cs)) false w)
       = Returns (CInt n2)
    /\ fst (DataClient.count self t field_name (Some (DateTime s))
              (Some (DateTime e)) (Some (c :: cs)) false w)
       = Returns (CInt n)
    /\ n <= n1 + n2
    /\ (cs = [] -> n = n1 + n2).
Proof.
  intros Hrows Hh.
  rewrite !(count_mem self t field_name c cs _ _ w rows Hrows). cbn [fst].
  eexists. eexists. eexists.
  split; [reflexivity|]. split; [reflexivity|]. split; [reflexivity|].
  set (f := counted_field field_name).
  assert (Hunion : forall r,
             in_range (c :: cs) s e r && MemDB.counted f r
             = in_range (c :: cs) s h r && MemDB.counted f r
               || in_range (c :: cs) h e r && MemDB.counted f r).
  { intros r. rewrite (in_range_split (c :: cs) s h e r (or_introl Hh)).
    destruct (in_range (c :: cs) s h r), (in_range (c :: cs) h e r),
      (MemDB.counted f r); reflexivity. }
  split.
  - rewrite <- Nat2Z.inj_add. apply Nat2Z.inj_le.
    apply filter_length_union. exact Hunion.
  - intros ->. rewrite <- Nat2Z.inj_add. f_equal.
    apply filter_length_split; [exact Hunion|].
    intros r. unfold in_range, range_tests. cbn [map existsb].
    rewrite !orb_false_r.
    pose proof (holds_between_disjoint c s h e r) as Hd.
    destruct (MemDB.holds r _), (MemDB.holds r _), (MemDB.counted f r);
      cbn in *; congruence.
Qed.

(** ** Removing twice *)

Lemma no_orphans_left key_field fields src tgt s e :
  filter (orphan_in key_field fields src s e)
    (filter (fun r => negb (orphan_in key_field fields src s e r)) tgt) = []
  /\ filter (fun r => negb (orphan_in key_field fields src s e r))
       (filter (fun r => negb (orphan_in key_field fields src s e r)) tgt)
     = filter (fun r => negb (orphan_in key_field fields src s e r)) tgt.
Proof.
  rewrite !filter_filter. split.
  - apply filter_none. intros r _.
    destruct (orphan_in key_field fields src s e r); reflexivity.
  - apply filter_ext. intros r.
    destruct (orphan_in key_field fields src s e r); reflexivity.
Qed.

(** X7.  On a dataset that differs by orphans only (the key a primary key
    of both stores, every source row a row of the target, and no key of the
    target NULL or with a single quote or a backslash in its text, which the
    delete would not escape), on the in-memory store,
    [remove_orphans_from_target] is idempotent: the first call returns the
    number of orphan rows of the range and leaves the target without them,
    a second call on the same range returns 0 and leaves the target as the
    first call left it; the source keeps its rows. *)
Theorem remove_orphans_idempotent table_name key_field c cs src tgt s e
    (w : world MemDB.store) :
  orphans_only table_name key_field w src tgt ->
  exists w1 w2,
    ELTDBPair.remove_orphans_from_target table_name key_field
      (Some (DateTime s)) (Some (DateTime e)) (Some (c :: cs)) false w
    = (Returns (Z.of_nat
                  (List.length
                     (filter (orphan_in key_field (c :: cs) src s e) tgt))),
       w1)
    /\ ELTDBPair.remove_orphans_from_target table_name key_field
         (Some (DateTime s)) (Some (DateTime e)) (Some (c :: cs)) false w1
       = (Returns 0, w2)
    /\ MemDB.lookup_table table_name (target w1)
       = Some (filter (fun r => negb (orphan_in key_field (c :: cs) src s e r))
                 tgt)
    /\ MemDB.lookup_table table_name (target w2)
       = MemDB.lookup_table table_name (target w1)
    /\ MemDB.lookup_table table_name (source w2) = Some src.
Proof.
  intros Hgood.
  destruct (remove_orphans_mem table_name key_field c cs src w tgt s e Hgood)
    as (w1 & E1 & Hgood1).
  destruct (remove_orphans_mem table_name key_field c cs src w1 _ s e Hgood1)
    as (w2 & E2 & Hgood2).
  destruct (no_orphans_left key_field (c :: cs) src tgt s e) as [Hnone Hsame].
  rewrite Hnone in E2. rewrite Hsame in Hgood2.
  exists w1, w2. split; [exact E1|]. split; [exact E2|].
  split; [exact (target_rows _ _ _ _ _ Hgood1)|].
  split; [|exact (source_rows _ _ _ _ _ Hgood2)].
  rewrite (target_rows _ _ _ _ _ Hgood1), (target_rows _ _ _ _ _ Hgood2).
  reflexivity.
Qed.

(** X8.  On a dataset that differs by orphans only (the key a primary key
    of both stores, every source row a row of the target, and no key of the
    target NULL or with a single quote or a backslash in its text), on the
    in-memory store, a binary search that
    ended leaves nothing to remove: a second search over the same range,
    with any threshold and any minimum segment size, returns 0. *)
Theorem binary_search_idempotent table_name key_field c cs src tgt s e
    thres min_segment_size (w : world MemDB.store) :
  orphans_only table_name key_field w src tgt ->
  exists N, forall fuel, (N <= fuel)%nat ->
    exists n w1,
      ELTDBPair.remove_orphans_from_target_with_binary_search fuel table_name
        key_field (Some (DateTime s)) (Some (DateTime e)) (Some (c :: cs))
        false thres min_segment_size w = (Returns n, w1)
      /\ forall thres' min_segment_size',
          exists N', forall fuel', (N' <= fuel')%nat ->
            fst (ELTDBPair.remove_orphans_from_target_with_binary_search
                   fuel' table_name key_field (Some (DateTime s))
                   (Some (DateTime e)) (Some (c :: cs)) false thres'
                   min_segment_size' w1) = Returns 0.
Proof.
  intros Hgood.
  destruct (binary_search_has_enough_fuel table_name key_field
              (Some (DateTime s)) (Some (DateTime e)) (Some (c :: cs)) false
              thres min_segment_size w) as [N HN].
  exists N. intros fuel Hfuel.
  destruct (binary_search_mem table_name key_field c cs src fuel thres
              min_segment_size s e w tgt Hgood) as [Hout | [Hret Hgood1]];
    [exfalso; exact (HN fuel Hfuel Hout)|].
  destruct (ELTDBPair.remove_orphans_from_target_with_binary_search fuel
              table_name key_field (Some (DateTime s)) (Some (DateTime e))
              (Some (c :: cs)) false thres min_segment_size w)
    as [o w1] eqn:Erun.
  cbn [fst snd] in Hret, Hgood1. subst o.
  eexists. exists w1. split; [reflexivity|].
  intros thres' min_segment_size'.
  destruct (binary_search_has_enough_fuel table_name key_field
              (Some (DateTime s)) (Some (DateTime e)) (Some (c :: cs)) false
              thres' min_segment_size' w1) as [N' HN'].
  exists N'. intros fuel' Hfuel'.
  destruct (binary_search_mem table_name key_field c cs src fuel' thres'
              min_segment_size' s e w1 _ Hgood1) as [Hout | [Hret' _]];
    [exfalso; exact (HN' fuel' Hfuel' Hout)|].
  rewrite Hret'.
  rewrite (proj1 (no_orphans_left key_field (c :: cs) src tgt s e)).
  reflexivity.
Qed.

(** ** What the source receives *)

Lemma sends_bind {db A B} P (m : M db A) (k : A -> M db B) :
  sends P m -> (forall a, sends P (k a)) -> sends P (bind m k).
Proof.
  intros Hm Hk w. unfold bind. destruct (Hm w) as (e1 & T1 & R1).
  destruct (m w) as [[a | e |] w1]; cbn [snd] in *;
    try (exists e1; split; assumption).
  destruct (Hk a w1) as (e2 & T2 & R2). exists (e1 ++ e2).
  rewrite T2, T1, <- app_assoc, forallb_app, R1, R2. split; reflexivity.
Qed.

Lemma sends_ret {db A} P (a : A) : sends P (@ret db A a).
Proof. intros w. exists []. cbn. now rewrite app_nil_r. Qed.

Lemma sends_raise {db A} P e : sends P (@raise db A e).
Proof. intros w. exists []. cbn. now rewrite app_nil_r. Qed.

Lemma sends_lift {db A} P (r : result A) : sends P (@lift db A r).
Proof. destruct r; [apply sends_ret | apply sends_raise]. Qed.

Lemma sends_fetch_rows {db} `{Engine db} P self q :
  P (self, q) = true -> sends P (DataClient.fetch_rows self q).
Proof.
  intros R w. destruct (fetch_rows_run self q w) as (o & w' & E & T & _).
  rewrite E. exists [(self, q)]. cbn [snd forallb]. now rewrite R.
Qed.

Lemma remove_orphans_spares_source {db} `{Engine db} table_name key_field
    start_datetime end_datetime timestamp_fields stick :
  sends source_is_read
    (ELTDBPair.remove_orphans_from_target table_name key_field
       start_datetime end_datetime timestamp_fields stick).
Proof.
  unfold ELTDBPair.remove_orphans_from_target, ELTDBPair.find_orphans,
    ELTDBPair.compare_counts, ELTDBPair.fetch_and_diff, DataClient.count,
    DataClient.query.
  repeat first
    [ apply sends_bind | apply sends_ret | apply sends_raise
    | apply sends_lift | apply sends_fetch_rows; reflexivity
    | match goal with
      | |- forall _, sends _ _ => intro
      | |- sends _ (match ?x with _ => _ end) => destruct x
      end ].
Qed.

Lemma binary_search_body_spares_source {db} `{Engine db}
    (self : ELTDBPair.binary_search) :
  (forall table_name key_field start_datetime end_datetime timestamp_fields
          stick thres min_segment_size,
      sends source_is_read
        (self table_name key_field start_datetime end_datetime
           timestamp_fields stick thres min_segment_size)) ->
  forall table_name key_field start_datetime end_datetime timestamp_fields
         stick thres min_segment_size,
    sends source_is_read
      (ELTDBPair.binary_search_body self table_name key_field start_datetime
         end_datetime timestamp_fields stick thres min_segment_size).
Proof.
  intros Hself table_name key_field start_datetime end_datetime
    timestamp_fields stick thres min_segment_size.
  unfold ELTDBPair.binary_search_body, ELTDBPair.derive_bound,
    DataClient.count, DataClient.query.
  repeat first
    [ apply remove_orphans_spares_source | apply Hself
    | apply sends_bind | apply sends_ret | apply sends_raise
    | apply sends_lift | apply sends_fetch_rows; reflexivity
    | match goal with
      | |- forall _, sends _ _ => intro
      | |- sends _ (let '(_, _) := ?x in _) => destruct x
      | |- sends _ (match ?x with _ => _ end) => destruct x
      end ].
Qed.

(** X9.  On every engine, the flat removal and the binary search send the
    source nothing but counts and fetches of identifiers: the bulk delete
    and the MIN/MAX queries only ever go to the target. *)
Theorem source_receives_reads_only {db} `{Engine db} table_name key_field
    start_datetime end_datetime timestamp_fields stick thres
    min_segment_size :
  sends source_is_read
    (ELTDBPair.remove_orphans_from_target table_name key_field
       start_datetime end_datetime timestamp_fields stick)
  /\ forall fuel,
      sends source_is_read
        (ELTDBPair.remove_orphans_from_target_with_binary_search fuel
           table_name key_field start_datetime end_datetime timestamp_fields
           stick thres min_segment_size).
Proof.
  split; [apply remove_orphans_spares_source|].
  intros fuel. revert table_name key_field start_datetime end_datetime
    timestamp_fields stick thres min_segment_size.
  induction fuel as [|fuel IH]; intros.
  - intros w. exists []. cbn. now rewrite app_nil_r.
  - rewrite binary_search_unfold.
    apply binary_search_body_spares_source. exact IH.
Qed.

(** ** Bounds read from the target *)

Lemma derive_bound_mem agg t c (w : world MemDB.store) tgt m :
  MemDB.lookup_table t (target w) = Some tgt ->
  MemDB.extreme_time agg c tgt = CTime m ->
  ELTDBPair.derive_bound agg t (Some [c]) w
  = (Returns (Some (DateTime m)),
     logged w [(Target, ExtremeQuery agg [c] t)]).
Proof.
  intros Htgt Hm. unfold ELTDBPair.derive_bound, DataClient.query.
  unfold bind, DataClient.fetch_rows, execute, mem_engine.
  cbn [MemDB.run DataClient.store_of]. rewrite Htgt.
  cbn [map snd py_extreme extreme_of]. rewrite Hm. reflexivity.
Qed.

(** With both bounds left out, the search reads them from the target and
    goes on as if they had been given. *)
Lemma binary_search_derives_bounds fuel t key_field c thres min_segment_size
    (w : world MemDB.store) tgt mn mx :
  MemDB.lookup_table t (target w) = Some tgt ->
  MemDB.extreme_time MIN c tgt = CTime mn ->
  MemDB.extreme_time MAX c tgt = CTime mx ->
  ELTDBPair.remove_orphans_from_target_with_binary_search (S fuel) t key_field
    None None (Some [c]) false thres min_segment_size w
  = ELTDBPair.remove_orphans_from_target_with_binary_search (S fuel) t
      key_field (Some (DateTime mn)) (Some (DateTime mx)) (Some [c]) false
      thres min_segment_size
      (logged w [(Target, ExtremeQuery MIN [c] t);
                 (Target, ExtremeQuery MAX [c] t)]).
Proof.
  intros Htgt Hmn Hmx. rewrite !binary_search_unfold.
  unfold ELTDBPair.binary_search_body. cbn [truthy].
  erewrite bind_run; [|eapply derive_bound_mem; eassumption]. cbv beta.
  erewrite bind_run; [|eapply derive_bound_mem; eassumption]. cbv beta.
  rewrite logged_logged, !bind_ret_run. reflexivity.
Qed.

Lemma extreme_time_max_fold c t :
  forall acc mx,
    (acc = CNull \/ exists a, acc = CTime a) ->
    fold_left
      (fun acc r =>
         match MemDB.column_time c r, acc with
         | Some x, CTime a => if a <? x then CTime x else CTime a
         | Some x, _ => CTime x
         | None, _ => acc
         end) t acc = CTime mx ->
    (acc = CTime mx \/ exists r, In r t /\ MemDB.column_time c r = Some mx)
    /\ (forall a, acc = CTime a -> a <= mx)
    /\ (forall r x, In r t -> MemDB.column_time c r = Some x -> x <= mx).
Proof.
  induction t as [|r0 t IH]; intros acc mx Hacc Hfold; cbn [fold_left] in Hfold.
  - subst acc. split; [left; reflexivity|]. split.
    + intros a Ha. inversion Ha. lia.
    + intros r x [].
  - destruct (MemDB.column_time c r0) as [x0|] eqn:Hx0.
    + destruct Hacc as [-> | [a ->]].
      * destruct (IH (CTime x0) mx (or_intror (ex_intro _ x0 eq_refl)) Hfold)
          as (Hwho & Hle & Hall).
        split; [|split].
        -- right. destruct Hwho as [Hw | (r & Hr & Hrx)].
           ++ inversion Hw; subst. exists r0. split; [left; reflexivity|assumption].
           ++ exists r. split; [right; assumption|assumption].
        -- intros a Ha. discriminate.
        -- intros r x [<- | Hr] Hrx.
           ++ rewrite Hx0 in Hrx. inversion Hrx; subst. apply Hle. reflexivity.
           ++ eapply Hall; eassumption.
      * destruct (Z.ltb_spec a x0).
        -- destruct (IH (CTime x0) mx (or_intror (ex_intro _ x0 eq_refl)) Hfold)
             as (Hwho & Hle & Hall).
           specialize (Hle x0 eq_refl). split; [|split].
           ++ right. destruct Hwho as [Hw | (r & Hr & Hrx)].
              ** inversion Hw; subst. exists r0.
                 split; [left; reflexivity|assumption].
              ** exists r. split; [right; assumption|assumption].
           ++ intros a' Ha'. inversion Ha'; subst. lia.
           ++ intros r x [<- | Hr] Hrx.
              ** rewrite Hx0 in Hrx. inversion Hrx; subst. exact Hle.
              ** eapply Hall; eassumption.
        -- destruct (IH (CTime a) mx (or_intror (ex_intro _ a eq_refl)) Hfold)
             as (Hwho & Hle & Hall).
           specialize (Hle a eq_refl). split; [|split].
           ++ destruct Hwho as [Hw | (r & Hr & Hrx)]; [left; exact Hw|].
              right. exists r. split; [right; assumption|assumption].
           ++ intros a' Ha'. inversion Ha'; subst. exact Hle.
           ++ intros r x [<- | Hr] Hrx.
              ** rewrite Hx0 in Hrx. inversion Hrx; subst. lia.
              ** eapply Hall; eassumption.
    + assert (Hsame : match acc with
                      | CNull | _ => acc
                      end = acc) by (destruct acc; reflexivity).
      destruct (IH acc mx Hacc) as (Hwho & Hle & Hall).
      { destruct acc; exact Hfold. }
      split; [|split; [exact Hle|]].
      * destruct Hwho as [Hw | (r & Hr & Hrx)]; [left; exact Hw|].
        right. exists r. split; [right; assumption|assumption].
      * intros r x [<- | Hr] Hrx; [congruence|]. eapply Hall; eassumption.
Qed.

(** The MAX of a column is the timestamp of some row and bounds them all. *)
Lemma extreme_time_max c t mx :
  MemDB.extreme_time MAX c t = CTime mx ->
  (exists r, In r t /\ MemDB.column_time c r = Some mx)
  /\ (forall r x, In r t -> MemDB.column_time c r = Some x -> x <= mx).
Proof.
  intros Hmx. unfold MemDB.extreme_time in Hmx.
  destruct (extreme_time_max_fold c t CNull mx (or_introl eq_refl) Hmx)
    as ([Hnull | Hwho] & _ & Hall); [discriminate|]. auto.
Qed.

(** X10.  On a dataset that differs by orphans only (the key a primary key
    of both stores, every source row a row of the target, and no key of the
    target NULL or with a single quote or a backslash in its text), on the
    in-memory store, with both bounds left out and one timestamp column, the
    binary search works on [[MIN, MAX)] of the target: MAX is the timestamp of some
    row, the search returns the number of orphan rows strictly before MAX,
    and every row of the target that holds the MAX timestamp is still there
    afterwards, orphan or not. *)
Theorem derived_range_excludes_latest_rows table_name key_field c src tgt
    mn mx thres min_segment_size (w : world MemDB.store) :
  orphans_only table_name key_field w src tgt ->
  MemDB.extreme_time MIN c tgt = CTime mn ->
  MemDB.extreme_time MAX c tgt = CTime mx ->
  (exists r, In r tgt /\ MemDB.column_time c r = Some mx)
  /\ (forall r x, In r tgt -> MemDB.column_time c r = Some x -> x <= mx)
  /\ exists N, forall fuel, (N <= fuel)%nat ->
      let run :=
        ELTDBPair.remove_orphans_from_target_with_binary_search fuel
          table_name key_field None None (Some [c]) false thres
          min_segment_size w in
      fst run
      = Returns (Z.of_nat
                   (List.length
                      (filter (orphan_in key_field [c] src mn mx) tgt)))
      /\ exists tgt',
          MemDB.lookup_table table_name (target (snd run)) = Some tgt'
          /\ forall r, In r tgt -> MemDB.column_time c r = Some mx ->
                       In r tgt'.
Proof.
  intros Hgood Hmn Hmx.
  destruct (extreme_time_max c tgt mx Hmx) as [Hwho Hall].
  split; [exact Hwho|]. split; [exact Hall|].
  destruct (binary_search_has_enough_fuel table_name key_field None None
              (Some [c]) false thres min_segment_size w) as [N HN].
  exists N. intros fuel Hfuel. cbv zeta.
  specialize (HN fuel Hfuel).
  destruct fuel as [|fuel]; [now cbn in HN|].
  rewrite (binary_search_derives_bounds fuel table_name key_field c thres
             min_segment_size w tgt mn mx
             (target_rows _ _ _ _ _ Hgood) Hmn Hmx) in HN |- *.
  destruct (binary_search_mem table_name key_field c [] src (S fuel) thres
              min_segment_size mn mx _ tgt
              (good_logged table_name key_field src w tgt
                 [(Target, ExtremeQuery MIN [c] table_name);
                  (Target, ExtremeQuery MAX [c] table_name)] Hgood))
    as [Hout | [Hret Hafter]]; [contradiction|].
  split; [exact Hret|].
  eexists. split; [exact (target_rows _ _ _ _ _ Hafter)|].
  intros r Hr Hlatest. apply filter_In. split; [exact Hr|].
  unfold orphan_in, in_range, range_tests, MemDB.holds.
  cbn [map existsb MemDB.instant]. rewrite Hlatest.
  destruct (Z.ltb_spec mx mx); [lia|].
  now rewrite andb_false_r.
Qed.

(** ** Loading rows *)


Lemma insert_rows_mem rows t replace (s : MemDB.store) name executed old :
  MemDB.lookup_table t s = Some old ->
  t <> "" ->
  exists s',
    insert_rows rows (Some t) replace (Client s name executed)
    = (construct_response rows (Some t),
       Client s' (Some t)
         (executed
          ++ (if replace then [TruncateTable (Some t)] else [])
          ++ [InsertRows t rows]))
    /\ MemDB.lookup_table t s'
       = Some ((if replace then [] else old) ++ inserted_rows rows).
Proof.
  intros Hold Hname. apply String.eqb_neq in Hname.
  unfold insert_rows, execute_statement, run_statement, mem_loader,
    client_table.
  destruct replace; cbn [mem_load str_table client_store client_table_name
                         client_executed].
  - rewrite Hold. cbn [client_store client_table_name client_executed].
    rewrite Hname.
    rewrite (lookup_replace t [] s old Hold).
    cbn [client_store client_table_name client_executed].
    eexists. split.
    + rewrite <- app_assoc. reflexivity.
    + eapply lookup_replace. eapply lookup_replace. exact Hold.
  - rewrite Hname. rewrite Hold.
    cbn [client_store client_table_name client_executed].
    eexists. split; [reflexivity|]. eapply lookup_replace. exact Hold.
Qed.

Lemma count_mem_all self t timestamp_fields (w : world MemDB.store) rows :
  MemDB.lookup_table t (DataClient.store_of self w) = Some rows ->
  DataClient.count self t None None None timestamp_fields false w
  = (Returns (CInt (Z.of_nat (List.length rows))),
     logged w [(self, CountQuery "*" t [])]).
Proof.
  intros Hrows.
  rewrite (count_unfold _ _ _ _ _ _ _ _ _
             (proj1 (no_range_no_clause timestamp_fields))).
  unfold bind, DataClient.fetch_rows, execute, mem_engine.
  cbn [MemDB.run MemDB.selection counted_field]. rewrite Hrows.
  rewrite (filter_all _ rows) by reflexivity.
  destruct self; reflexivity.
Qed.

(** X12.  On the in-memory store, [insert_rows] with an empty list raises
    [IndexError] after its statements were executed: the insert, which
    carries no values, has added one row with every column NULL, after the
    old rows, or alone in the table when [replace] is set; a count of the
    table afterwards includes that row. *)
Theorem insert_rows_empty_leaves_null_row t replace (s : MemDB.store) name
    executed old :
  MemDB.lookup_table t s = Some old ->
  t <> "" ->
  exists self' null_row,
    insert_rows [] (Some t) replace (Client s name executed)
    = (Raise (IndexError "list index out of range"), self')
    /\ MemDB.lookup_table t (client_store self')
       = Some ((if replace then [] else old) ++ [null_row])
    /\ (forall column_name, MemDB.column column_name null_row = CNull)
    /\ client_executed self'
       = executed ++ (if replace then [TruncateTable (Some t)] else [])
         ++ [InsertRows t []]
    /\ forall other events timestamp_fields,
        fst (DataClient.count Target t None None None timestamp_fields false
               (World other (client_store self') events))
        = Returns (CInt (Z.of_nat
                           (List.length (if replace then [] else old)) + 1)).
Proof.
  intros Hold Hname.
  destruct (insert_rows_mem [] t replace s name executed old Hold Hname)
    as (s' & Hrun & Hrows).
  cbn [inserted_rows construct_response] in Hrun, Hrows.
  exists (Client s' (Some t)
            (executed ++ (if replace then [TruncateTable (Some t)] else [])
             ++ [InsertRows t []])), [].
  split; [exact Hrun|]. cbn [client_store client_executed].
  split; [exact Hrows|]. split; [reflexivity|]. split; [reflexivity|].
  intros other events timestamp_fields.
  erewrite count_mem_all by exact Hrows. cbn [fst].
  rewrite length_app. cbn [List.length]. do 2 f_equal. lia.
Qed.

(** X13.  On the in-memory store, loading a non-empty list of rows into an
    existing table returns the summary; afterwards the table holds the rows
    (after the old ones, unless [replace] is set) and a count of the table
    returns their number. *)
Theorem insert_then_count rows t replace (s : MemDB.store) name executed
    old :
  MemDB.lookup_table t s = Some old ->
  t <> "" ->
  rows <> [] ->
  exists summary self',
    insert_rows rows (Some t) replace (Client s name executed)
    = (Ok summary, self')
    /\ MemDB.lookup_table t (client_store self')
       = Some ((if replace then [] else old) ++ rows)
    /\ client_table_name self' = Some t
    /\ forall other events timestamp_fields,
        fst (DataClient.count Target t None None None timestamp_fields false
               (World other (client_store self') events))
        = Returns (CInt (Z.of_nat
                           (List.length (if replace then [] else old)
                            + List.length rows))).
Proof.
  intros Hold Hname Hrows.
  destruct (insert_rows_mem rows t replace s name executed old Hold Hname)
    as (s' & Hrun & Hafter).
  destruct rows as [|first rest]; [congruence|].
  cbn [construct_response] in Hrun. cbn [inserted_rows] in Hafter.
  eexists. eexists. split; [exact Hrun|]. cbn [client_store client_table_name].
  split; [exact Hafter|]. split; [reflexivity|].
  intros other events timestamp_fields.
  erewrite count_mem_all by exact Hafter. cbn [fst].
  now rewrite length_app.
Qed.

(** X14.  On the in-memory store, after the same non-empty rows were loaded
    with [replace] into the table of the source and of the target,
    [find_orphans] without a time range returns the empty set. *)
Theorem load_both_then_no_orphans rows t key_field timestamp_fields
    (s1 s2 : MemDB.store) old1 old2 :
  MemDB.lookup_table t s1 = Some old1 ->
  MemDB.lookup_table t s2 = Some old2 ->
  t <> "" ->
  rows <> [] ->
  exists summary1 summary2 source' target',
    insert_rows rows (Some t) true (new_client s1) = (Ok summary1, source')
    /\ insert_rows rows (Some t) true (new_client s2) = (Ok summary2, target')
    /\ fst (ELTDBPair.find_orphans t key_field None None timestamp_fields
              false
              (World (client_store source') (client_store target') []))
       = Returns [].
Proof.
  intros Hold1 Hold2 Hname Hrows.
  destruct (insert_rows_mem rows t true s1 None [] old1 Hold1 Hname)
    as (s1' & Hrun1 & Hafter1).
  destruct (insert_rows_mem rows t true s2 None [] old2 Hold2 Hname)
    as (s2' & Hrun2 & Hafter2).
  destruct rows as [|first rest]; [congruence|].
  cbn [construct_response] in Hrun1, Hrun2.
  cbn [inserted_rows] in Hafter1, Hafter2.
  eexists. eexists. eexists. eexists.
  split; [exact Hrun1|]. split; [exact Hrun2|].
  cbn [client_store].
  erewrite find_orphans_mem_all by (cbn [source target]; eassumption).
  cbn [fst app]. f_equal. unfold set_difference. apply filter_none.
  intros k Hk. apply negb_false_iff, key_mem_In. exact Hk.
Qed.

(** ** Pairs from the settings *)

Section SettingsLaws.

Variable engine : Type.
Variable settings : Type.
Variable engine_from_settings :
  string -> list (string * settings) -> result engine.
Variable client_databases : list (string * settings).
Variable databases : list (string * settings).
Variable elt_pairs : list (string * list (string * string)).

Local Abbreviation pair_from_settings dbs :=
  (Settings.from_settings engine settings engine_from_settings
     client_databases dbs elt_pairs).

(** X15.  In [ELTDBPair.from_settings] a non-empty name and key stand in for
    each other: giving the name alone, the key alone, or the same string for
    both builds the same pair. *)
Theorem from_settings_name_or_key n :
  n <> "" ->
  let build :=
    Settings.from_settings engine settings engine_from_settings
      client_databases databases elt_pairs in
  build (Some n) None = build (Some n) (Some n)
  /\ build None (Some n) = build (Some n) (Some n)
  /\ build (Some n) (Some "") = build (Some n) (Some n)
  /\ build (Some "") (Some n) = build (Some n) (Some n).
Proof.
  intros Hn build. subst build. apply String.eqb_neq in Hn.
  unfold Settings.from_settings, Settings.truthy_name.
  cbn [String.eqb negb]. rewrite Hn. cbn [negb]. repeat split; reflexivity.
Qed.

(** X16.  An empty [ELTDBPair.databases] is not passed on: both clients are
    then built from [DataClient.databases], as if that dictionary had been
    given; a non-empty one is used whatever [DataClient.databases] holds. *)
Theorem from_settings_empty_databases name db_key :
  pair_from_settings [] name db_key
  = pair_from_settings client_databases name db_key
  /\ forall d rest others,
      pair_from_settings (d :: rest) name db_key
      = Settings.from_settings engine settings engine_from_settings
          others (d :: rest) elt_pairs name db_key.
Proof.
  unfold Settings.from_settings, Settings.client_from_settings.
  split; [destruct client_databases; reflexivity | reflexivity].
Qed.

(** X17.  A pair built by [ELTDBPair.from_settings] has a string for its
    name, so its [__repr__] returns: with neither a name nor a key the lookup
    in [elt_pairs] fails before a pair is built. *)
Theorem from_settings_pair_is_named name db_key p :
  pair_from_settings databases name db_key = Ok p ->
  exists n,
    Settings.repr engine p = Ok n
    /\ (name = Some n \/ db_key = Some n)
    /\ exists k, (name = Some k \/ db_key = Some k)
                 /\ Settings.dict_get k elt_pairs <> None.
Proof.
  unfold Settings.from_settings, Settings.repr.
  set (name' := if Settings.truthy_name name then name else db_key).
  set (key' := if Settings.truthy_name db_key then db_key else name').
  intros Hp.
  assert (Hkey : exists k, key' = Some k
                           /\ Settings.dict_get k elt_pairs <> None).
  { destruct key' as [k|]; [|discriminate]. exists k. split; [reflexivity|].
    unfold Settings.dict_item in Hp.
    destruct (Settings.dict_get k elt_pairs); [discriminate | discriminate]. }
  destruct Hkey as (k & Hk & Hin).
  assert (Hname : exists n, name' = Some n).
  { subst key' name'.
    destruct name as [a|], db_key as [b|]; cbn in *;
      repeat match goal with
             | |- context [if ?c then _ else _] => destruct c
             | H : context [if ?c then _ else _] |- _ => destruct c
             end; try discriminate; eexists; reflexivity. }
  destruct Hname as (n & Hn).
  assert (Hres : Settings.pair_name engine p = name').
  { revert Hp. rewrite Hk.
    repeat match goal with
           | |- context [match ?x with Ok _ => _ | Raise _ => _ end] =>
               destruct x
           end; try discriminate.
    intros [= <-]. reflexivity. }
  exists n. rewrite Hres, Hn. split; [reflexivity|]. split.
  - subst name'. destruct (Settings.truthy_name name); auto.
  - exists k. split; [|exact Hin]. subst key' name'.
    destruct (Settings.truthy_name db_key); auto.
    destruct (Settings.truthy_name name); auto.
Qed.

End SettingsLaws.

(** ** The further properties on the examples *)

Lemma count_adjacent_segments_witness :
  MemDB.lookup_table "events" (DataClient.store_of Target Examples.reconciled)
  = Some Examples.loaded
  /\ Examples.t0 <= Examples.at_second 20 <= Examples.at_second 40
  /\ exists n1 n2 n,
      fst (DataClient.count Target "events" None
             (Some (DateTime Examples.t0))
             (Some (DateTime (Examples.at_second 20)))
             (Some ["created_at"]) false Examples.reconciled)
      = Returns (CInt n1)
      /\ fst (DataClient.count Target "events" None
                (Some (DateTime (Examples.at_second 20)))
                (Some (DateTime (Examples.at_second 40)))
                (Some ["created_at"]) false Examples.reconciled)
         = Returns (CInt n2)
      /\ fst (DataClient.count Target "events" None
                (Some (DateTime Examples.t0))
                (Some (DateTime (Examples.at_second 40)))
                (Some ["created_at"]) false Examples.reconciled)
         = Returns (CInt n)
      /\ n <= n1 + n2
      /\ (@nil string = [] -> n = n1 + n2).
Proof.
  assert (Hrows : MemDB.lookup_table "events"
                    (DataClient.store_of Target Examples.reconciled)
                  = Some Examples.loaded) by reflexivity.
  assert (Horder : Examples.t0 <= Examples.at_second 20
                   <= Examples.at_second 40)
    by (vm_compute; split; intros Hgt; discriminate Hgt).
  split; [exact Hrows|]. split; [exact Horder|].
  exact (count_adjacent_segments Target "events" None "created_at" []
           Examples.t0 (Examples.at_second 20) (Examples.at_second 40)
           Examples.reconciled Examples.loaded Hrows Horder).
Defined.

Lemma find_orphans_returns_set_witness :
  ELTDBPair.find_orphans "events" "id" None None None false
    Examples.duplicated
  = (Returns [KInt 7],
     logged Examples.duplicated
       [(Target, AllIdsQuery "id" "events" []);
        (Source, AllIdsQuery "id" "events" [])])
  /\ NoDup [KInt 7].
Proof.
  assert (Hfind : ELTDBPair.find_orphans "events" "id" None None None false
                    Examples.duplicated
                  = (Returns [KInt 7],
                     logged Examples.duplicated
                       [(Target, AllIdsQuery "id" "events" []);
                        (Source, AllIdsQuery "id" "events" [])]))
    by (vm_compute; reflexivity).
  split; [exact Hfind|].
  exact (find_orphans_returns_set (db := MemDB.store) "events" "id" None None
           None false Examples.duplicated
           (logged Examples.duplicated
              [(Target, AllIdsQuery "id" "events" []);
               (Source, AllIdsQuery "id" "events" [])])
           [KInt 7] Hfind).
Defined.

Lemma find_orphans_sound_in_range_witness :
  MemDB.lookup_table "events" (source Examples.reconciled)
  = Some Examples.kept
  /\ MemDB.lookup_table "events" (target Examples.reconciled)
     = Some Examples.loaded
  /\ exists orphans w',
      ELTDBPair.find_orphans "events" "id" (Some (DateTime Examples.t0))
        (Some (DateTime (Examples.at_second 40))) (Some ["created_at"]) false
        Examples.reconciled = (Returns orphans, w')
      /\ (forall k, In k orphans ->
            (exists r, In r Examples.loaded
                       /\ in_range ["created_at"] Examples.t0
                            (Examples.at_second 40) r = true
                       /\ id_of "id" r = k)
            /\ (forall r, In r Examples.kept ->
                          in_range ["created_at"] Examples.t0
                            (Examples.at_second 40) r = true ->
                          id_of "id" r <> k))
      /\ source w' = source Examples.reconciled
      /\ target w' = target Examples.reconciled.
Proof.
  assert (Hsrc : MemDB.lookup_table "events" (source Examples.reconciled)
                 = Some Examples.kept) by reflexivity.
  assert (Htgt : MemDB.lookup_table "events" (target Examples.reconciled)
                 = Some Examples.loaded) by reflexivity.
  split; [exact Hsrc|]. split; [exact Htgt|].
  exact (find_orphans_sound_in_range "events" "id" "created_at" []
           Examples.t0 (Examples.at_second 40) Examples.reconciled
           Examples.kept Examples.loaded Hsrc Htgt).
Defined.

Lemma find_orphans_exact_without_range_witness :
  MemDB.lookup_table "events" (source Examples.reconciled)
  = Some Examples.kept
  /\ MemDB.lookup_table "events" (target Examples.reconciled)
     = Some Examples.loaded
  /\ exists orphans w',
      ELTDBPair.find_orphans "events" "id" None None None false
        Examples.reconciled = (Returns orphans, w')
      /\ (forall k, In k orphans
                    <-> In k (map (id_of "id") Examples.loaded)
                        /\ ~ In k (map (id_of "id") Examples.kept))
      /\ source w' = source Examples.reconciled
      /\ target w' = target Examples.reconciled.
Proof.
  assert (Hsrc : MemDB.lookup_table "events" (source Examples.reconciled)
                 = Some Examples.kept) by reflexivity.
  assert (Htgt : MemDB.lookup_table "events" (target Examples.reconciled)
                 = Some Examples.loaded) by reflexivity.
  split; [exact Hsrc|]. split; [exact Htgt|].
  exact (find_orphans_exact_without_range "events" "id" None
           Examples.reconciled Examples.kept Examples.loaded Hsrc Htgt).
Defined.

Lemma remove_orphans_idempotent_witness :
  orphans_only "events" "id" Examples.reconciled Examples.kept Examples.loaded
  /\ exists w1 w2,
      ELTDBPair.remove_orphans_from_target "events" "id"
        (Some (DateTime Examples.t0))
        (Some (DateTime (Examples.at_second 40))) (Some ["created_at"]) false
        Examples.reconciled
      = (Returns (Z.of_nat
                    (List.length
                       (filter (orphan_in "id" ["created_at"] Examples.kept
                                  Examples.t0 (Examples.at_second 40))
                          Examples.loaded))),
         w1)
      /\ ELTDBPair.remove_orphans_from_target "events" "id"
           (Some (DateTime Examples.t0))
           (Some (DateTime (Examples.at_second 40))) (Some ["created_at"])
           false w1
         = (Returns 0, w2)
      /\ MemDB.lookup_table "events" (target w1)
         = Some (filter (fun r => negb (orphan_in "id" ["created_at"]
                                          Examples.kept Examples.t0
                                          (Examples.at_second 40) r))
                   Examples.loaded)
      /\ MemDB.lookup_table "events" (target w2)
         = MemDB.lookup_table "events" (target w1)
      /\ MemDB.lookup_table "events" (source w2) = Some Examples.kept.
Proof.
  split; [exact reconciled_differs_by_orphans_only|].
  exact (remove_orphans_idempotent "events" "id" "created_at" []
           Examples.kept Examples.loaded Examples.t0 (Examples.at_second 40)
           Examples.reconciled reconciled_differs_by_orphans_only).
Defined.

Lemma binary_search_idempotent_witness :
  orphans_only "events" "id" Examples.reconciled Examples.kept Examples.loaded
  /\ exists N, forall fuel, (N <= fuel)%nat ->
      exists n w1,
        ELTDBPair.remove_orphans_from_target_with_binary_search fuel "events"
          "id" (Some (DateTime Examples.t0))
          (Some (DateTime (Examples.at_second 40))) (Some ["created_at"])
          false 1 default_min_segment_size Examples.reconciled
        = (Returns n, w1)
        /\ forall thres' min_segment_size',
            exists N', forall fuel', (N' <= fuel')%nat ->
              fst (ELTDBPair.remove_orphans_from_target_with_binary_search
                     fuel' "events" "id" (Some (DateTime Examples.t0))
                     (Some (DateTime (Examples.at_second 40)))
                     (Some ["created_at"]) false thres' min_segment_size' w1)
              = Returns 0.
Proof.
  split; [exact reconciled_differs_by_orphans_only|].
  exact (binary_search_idempotent "events" "id" "created_at" []
           Examples.kept Examples.loaded Examples.t0 (Examples.at_second 40)
           1 default_min_segment_size Examples.reconciled
           reconciled_differs_by_orphans_only).
Defined.

Lemma derived_range_excludes_latest_rows_witness :
  orphans_only "events" "id" Examples.reconciled Examples.kept Examples.loaded
  /\ MemDB.extreme_time MIN "created_at" Examples.loaded
     = CTime (Examples.at_second 5)
  /\ MemDB.extreme_time MAX "created_at" Examples.loaded
     = CTime (Examples.at_second 31)
  /\ exists N, forall fuel, (N <= fuel)%nat ->
      let run :=
        ELTDBPair.remove_orphans_from_target_with_binary_search fuel
          "events" "id" None None (Some ["created_at"]) false 1
          default_min_segment_size Examples.reconciled in
      fst run
      = Returns (Z.of_nat
                   (List.length
                      (filter (orphan_in "id" ["created_at"] Examples.kept
                                 (Examples.at_second 5)
                                 (Examples.at_second 31))
                         Examples.loaded)))
      /\ exists tgt',
          MemDB.lookup_table "events" (target (snd run)) = Some tgt'
          /\ forall r, In r Examples.loaded ->
                       MemDB.column_time "created_at" r
                       = Some (Examples.at_second 31) ->
                       In r tgt'.
Proof.
  assert (Hmin : MemDB.extreme_time MIN "created_at" Examples.loaded
                 = CTime (Examples.at_second 5)) by (vm_compute; reflexivity).
  assert (Hmax : MemDB.extreme_time MAX "created_at" Examples.loaded
                 = CTime (Examples.at_second 31)) by (vm_compute; reflexivity).
  split; [exact reconciled_differs_by_orphans_only|].
  split; [exact Hmin|]. split; [exact Hmax|].
  pose proof (derived_range_excludes_latest_rows "events" "id" "created_at"
                Examples.kept Examples.loaded (Examples.at_second 5)
                (Examples.at_second 31) 1 default_min_segment_size
                Examples.reconciled reconciled_differs_by_orphans_only
                Hmin Hmax) as T.
  destruct T as [_ [_ T]].
  exact T.
Defined.

Lemma insert_rows_empty_leaves_null_row_witness :
  MemDB.lookup_table "events" [("events", Examples.loaded)]
  = Some Examples.loaded
  /\ "events" <> ""
  /\ exists self' null_row,
      insert_rows [] (Some "events") true
        (new_client [("events", Examples.loaded)])
      = (Raise (IndexError "list index out of range"), self')
      /\ MemDB.lookup_table "events" (client_store self')
         = Some ([] ++ [null_row])
      /\ (forall column_name, MemDB.column column_name null_row = CNull)
      /\ client_executed self'
         = [] ++ [TruncateTable (Some "events")] ++ [InsertRows "events" []]
      /\ forall other events timestamp_fields,
          fst (DataClient.count Target "events" None None None
                 timestamp_fields false
                 (World other (client_store self') events))
          = Returns (CInt (Z.of_nat (@List.length row []) + 1)).
Proof.
  assert (Hold : MemDB.lookup_table "events" [("events", Examples.loaded)]
                 = Some Examples.loaded) by reflexivity.
  assert (Hname : "events" <> "") by discriminate.
  split; [exact Hold|]. split; [exact Hname|].
  exact (insert_rows_empty_leaves_null_row "events" true
           [("events", Examples.loaded)] None [] Examples.loaded Hold Hname).
Defined.

Lemma insert_then_count_witness :
  MemDB.lookup_table "events" [("events", Examples.kept)]
  = Some Examples.kept
  /\ "events" <> ""
  /\ Examples.loaded <> []
  /\ exists summary self',
      insert_rows Examples.loaded (Some "events") false
        (new_client [("events", Examples.kept)])
      = (Ok summary, self')
      /\ MemDB.lookup_table "events" (client_store self')
         = Some (Examples.kept ++ Examples.loaded)
      /\ client_table_name self' = Some "events"
      /\ forall other events timestamp_fields,
          fst (DataClient.count Target "events" None None None
                 timestamp_fields false
                 (World other (client_store self') events))
          = Returns (CInt (Z.of_nat
                             (List.length Examples.kept
                              + List.length Examples.loaded))).
Proof.
  assert (Hold : MemDB.lookup_table "events" [("events", Examples.kept)]
                 = Some Examples.kept) by reflexivity.
  assert (Hname : "events" <> "") by discriminate.
  assert (Hrows : Examples.loaded <> []) by discriminate.
  split; [exact Hold|]. split; [exact Hname|]. split; [exact Hrows|].
  exact (insert_then_count Examples.loaded "events" false
           [("events", Examples.kept)] None [] Examples.kept Hold Hname
           Hrows).
Defined.

Lemma load_both_then_no_orphans_witness :
  MemDB.lookup_table "events" [("events", Examples.kept)]
  = Some Examples.kept
  /\ MemDB.lookup_table "events" [("events", @nil row)] = Some []
  /\ "events" <> ""
  /\ Examples.loaded <> []
  /\ exists summary1 summary2 source' target',
      insert_rows Examples.loaded (Some "events") true
        (new_client [("events", Examples.kept)]) = (Ok summary1, source')
      /\ insert_rows Examples.loaded (Some "events") true
           (new_client [("events", @nil row)]) = (Ok summary2, target')
      /\ fst (ELTDBPair.find_orphans "events" "id" None None None false
                (World (client_store source') (client_store target') []))
         = Returns [].
Proof.
  assert (Hold1 : MemDB.lookup_table "events" [("events", Examples.kept)]
                  = Some Examples.kept) by reflexivity.
  assert (Hold2 : MemDB.lookup_table "events" [("events", @nil row)]
                  = Some []) by reflexivity.
  assert (Hname : "events" <> "") by discriminate.
  assert (Hrows : Examples.loaded <> []) by discriminate.
  split; [exact Hold1|]. split; [exact Hold2|]. split; [exact Hname|].
  split; [exact Hrows|].
  exact (load_both_then_no_orphans Examples.loaded "events" "id" None
           [("events", Examples.kept)] [("events", @nil row)] Examples.kept
           [] Hold1 Hold2 Hname Hrows).
Defined.

Lemma from_settings_name_or_key_witness :
  "sales" <> ""
  /\ Settings.from_settings string unit (fun db_key _ => Ok db_key) []
       [("crm", tt); ("warehouse", tt)]
       [("sales", [("source", "crm"); ("target", "warehouse")])]
       (Some "sales") None
     = Ok (Settings.Pair string (Some "sales") "crm" "warehouse")
  /\ Settings.from_settings string unit (fun db_key _ => Ok db_key) []
       [("crm", tt); ("warehouse", tt)]
       [("sales", [("source", "crm"); ("target", "warehouse")])]
       None (Some "sales")
     = Settings.from_settings string unit (fun db_key _ => Ok db_key) []
         [("crm", tt); ("warehouse", tt)]
         [("sales", [("source", "crm"); ("target", "warehouse")])]
         (Some "sales") (Some "sales").
Proof.
  assert (Hname : "sales" <> "") by discriminate.
  pose proof (from_settings_name_or_key string unit
                (fun db_key _ => Ok db_key) []
                [("crm", tt); ("warehouse", tt)]
                [("sales", [("source", "crm"); ("target", "warehouse")])]
                "sales" Hname) as T.
  cbv zeta in T.
  destruct T as [_ [Hkey _]].
  split; [exact Hname|]. split; [reflexivity | exact Hkey].
Defined.

Lemma from_settings_pair_is_named_witness :
  Settings.from_settings string unit (fun db_key _ => Ok db_key) []
    [("crm", tt); ("warehouse", tt)]
    [("sales", [("source", "crm"); ("target", "warehouse")])]
    None (Some "sales")
  = Ok (Settings.Pair string (Some "sales") "crm" "warehouse")
  /\ exists n,
      Settings.repr string
        (Settings.Pair string (Some "sales") "crm" "warehouse") = Ok n
      /\ (@None string = Some n \/ Some "sales" = Some n)
      /\ exists k,
          (@None string = Some k \/ Some "sales" = Some k)
          /\ Settings.dict_get k
               [("sales", [("source", "crm"); ("target", "warehouse")])]
             <> None.
Proof.
  assert (Hpair :
    Settings.from_settings string unit (fun db_key _ => Ok db_key) []
      [("crm", tt); ("warehouse", tt)]
      [("sales", [("source", "crm"); ("target", "warehouse")])]
      None (Some "sales")
    = Ok (Settings.Pair string (Some "sales") "crm" "warehouse"))
    by reflexivity.
  split; [exact Hpair|].
  exact (from_settings_pair_is_named string unit (fun db_key _ => Ok db_key)
           [] [("crm", tt); ("warehouse", tt)]
           [("sales", [("source", "crm"); ("target", "warehouse")])]
           None (Some "sales")
           (Settings.Pair string (Some "sales") "crm" "warehouse") Hpair).
Defined.
